(** * Screen Dimmer (dimmer.pyw): opacity curve, tint colour, schedule
      window, profile and state persistence, controller transitions.

    The development embeds the parts of [dimmer.pyw] that carry logic:

    - [DimmerOverlay.set_dimming]: the slider-percent to window-opacity
      curve, in two readings.  [actual_opacity_b64] computes in IEEE
      binary64 as CPython does, with the C library's [pow] (which
      [float.__pow__] calls and Rocq does not have) as a parameter; what
      is proved of it holds for every [pow].  [actual_opacity] reads the
      floats as real numbers and [**] as the real power function; every
      base handed to [**] is in (0, 1] (lemma [normalized_range]).  The
      shape of the curve (monotonicity) is proved in the second reading.
    - [DimmerControl._calculate_blue_light_color] and the tint-only
      opacity [int(intensity * 0.12)]: computed in IEEE binary64
      (primitive floats), bit for bit as CPython does.
    - the in-window test and the remaining-time arithmetic of
      [_check_schedule] and [_update_time_remaining] over [QTime].
    - [ProfileManager] over its mapping, its dirty flag and the profiles
      file.
    - [StateManager] and the [DimmerControl] handlers [_on_dim_changed],
      [_update_blue_light], [_update_second_display], [_toggle_dimmer],
      [_check_schedule], [_apply_preset], [_toggle_schedule_control] in a
      state-and-exception monad over the controller's attributes, the
      overlay dictionary and the state file.
    - [RainOverlay]: the items [start_rain] creates and the animation
      step [_update_rain], over the list of item dicts.
    - the handlers of the blue light filter and of the second display,
      [_load_saved_state] with the single shots it schedules, and the
      handlers of the blinker and of the quick timer, the last two over
      a record that adds the attributes they use to the controller's.
    - the extended-style words that the overlay window's methods hand
      to the Windows API.

    Widget styling, labels, animations' timing and tray tooltips carry no
    state that the handlers read back and are left out; tray
    notifications are kept as a log. *)

From Stdlib Require Import ZArith Reals Lra Lia List Bool String.
From Stdlib Require Import Floats.
From stdpp Require Import gmap.

Set Warnings "-inexact-float".

(** ** Python built-ins used by the source *)

(** [max(a, b)] and [min(a, b)] on ints. *)
Definition py_max (a b : Z) : Z := if (a <? b)%Z then b else a.
Definition py_min (a b : Z) : Z := if (b <? a)%Z then b else a.

(** The same on floats: the second argument replaces the first only when
    the comparison says so, which also settles what a NaN does. *)
Definition py_fmax (a b : float) : float := if (a <? b)%float then b else a.
Definition py_fmin (a b : float) : float := if (b <? a)%float then b else a.

(** [float(z)] for a Python int: the nearest binary64 value, ties to even. *)
Definition float_of_int (z : Z) : float :=
  SF2Prim (binary_normalize prec emax z 0 false).

(** [int(x)] for a Python float: truncation toward zero.  CPython raises
    [OverflowError] on an infinity and [ValueError] on a NaN: [None]. *)
Definition int_of_float (x : float) : option Z :=
  match Prim2SF x with
  | S754_zero _ => Some 0%Z
  | S754_finite s m e =>
      let mag := match e with
                 | Z0 => Zpos m
                 | Zpos p => (Zpos m * 2 ^ Zpos p)%Z
                 | Zneg p => (Zpos m / 2 ^ Zpos p)%Z
                 end in
      Some (if s then (- mag)%Z else mag)
  | S754_infinity _ => None
  | S754_nan => None
  end.

(** ** Data models *)

(** [QColor(r, g, b)]. *)
Record QColor := mkQColor { red : Z; green : Z; blue : Z }.

(** [@dataclass Profile]. *)
Module Profile.
Record t := mk {
  dimming : Z;
  blue_light : bool;
  blue_intensity : Z
}.
End Profile.

(** [QTime]: a time of day with millisecond resolution.  Qt orders and
    compares times by the milliseconds elapsed since midnight. *)
Record QTime := mkQTime { hour : Z; minute : Z; second : Z; msec : Z }.

(** [QTime(h, m)]: seconds and milliseconds default to zero. *)
Definition QTime_hm (h m : Z) : QTime := mkQTime h m 0 0.

Definition msecs_since_start_of_day (t : QTime) : Z :=
  ((hour t * 60 + minute t) * 60 + second t) * 1000 + msec t.

Definition QTime_valid (t : QTime) : Prop :=
  (0 <= hour t < 24 /\ 0 <= minute t < 60 /\
   0 <= second t < 60 /\ 0 <= msec t < 1000)%Z.

Definition QTime_le (a b : QTime) : bool :=
  (msecs_since_start_of_day a <=? msecs_since_start_of_day b)%Z.
Definition QTime_lt (a b : QTime) : bool :=
  (msecs_since_start_of_day a <? msecs_since_start_of_day b)%Z.
Definition QTime_ge (a b : QTime) : bool := QTime_le b a.

(** ** DimmerOverlay *)

Module DimmerOverlay.

Local Open Scope R_scope.
Local Notation "x ** y" := (Rpower x y) (at level 30, right associativity).

(** The attributes of an overlay window that [set_dimming] writes: the
    style sheet's background colour, the running opacity animation
    (start value, end value) and [_current_opacity]. *)
Record t := mk {
  background : QColor;
  _opacity_animation : option (R * R);
  _current_opacity : R
}.

(** [__init__]: black background, window opacity 0, no animation. *)
Definition init : t := mk (mkQColor 0 0 0) None 0.0.

(** The local [actual_opacity] of [set_dimming], lines 472 to 532: the
    percent is clamped to 0..95, one of the two piecewise curves is
    evaluated, and the result is clamped to 0.0..0.99.  First in
    binary64, over the platform's [pow]. *)
Section Binary64.

Variable pow : float -> float -> float.

Definition actual_opacity_b64 (opacity : Z) (color : option QColor) : float :=
  let opacity := py_max 0 (py_min 95 opacity) in
  let actual_opacity :=
    match color with
    | Some _ =>
        if (opacity <=? 12)%Z then
          float_of_int opacity / 100.0
        else
          if (opacity <=? 15)%Z then
            float_of_int opacity * 2.0 / 100
          else if (opacity <=? 30)%Z then
            let normalized := float_of_int (opacity - 15) / 15 in
            0.30 + (pow normalized 1.0) * 0.20
          else if (opacity <=? 50)%Z then
            let normalized := float_of_int (opacity - 30) / 20 in
            0.50 + (pow normalized 1.2) * 0.15
          else
            let normalized := float_of_int (opacity - 50) / 45 in
            0.65 + (pow normalized 1.4) * 0.25
    | None =>
        if (opacity <=? 5)%Z then
          float_of_int opacity * 4.0 / 100
        else if (opacity <=? 15)%Z then
          let normalized := float_of_int (opacity - 5) / 10 in
          0.20 + (pow normalized 1.0) * 0.20
        else if (opacity <=? 30)%Z then
          let normalized := float_of_int (opacity - 15) / 15 in
          0.40 + (pow normalized 1.2) * 0.25
        else if (opacity <=? 50)%Z then
          let normalized := float_of_int (opacity - 30) / 20 in
          0.65 + (pow normalized 1.4) * 0.15
        else if (opacity <=? 75)%Z then
          let normalized := float_of_int (opacity - 50) / 25 in
          0.80 + (pow normalized 1.6) * 0.12
        else
          let normalized := float_of_int (opacity - 75) / 20 in
          0.92 + (pow normalized 2.5) * 0.07
    end%float in
  py_fmax 0.0 (py_fmin 0.99 actual_opacity).

End Binary64.

(** The same lines with the floats read as real numbers. *)
Definition actual_opacity (opacity : Z) (color : option QColor) : R :=
  let opacity := py_max 0 (py_min 95 opacity) in
  let actual_opacity :=
    match color with
    | Some _ =>
        if (opacity <=? 12)%Z then
          IZR opacity / 100.0
        else
          if (opacity <=? 15)%Z then
            IZR opacity * 2.0 / 100
          else if (opacity <=? 30)%Z then
            let normalized := IZR (opacity - 15) / 15 in
            0.30 + (normalized ** 1.0) * 0.20
          else if (opacity <=? 50)%Z then
            let normalized := IZR (opacity - 30) / 20 in
            0.50 + (normalized ** 1.2) * 0.15
          else
            let normalized := IZR (opacity - 50) / 45 in
            0.65 + (normalized ** 1.4) * 0.25
    | None =>
        if (opacity <=? 5)%Z then
          IZR opacity * 4.0 / 100
        else if (opacity <=? 15)%Z then
          let normalized := IZR (opacity - 5) / 10 in
          0.20 + (normalized ** 1.0) * 0.20
        else if (opacity <=? 30)%Z then
          let normalized := IZR (opacity - 15) / 15 in
          0.40 + (normalized ** 1.2) * 0.25
        else if (opacity <=? 50)%Z then
          let normalized := IZR (opacity - 30) / 20 in
          0.65 + (normalized ** 1.4) * 0.15
        else if (opacity <=? 75)%Z then
          let normalized := IZR (opacity - 50) / 25 in
          0.80 + (normalized ** 1.6) * 0.12
        else
          let normalized := IZR (opacity - 75) / 20 in
          0.92 + (normalized ** 2.5) * 0.07
    end in
  Rmax 0.0 (Rmin 0.99 actual_opacity).

(** The value the [except] branch hands to [setWindowOpacity] when a
    Qt call raised after the percent was clamped (lines 554 to 556). *)
Definition fallback_opacity (opacity : Z) : R :=
  let opacity := py_max 0 (py_min 95 opacity) in
  Rmin 0.99 (IZR opacity / 100.0).

(** [set_dimming(opacity, color)] on the overlay's attributes. *)
Definition set_dimming (self : t) (opacity : Z) (color : option QColor) : t :=
  let target := actual_opacity opacity color in
  let bg := match color with
            | Some c => mkQColor (py_max 0 (py_min 255 (red c)))
                                 (py_max 0 (py_min 255 (green c)))
                                 (py_max 0 (py_min 255 (blue c)))
            | None => mkQColor 0 0 0
            end in
  mk bg (Some (_current_opacity self, target)) target.

End DimmerOverlay.

(** ** Tint colour and tint-only opacity (methods of DimmerControl) *)

Section BlueLight.

Local Open Scope float_scope.

(** [_calculate_blue_light_color(intensity)], lines 2146 to 2171.
    [None] stands for the exception [int()] raises on a non-finite
    float. *)
Definition _calculate_blue_light_color (intensity : Z) : option QColor :=
  if (intensity =? 0)%Z then
    Some (mkQColor 255 255 255)
  else
    let red := 255%Z in
    match int_of_float (255 - (float_of_int intensity * 0.55)),
          int_of_float (255 - (float_of_int intensity * 1.05)) with
    | Some green, Some blue =>
        let green := py_max 200 green in
        let blue := py_max 150 blue in
        Some (mkQColor red green blue)
    | _, _ => None
    end.

(** The expression the source repeats wherever the tint is shown
    without the dimmer (lines 2188-2191, 2264-2267, 2276-2279,
    2076-2079): [0 if intensity == 0 else int(intensity * 0.12)]. *)
Definition tint_only_opacity (intensity : Z) : option Z :=
  if (intensity =? 0)%Z then Some 0%Z
  else int_of_float (float_of_int intensity * 0.12).

End BlueLight.

(** ** Schedule window (inlined in _check_schedule, _update_time_remaining,
       _apply_preset and _apply_custom_schedule) *)

Section ScheduleWindow.

Local Open Scope Z_scope.

(** The [in_schedule] local, lines 3105 to 3112 (and 2353 to 2358). *)
Definition in_schedule (current_time start_time end_time : QTime) : bool :=
  if QTime_le start_time end_time then
    QTime_le start_time current_time && QTime_le current_time end_time
  else
    QTime_ge current_time start_time || QTime_le current_time end_time.

(** The [remaining_seconds] local of [_update_time_remaining], lines
    2360 to 2431, branch for branch. *)
Definition remaining_seconds (current_time start_time end_time : QTime) : Z :=
  if in_schedule current_time start_time end_time then
    if QTime_le start_time end_time then
      let end_seconds := hour end_time * 3600 + minute end_time * 60 in
      let current_seconds := hour current_time * 3600 + minute current_time * 60 in
      end_seconds - current_seconds
    else
      if QTime_ge current_time start_time then
        let end_seconds := (hour end_time + 24) * 3600 + minute end_time * 60 in
        let current_seconds := hour current_time * 3600 + minute current_time * 60 in
        end_seconds - current_seconds
      else
        let end_seconds := hour end_time * 3600 + minute end_time * 60 in
        let current_seconds := hour current_time * 3600 + minute current_time * 60 in
        end_seconds - current_seconds
  else
    if QTime_le start_time end_time then
      let start_seconds := hour start_time * 3600 + minute start_time * 60 in
      let current_seconds := hour current_time * 3600 + minute current_time * 60 in
      if current_seconds <? start_seconds then
        start_seconds - current_seconds
      else
        (24 * 3600) - current_seconds + start_seconds
    else
      if QTime_lt current_time end_time then
        let start_seconds := hour start_time * 3600 + minute start_time * 60 in
        let current_seconds := hour current_time * 3600 + minute current_time * 60 in
        start_seconds - current_seconds
      else
        let start_seconds := hour start_time * 3600 + minute start_time * 60 in
        let current_seconds := hour current_time * 3600 + minute current_time * 60 in
        start_seconds - current_seconds.

(** What [_update_time_remaining] writes on the time-remaining label. *)
Inductive TimeRemaining :=
| NoScheduleSet
| ScheduleEndsIn (hours minutes : Z)
| ScheduleEndingNow
| ScheduleStartsIn (hours minutes : Z)
| ScheduleStartingNow.

Definition time_remaining_label (current_time start_time end_time : QTime)
  : TimeRemaining :=
  let remaining := remaining_seconds current_time start_time end_time in
  let hours := remaining / 3600 in
  let minutes := (remaining mod 3600) / 60 in
  if in_schedule current_time start_time end_time then
    if 0 <? remaining then ScheduleEndsIn hours minutes else ScheduleEndingNow
  else
    if 0 <? remaining then ScheduleStartsIn hours minutes else ScheduleStartingNow.

(** Seconds since midnight at minute granularity, the quantity the
    source forms from [hour()] and [minute()]. *)
Definition minute_seconds (t : QTime) : Z := hour t * 3600 + minute t * 60.

End ScheduleWindow.

(** ** ProfileManager *)

Module ProfileManager.

Local Open Scope string_scope.

(** What [open(Config.PROFILES_FILE)] followed by [json.load] can meet:
    text that is not JSON, or an object of name to profile fields.  No
    file at all is [None] at the use sites. *)
Inductive file :=
| Malformed
| Json (data : gmap string Profile.t).

Record t := mk {
  _profiles : gmap string Profile.t;
  _cache_dirty : bool
}.

Definition _get_defaults : gmap string Profile.t :=
  <["Night Mode" := Profile.mk 85 true 60]>
  (<["Reading" := Profile.mk 60 false 0]>
  (<["Gaming" := Profile.mk 50 false 0]>
  (<["Movie" := Profile.mk 80 true 30]> ∅))).

(** [save]: returns at once unless the cache is dirty; otherwise the
    file is overwritten and the flag cleared. *)
Definition save (self : t) (disk : option file) : t * option file :=
  if negb (_cache_dirty self) then (self, disk)
  else (mk (_profiles self) false, Some (Json (_profiles self))).

(** [load]: [FileNotFoundError] and [json.JSONDecodeError] lead to the
    defaults followed by [self.save()]. *)
Definition load (self : t) (disk : option file) : t * option file :=
  match disk with
  | Some (Json data) => (mk data (_cache_dirty self), disk)
  | Some Malformed | None =>
      save (mk _get_defaults (_cache_dirty self)) disk
  end.

(** [__init__]: empty mapping, clean cache, then [load()]. *)
Definition init (disk : option file) : t * option file :=
  load (mk ∅ false) disk.

Definition add (self : t) (name : string) (profile : Profile.t) : t :=
  mk (<[name := profile]> (_profiles self)) true.

Definition get (self : t) (name : string) : option Profile.t :=
  _profiles self !! name.

Definition delete (self : t) (name : string) : t * bool :=
  match _profiles self !! name with
  | Some _ => (mk (base.delete name (_profiles self)) true, true)
  | None => (self, false)
  end.

End ProfileManager.

(** ** StateManager: the state file *)

(** The JSON object [StateManager.save_state] writes, key for key.  The
    two times are the [toString('HH:mm')] renderings, kept as hour and
    minute. *)
Record SavedState := mkSavedState {
  s_current_dim : Z;
  s_dimmer_active : bool;
  s_blue_light_active : bool;
  s_blue_intensity : Z;
  s_second_display_enabled : bool;
  s_second_display_dim : Z;
  s_second_display_blue_light : bool;
  s_second_display_blue_intensity : Z;
  s_schedule_enabled : bool;
  s_schedule_time_set : bool;
  s_schedule_dim_value : Z;
  s_start_time : option (Z * Z);
  s_end_time : option (Z * Z);
  s_blinker_active : bool;
  s_emoji_blink_enabled : bool;
  s_text_blink_enabled : bool;
  s_rain_interval_minutes : Z;
  s_rain_duration_seconds : Z
}.

(** ** DimmerControl *)

(** Messages handed to [tray_icon.showMessage]. *)
Inductive TrayMessage :=
| DimmerActivated (percent : Z)
| DimmerDeactivated
| ScheduleAutoStarted (percent : Z)
| ScheduleEnded
| NoScheduleTimeSet
| ScheduleEnabled
| ScheduleDisabled
| PresetSet (percent : Z)
| CustomScheduleSet (percent : Z).

(** The schedule, second-display and blinker attribute groups of
    [DimmerControl.__init__]; the handlers below only read them. *)
Record ScheduleVars := mkScheduleVars {
  schedule_enabled : bool;
  start_time : option QTime;
  end_time : option QTime;
  schedule_dim_value : Z;
  schedule_time_set : bool
}.

(** [second_display_blue_intensity] is bound to the slider widget when
    the tab is built (line 1606) and rebound to an int by
    [_load_saved_state] or [_on_second_display_blue_intensity_changed]:
    [None] is the attribute still naming the widget. *)
Record SecondDisplayVars := mkSecondDisplayVars {
  second_display_enabled : bool;
  second_display_dim : Z;
  second_display_blue_light : bool;
  second_display_blue_intensity : option Z;
  second_display_blue_intensity_widget : Z
}.

Record BlinkerVars := mkBlinkerVars {
  blinker_active : bool;
  emoji_blink_enabled : bool;
  text_blink_enabled : bool;
  rain_interval_minutes : Z;
  rain_duration_seconds : Z
}.

(** The controller's attributes, the two sliders of the main tab (by
    value), the two schedule timers (running or not), the tray log, and
    what lies outside the object: the number of screens Qt reports and
    the content of the state file. *)
Record DimmerControl := mkDimmerControl {
  overlays : gmap Z DimmerOverlay.t;
  dimmer_active : bool;
  current_dim : Z;
  blue_light_active : bool;
  _toggle_in_progress : bool;
  _schedule_toggle_in_progress : bool;
  schedule : ScheduleVars;
  second_display : SecondDisplayVars;
  blinker : BlinkerVars;
  dim_slider : Z;
  blue_intensity : Z;
  schedule_timer : bool;
  time_remaining_timer : bool;
  tray_icon : list TrayMessage;
  screens : nat;
  state_file : option SavedState
}.

Definition set_overlays (v : gmap Z DimmerOverlay.t) (s : DimmerControl) : DimmerControl :=
  mkDimmerControl v (dimmer_active s) (current_dim s) (blue_light_active s)
    (_toggle_in_progress s) (_schedule_toggle_in_progress s) (schedule s)
    (second_display s) (blinker s) (dim_slider s) (blue_intensity s)
    (schedule_timer s) (time_remaining_timer s) (tray_icon s) (screens s)
    (state_file s).

Definition set_dimmer_active (v : bool) (s : DimmerControl) : DimmerControl :=
  mkDimmerControl (overlays s) v (current_dim s) (blue_light_active s)
    (_toggle_in_progress s) (_schedule_toggle_in_progress s) (schedule s)
    (second_display s) (blinker s) (dim_slider s) (blue_intensity s)
    (schedule_timer s) (time_remaining_timer s) (tray_icon s) (screens s)
    (state_file s).

Definition set_current_dim (v : Z) (s : DimmerControl) : DimmerControl :=
  mkDimmerControl (overlays s) (dimmer_active s) v (blue_light_active s)
    (_toggle_in_progress s) (_schedule_toggle_in_progress s) (schedule s)
    (second_display s) (blinker s) (dim_slider s) (blue_intensity s)
    (schedule_timer s) (time_remaining_timer s) (tray_icon s) (screens s)
    (state_file s).

Definition set_toggle_in_progress (v : bool) (s : DimmerControl) : DimmerControl :=
  mkDimmerControl (overlays s) (dimmer_active s) (current_dim s)
    (blue_light_active s) v (_schedule_toggle_in_progress s) (schedule s)
    (second_display s) (blinker s) (dim_slider s) (blue_intensity s)
    (schedule_timer s) (time_remaining_timer s) (tray_icon s) (screens s)
    (state_file s).

Definition set_schedule_toggle_in_progress (v : bool) (s : DimmerControl) : DimmerControl :=
  mkDimmerControl (overlays s) (dimmer_active s) (current_dim s)
    (blue_light_active s) (_toggle_in_progress s) v (schedule s)
    (second_display s) (blinker s) (dim_slider s) (blue_intensity s)
    (schedule_timer s) (time_remaining_timer s) (tray_icon s) (screens s)
    (state_file s).

Definition set_schedule (v : ScheduleVars) (s : DimmerControl) : DimmerControl :=
  mkDimmerControl (overlays s) (dimmer_active s) (current_dim s)
    (blue_light_active s) (_toggle_in_progress s)
    (_schedule_toggle_in_progress s) v (second_display s) (blinker s)
    (dim_slider s) (blue_intensity s) (schedule_timer s)
    (time_remaining_timer s) (tray_icon s) (screens s) (state_file s).

Definition set_dim_slider (v : Z) (s : DimmerControl) : DimmerControl :=
  mkDimmerControl (overlays s) (dimmer_active s) (current_dim s)
    (blue_light_active s) (_toggle_in_progress s)
    (_schedule_toggle_in_progress s) (schedule s) (second_display s)
    (blinker s) v (blue_intensity s) (schedule_timer s)
    (time_remaining_timer s) (tray_icon s) (screens s) (state_file s).

Definition set_schedule_timer (v : bool) (s : DimmerControl) : DimmerControl :=
  mkDimmerControl (overlays s) (dimmer_active s) (current_dim s)
    (blue_light_active s) (_toggle_in_progress s)
    (_schedule_toggle_in_progress s) (schedule s) (second_display s)
    (blinker s) (dim_slider s) (blue_intensity s) v (time_remaining_timer s)
    (tray_icon s) (screens s) (state_file s).

Definition set_time_remaining_timer (v : bool) (s : DimmerControl) : DimmerControl :=
  mkDimmerControl (overlays s) (dimmer_active s) (current_dim s)
    (blue_light_active s) (_toggle_in_progress s)
    (_schedule_toggle_in_progress s) (schedule s) (second_display s)
    (blinker s) (dim_slider s) (blue_intensity s) (schedule_timer s) v
    (tray_icon s) (screens s) (state_file s).

Definition set_state_file (v : option SavedState) (s : DimmerControl) : DimmerControl :=
  mkDimmerControl (overlays s) (dimmer_active s) (current_dim s)
    (blue_light_active s) (_toggle_in_progress s)
    (_schedule_toggle_in_progress s) (schedule s) (second_display s)
    (blinker s) (dim_slider s) (blue_intensity s) (schedule_timer s)
    (time_remaining_timer s) (tray_icon s) (screens s) v.

(** [self.tray_icon.showMessage(...)]: the message joins the log. *)
Definition showMessage (m : TrayMessage) (s : DimmerControl) : DimmerControl :=
  mkDimmerControl (overlays s) (dimmer_active s) (current_dim s)
    (blue_light_active s) (_toggle_in_progress s)
    (_schedule_toggle_in_progress s) (schedule s) (second_display s)
    (blinker s) (dim_slider s) (blue_intensity s) (schedule_timer s)
    (time_remaining_timer s) (m :: tray_icon s) (screens s) (state_file s).

(** *** The handlers' monad: state plus Python exceptions *)

Inductive PyExn := TypeError | OverflowError.

Inductive Outcome (A : Type) :=
| Returned (a : A)
| Raised (e : PyExn).
Arguments Returned {A} a.
Arguments Raised {A} e.

Definition M (A : Type) : Type := DimmerControl -> Outcome A * DimmerControl.

Definition ret {A} (a : A) : M A := fun s => (Returned a, s).
Definition raise {A} (e : PyExn) : M A := fun s => (Raised e, s).
Definition bind {A B} (m : M A) (k : A -> M B) : M B :=
  fun s => match m s with
           | (Returned a, s') => k a s'
           | (Raised e, s') => (Raised e, s')
           end.
Definition gets {A} (f : DimmerControl -> A) : M A := fun s => (Returned (f s), s).
Definition modify (f : DimmerControl -> DimmerControl) : M unit :=
  fun s => (Returned tt, f s).

(** [try: body finally: fin]. *)
Definition try_finally {A} (body : M A) (fin : DimmerControl -> DimmerControl)
  : M A :=
  fun s => let '(r, s') := body s in (r, fin s').

Declare Scope py_scope.
Delimit Scope py_scope with py.
Notation "x <- c1 ;; c2" := (bind c1 (fun x => c2))
  (at level 100, c1 at next level, c2 at level 200, right associativity)
  : py_scope.
Notation "c1 ;; c2" := (bind c1 (fun _ => c2))
  (at level 100, c2 at level 200, right associativity) : py_scope.

(** [for x in l: body x]. *)
Fixpoint for_each {A} (l : list A) (body : A -> M unit) : M unit :=
  match l with
  | nil => ret tt
  | x :: l' => bind (body x) (fun _ => for_each l' body)
  end.

Definition when (b : bool) (m : M unit) : M unit := if b then m else ret tt.

Module StateManager.

(** The [state] dict of [save_state], lines 786 to 821.  The value
    under ['blue_intensity'] is the main slider's; the second display's
    intensity is the int when the attribute holds one and the widget's
    value otherwise. *)
Definition state (c : DimmerControl) : SavedState :=
  let hhmm := option_map (fun t => (hour t, minute t)) in
  mkSavedState
    (current_dim c) (dimmer_active c) (blue_light_active c)
    (blue_intensity c)
    (second_display_enabled (second_display c))
    (second_display_dim (second_display c))
    (second_display_blue_light (second_display c))
    (match second_display_blue_intensity (second_display c) with
     | Some z => z
     | None => second_display_blue_intensity_widget (second_display c)
     end)
    (schedule_enabled (schedule c))
    (schedule_time_set (schedule c))
    (schedule_dim_value (schedule c))
    (hhmm (start_time (schedule c)))
    (hhmm (end_time (schedule c)))
    (blinker_active (blinker c))
    (emoji_blink_enabled (blinker c))
    (text_blink_enabled (blinker c))
    (rain_interval_minutes (blinker c))
    (rain_duration_seconds (blinker c)).

(** [save_state]: the whole file is overwritten with [state]. *)
Definition save_state (c : DimmerControl) : DimmerControl :=
  set_state_file (Some (state c)) c.


End StateManager.

Section Handlers.

Local Open Scope Z_scope.
Local Open Scope py_scope.

Definition _save_state : M unit := modify StateManager.save_state.

(** [_get_overlay_for_screen]: the overlay of a screen, created on
    first use when Qt reports such a screen.  The result is the key
    under which the overlay object lives in [overlays]. *)
Definition _get_overlay_for_screen (screen_index : Z) : M (option Z) :=
  fun s =>
    match overlays s !! screen_index with
    | Some _ => (Returned (Some screen_index), s)
    | None =>
        if screen_index <? Z.of_nat (screens s) then
          (Returned (Some screen_index),
           set_overlays (<[screen_index := DimmerOverlay.init]> (overlays s)) s)
        else (Returned None, s)
    end.

(** [overlay.set_dimming(opacity, color)] on the object stored under
    [overlay]: the dictionary and the caller share it. *)
Definition overlay_set_dimming (overlay : Z) (opacity : Z)
    (color : option QColor) : M unit :=
  modify (fun s =>
    set_overlays
      (alter (fun o => DimmerOverlay.set_dimming o opacity color)
             overlay (overlays s)) s).

Definition _close_overlay_for_screen (screen_index : Z) : M unit :=
  modify (fun s => set_overlays (delete screen_index (overlays s)) s).

Definition _get_enabled_screens : M (list Z) :=
  gets (fun s =>
    0 :: (if second_display_enabled (second_display s)
             && (1 <? Z.of_nat (screens s))
          then 1 :: nil else nil)).

Definition _apply_dimming_to_screen (screen_index : Z) (opacity : Z)
    (color : option QColor) : M unit :=
  overlay <- _get_overlay_for_screen screen_index ;;
  match overlay with
  | Some ov => overlay_set_dimming ov opacity color
  | None => ret tt
  end.

(** [self._calculate_blue_light_color(intensity)] as called by the
    handlers: [intensity] is [None] when the attribute read is still
    the slider widget, and [widget * 0.55] is a [TypeError]. *)
Definition calculate_color (intensity : option Z) : M QColor :=
  match intensity with
  | None => raise TypeError
  | Some i =>
      match _calculate_blue_light_color i with
      | Some c => ret c
      | None => raise OverflowError
      end
  end.

Definition calculate_tint_opacity (intensity : option Z) : M Z :=
  match intensity with
  | None => raise TypeError
  | Some i =>
      match tint_only_opacity i with
      | Some o => ret o
      | None => raise OverflowError
      end
  end.

(** [_update_blue_light], lines 2173 to 2200. *)
Definition _update_blue_light : M unit :=
  active <- gets blue_light_active ;;
  if (active : bool) then
    overlay <- _get_overlay_for_screen 0 ;;
    match overlay with
    | Some ov =>
        intensity <- gets blue_intensity ;;
        color <- calculate_color (Some intensity) ;;
        dimming <- gets dimmer_active ;;
        if (dimming : bool) then
          dim <- gets current_dim ;;
          overlay_set_dimming ov dim (Some color)
        else
          opacity <- calculate_tint_opacity (Some intensity) ;;
          overlay_set_dimming ov opacity (Some color)
    | None => ret tt
    end
  else
    dimming <- gets dimmer_active ;;
    if negb dimming then _close_overlay_for_screen 0
    else
      dim <- gets current_dim ;;
      _apply_dimming_to_screen 0 dim None.

(** [_update_second_display], lines 2060 to 2082. *)
Definition _update_second_display : M unit :=
  enabled <- gets (fun s => second_display_enabled (second_display s)) ;;
  if negb enabled then ret tt
  else
    overlay <- _get_overlay_for_screen 1 ;;
    match overlay with
    | Some ov =>
        intensity <- gets (fun s => second_display_blue_intensity (second_display s)) ;;
        tinted <- gets (fun s => second_display_blue_light (second_display s)) ;;
        dim2 <- gets (fun s => second_display_dim (second_display s)) ;;
        if (tinted : bool) then
          color <- calculate_color intensity ;;
          dimming <- gets dimmer_active ;;
          if (dimming : bool) then
            overlay_set_dimming ov dim2 (Some color)
          else
            opacity <- calculate_tint_opacity intensity ;;
            overlay_set_dimming ov opacity (Some color)
        else
          overlay_set_dimming ov dim2 None
    | None => ret tt
    end.

(** [_on_dim_changed(value)], lines 1968 to 1985. *)
Definition _on_dim_changed (value : Z) : M unit :=
  modify (set_current_dim value) ;;
  _save_state ;;
  dimming <- gets dimmer_active ;;
  when dimming (
    tinted <- gets blue_light_active ;;
    if (tinted : bool) then _update_blue_light
    else _apply_dimming_to_screen 0 value None).

(** [self.dim_slider.setValue(value)].  The slider is a [QSlider] with
    range 0..95 (line 1031) whose [valueChanged] signal is connected to
    [_on_dim_changed] (line 1033): Qt bounds the value to the range and
    emits the signal only when the stored value changes. *)
Definition dim_slider_setValue (value : Z) : M unit :=
  let value := py_max 0 (py_min 95 value) in
  old <- gets dim_slider ;;
  if value =? old then ret tt
  else
    modify (set_dim_slider value) ;;
    _on_dim_changed value.

(** [_toggle_dimmer], lines 2202 to 2308. *)
Definition _toggle_dimmer : M unit :=
  busy <- gets _toggle_in_progress ;;
  if (busy : bool) then ret tt
  else
    modify (set_toggle_in_progress true) ;;
    try_finally (
      dimming <- gets dimmer_active ;;
      if negb dimming then
        enabled_screens <- _get_enabled_screens ;;
        for_each enabled_screens (fun screen_idx =>
          if screen_idx =? 0 then
            tinted <- gets blue_light_active ;;
            if (tinted : bool) then _update_blue_light
            else
              dim <- gets current_dim ;;
              _apply_dimming_to_screen 0 dim None
          else if screen_idx =? 1 then
            enabled <- gets (fun s => second_display_enabled (second_display s)) ;;
            when enabled _update_second_display
          else ret tt) ;;
        modify (set_dimmer_active true) ;;
        dim <- gets current_dim ;;
        modify (showMessage (DimmerActivated dim)) ;;
        _save_state
      else
        enabled_screens <- _get_enabled_screens ;;
        for_each enabled_screens (fun screen_idx =>
          if screen_idx =? 0 then
            tinted <- gets blue_light_active ;;
            if negb tinted then _close_overlay_for_screen 0
            else
              intensity <- gets blue_intensity ;;
              color <- calculate_color (Some intensity) ;;
              opacity <- calculate_tint_opacity (Some intensity) ;;
              _apply_dimming_to_screen 0 opacity (Some color)
          else if screen_idx =? 1 then
            tinted <- gets (fun s => second_display_blue_light (second_display s)) ;;
            if negb tinted then _close_overlay_for_screen 1
            else
              intensity <- gets (fun s => second_display_blue_intensity (second_display s)) ;;
              color <- calculate_color intensity ;;
              opacity <- calculate_tint_opacity intensity ;;
              _apply_dimming_to_screen 1 opacity (Some color)
          else ret tt) ;;
        modify (set_dimmer_active false) ;;
        modify (showMessage DimmerDeactivated)
    ) (set_toggle_in_progress false).

(** [_check_schedule], lines 3092 to 3163, with [QTime.currentTime()]
    passed in.  Comparing a missing time ([None]) is a [TypeError]. *)
Definition _check_schedule (current_time : QTime) : M unit :=
  sch <- gets schedule ;;
  if negb (schedule_enabled sch) || negb (schedule_time_set sch) then
    when (negb (schedule_time_set sch)) (
      modify (set_schedule_timer false) ;;
      modify (set_time_remaining_timer false))
  else
    match start_time sch, end_time sch with
    | Some start_time, Some end_time =>
        if in_schedule current_time start_time end_time then
          dimming <- gets dimmer_active ;;
          when (negb dimming) (
            dim_slider_setValue (schedule_dim_value sch) ;;
            _toggle_dimmer) ;;
          modify (showMessage (ScheduleAutoStarted (schedule_dim_value sch)))
        else
          dimming <- gets dimmer_active ;;
          tinted <- gets blue_light_active ;;
          when (dimming && negb tinted) _toggle_dimmer ;;
          modify (showMessage ScheduleEnded)
    | _, _ => raise TypeError
    end.

(** [_update_time_remaining], lines 2332 to 2461: the text put on the
    time-remaining label. *)
Definition _update_time_remaining (current_time : QTime) : M TimeRemaining :=
  sch <- gets schedule ;;
  if negb (schedule_time_set sch) then
    modify (set_time_remaining_timer false) ;;
    ret NoScheduleSet
  else
    match start_time sch, end_time sch with
    | Some start_time, Some end_time =>
        ret (time_remaining_label current_time start_time end_time)
    | _, _ => raise TypeError
    end.

End Handlers.

Section ScheduleHandlers.

Local Open Scope Z_scope.
Local Open Scope py_scope.

(** The attributes after [DimmerControl.__init__] when there is no
    state file: [Config.DEFAULT_DIM] is 25, the tint slider stands at
    50, no schedule time is set. *)
Definition __init__ (n_screens : nat) : DimmerControl :=
  mkDimmerControl ∅ false 25 false false false
    (mkScheduleVars false None None 70 false)
    (mkSecondDisplayVars false 25 false None 50)
    (mkBlinkerVars false false true 10 7)
    25 50 false false nil n_screens None.

(** The preset buttons of the schedule tab other than "custom", which
    opens the dialog served by [_apply_custom_schedule]. *)
Inductive Preset := all_day | all_night | night | evening | late_night.

Definition set_schedule_time (start_time end_time : QTime) (dim : Z)
  : M unit :=
  modify (fun s =>
    set_schedule (mkScheduleVars (schedule_enabled (schedule s))
                    (Some start_time) (Some end_time) dim true) s) ;;
  modify (set_schedule_timer true) ;;
  modify (set_time_remaining_timer true).

(** [_apply_preset], lines 2596 to 2691. *)
Definition _apply_preset (preset_type : Preset) : M unit :=
  let '(start_time, end_time, dim) :=
    match preset_type with
    | all_day => (QTime_hm 6 0, QTime_hm 18 0, 75)
    | all_night => (QTime_hm 18 0, QTime_hm 6 0, 90)
    | night => (QTime_hm 20 0, QTime_hm 7 0, 85)
    | evening => (QTime_hm 18 0, QTime_hm 23 0, 75)
    | late_night => (QTime_hm 22 0, QTime_hm 6 0, 90)
    end in
  set_schedule_time start_time end_time dim ;;
  modify (showMessage (PresetSet dim)).

(** [_apply_custom_schedule], lines 2806 to 2888: equal times are
    refused and nothing changes. *)
Definition _apply_custom_schedule (start_time end_time : QTime)
    (dim_value : Z) : M unit :=
  if msecs_since_start_of_day start_time =? msecs_since_start_of_day end_time
  then ret tt
  else
    set_schedule_time start_time end_time dim_value ;;
    modify (showMessage (CustomScheduleSet dim_value)).

Definition set_schedule_enabled (v : bool) (s : DimmerControl) :=
  set_schedule (mkScheduleVars v (start_time (schedule s))
                  (end_time (schedule s)) (schedule_dim_value (schedule s))
                  (schedule_time_set (schedule s))) s.

(** [_toggle_schedule_control], lines 2525 to 2594. *)
Definition _toggle_schedule_control : M unit :=
  busy <- gets _schedule_toggle_in_progress ;;
  if (busy : bool) then ret tt
  else
    modify (set_schedule_toggle_in_progress true) ;;
    try_finally (
      sch <- gets schedule ;;
      if negb (schedule_time_set sch) then
        modify (showMessage NoScheduleTimeSet)
      else if negb (schedule_enabled sch) then
        modify (set_schedule_enabled true) ;;
        modify (showMessage ScheduleEnabled) ;;
        _save_state
      else
        modify (set_schedule_enabled false) ;;
        dimming <- gets dimmer_active ;;
        when dimming _toggle_dimmer ;;
        modify (showMessage ScheduleDisabled)
    ) (set_schedule_toggle_in_progress false).

(** Running a handler: the state it leaves and how it ended. *)
Definition exec {A} (m : M A) (s : DimmerControl) : DimmerControl := snd (m s).
Definition returns {A} (m : M A) (s : DimmerControl) : bool :=
  match fst (m s) with Returned _ => true | Raised _ => false end.

(** The state file agrees with the attributes on the two fields of
    the dim state. *)
Definition dim_state_persisted (s : DimmerControl) : Prop :=
  exists f, state_file s = Some f /\
    s_dimmer_active f = dimmer_active s /\ s_current_dim f = current_dim s.

End ScheduleHandlers.

(** ** Vocabulary of the statements *)

(** The check run over the slider's range 0..100: both float
    computations are finite, the colour is a valid warm tone and the
    tint-only percent stays within 0..12. *)
Definition tint_ok (i : Z) : bool :=
  match _calculate_blue_light_color i, tint_only_opacity i with
  | Some c, Some o =>
      (red c =? 255)%Z && (200 <=? green c)%Z && (green c <=? 255)%Z
      && (150 <=? blue c)%Z && (blue c <=? 255)%Z
      && (0 <=? o)%Z && (o <=? 12)%Z
  | _, _ => false
  end.

(** The intensities the handlers feed to the tint computation are slider
    values: the main slider's range is 0..100, and when the second
    display shows a tint its intensity attribute holds an int in that
    range (not the widget it is bound to at start-up). *)
Definition tint_inputs_ok (s : DimmerControl) : Prop :=
  (0 <= blue_intensity s <= 100)%Z /\
  (second_display_enabled (second_display s) = true ->
   second_display_blue_light (second_display s) = true ->
   exists z, second_display_blue_intensity (second_display s) = Some z
             /\ (0 <= z <= 100)%Z).

(** [runs strict m s]: run from [s], the handler [m] changes nothing but
    the overlay dictionary; with [strict] it also returns normally. *)
Definition ok {A} (strict : bool) (r : Outcome A) : Prop :=
  match r with
  | Returned _ => True
  | Raised _ => strict = false
  end.

Definition runs {A} (strict : bool) (m : M A) (s : DimmerControl) : Prop :=
  exists r o, m s = (r, set_overlays o s) /\ ok strict r.

(** Three sessions on a single screen, each from a first start without
    a state file: the dimmer switched on (at the default 25 percent);
    the "All Night" preset (18:00 to 06:00 at 90 percent) chosen and the
    schedule enabled, with the dimmer off; the same with the dimmer
    switched on beforehand. *)
Definition session_dimmer_on : DimmerControl :=
  exec _toggle_dimmer (__init__ 1).

Definition session_schedule_dimmer_off : DimmerControl :=
  exec (bind (_apply_preset all_night) (fun _ => _toggle_schedule_control))
       (__init__ 1).

Definition session_schedule_dimmer_on : DimmerControl :=
  exec (bind (_apply_preset all_night) (fun _ => _toggle_schedule_control))
       session_dimmer_on.

(** ** Exact readings of the tint arithmetic

    The float expressions of the tint ([int(intensity * 0.12)],
    [int(255 - intensity * 0.55)], [int(255 - intensity * 1.05)]) are
    compared with integer arithmetic: [ceil_div a b] is the least integer
    not below [a / b]. *)
Definition ceil_div (a b : Z) : Z := - ((- a) / b).

Definition tint_exact (i : Z) : bool :=
  match _calculate_blue_light_color i, tint_only_opacity i with
  | Some c, Some o =>
      (red c =? 255)%Z
      && (green c =? 255 - ceil_div (55 * i) 100)%Z
      && (blue c =? 255 - ceil_div (105 * i) 100)%Z
      && (o =? 12 * i / 100)%Z
  | _, _ => false
  end.

(** ** The rain overlay of the blink reminder

    [RainOverlay], lines 596 to 714.  An item of [rain_items] is the dict
    the source builds, with its five keys.  The emoji strings are named
    by their position in the list [emojis] (15 entries); the texts are
    the strings of the list [texts]. *)
Module RainItem.

Inductive Content :=
| Emoji (k : Z)
| Text (s : string).

Inductive Type_ := emoji | text.

Record t := mk {
  x : Z;
  y : Z;
  speed : Z;
  content : Content;
  type : Type_
}.

Definition set_y (v : Z) (it : t) : t :=
  mk (x it) v (speed it) (content it) (type it).

Definition set_x (v : Z) (it : t) : t :=
  mk v (y it) (speed it) (content it) (type it).

End RainItem.

Module RainOverlay.

Local Open Scope Z_scope.
Local Open Scope string_scope.

(** The screen's geometry, the attributes of [__init__], the optional
    attribute [max_rain_items] (read with [getattr], never assigned in
    the file), the two flags [start_rain] creates ([None] before), the
    timer by its interval when it runs, and whether the widget is
    shown. *)
Record t := mk {
  width : Z;
  height : Z;
  max_rain_items : option Z;
  emoji_enabled : option bool;
  text_enabled : option bool;
  rain_items : list RainItem.t;
  rain_timer : option Z;
  rain_duration : Z;
  start_time : Z;
  visible : bool
}.

Definition init (w h : Z) : t :=
  mk w h None None None [] None 5000 0 false.

Definition set_rain_items (l : list RainItem.t) (self : t) : t :=
  mk (width self) (height self) (max_rain_items self) (emoji_enabled self)
     (text_enabled self) l (rain_timer self) (rain_duration self)
     (start_time self) (visible self).


Definition len_emojis : Z := 15.

Definition texts : list string :=
  ["Blink"; "Blink"; "Blink"; "Are you blinking?";
   "Blink"; "Blink"; "Blink"; "Are you blinking?"].

Definition range (n : Z) : list Z := map Z.of_nat (seq 0 (Z.to_nat n)).

(** The body of the loop of [_create_rain_items] for index [i], lines 657
    to 673; [None] is the [AttributeError] of a flag that does not exist
    yet.  [and] reads [text_enabled] only when [emoji_enabled] is true. *)
Definition make_item (self : t) (spacing i : Z) : option RainItem.t :=
  let x := i * spacing + spacing / 2 in
  let y := -50 in
  let speed := 2 + i mod 5 in
  let an_emoji :=
    RainItem.mk x y speed (RainItem.Emoji (i mod len_emojis)) RainItem.emoji in
  let a_text :=
    RainItem.mk x y speed
      (RainItem.Text
         (nth (Z.to_nat (i mod Z.of_nat (length texts))) texts ""))
      RainItem.text in
  match emoji_enabled self with
  | None => None
  | Some true =>
      match text_enabled self with
      | None => None
      | Some true => Some (if (i mod 2 =? 0)%Z then an_emoji else a_text)
      | Some false => Some an_emoji
      end
  | Some false => Some a_text
  end.

(** The loop itself: items are appended one by one; the flag says
    whether an exception ended it. *)
Fixpoint create_loop (self : t) (spacing : Z) (indices : list Z)
  : t * bool :=
  match indices with
  | [] => (self, false)
  | i :: rest =>
      match make_item self spacing i with
      | None => (self, true)
      | Some item =>
          create_loop (set_rain_items (rain_items self ++ [item]) self)
                      spacing rest
      end
  end.

(** [_create_rain_items], lines 644 to 675. *)
Definition _create_rain_items (self : t) : t * bool :=
  let max_items :=
    match max_rain_items self with Some m => m | None => 50 end in
  let item_count := py_min 25 max_items in
  let spacing :=
    if (0 <? item_count)%Z then width self / item_count else width self / 25 in
  create_loop self spacing (range item_count).

(** [start_rain(emoji_enabled, text_enabled)], lines 633 to 642, at the
    clock reading [now]. *)
Definition start_rain (emoji_enabled' text_enabled' : bool) (now : Z)
  (self : t) : t * bool :=
  let self :=
    mk (width self) (height self) (max_rain_items self)
       (Some emoji_enabled') (Some text_enabled') [] (rain_timer self)
       (rain_duration self) now (visible self) in
  let '(self, raised) := _create_rain_items self in
  if raised then (self, true)
  else
    (mk (width self) (height self) (max_rain_items self)
        (emoji_enabled self) (text_enabled self) (rain_items self)
        (Some 30) (rain_duration self) (start_time self) true,
     false).

(** The loop of [_update_rain], lines 691 to 695, over the dicts of the
    list, which it changes in place.  [%] by a width of zero raises
    [ZeroDivisionError] after the item's [y] was reset; the items behind
    it are left as they were. *)
Fixpoint update_loop (w h : Z) (items : list RainItem.t)
  : list RainItem.t * bool :=
  match items with
  | [] => ([], false)
  | item :: rest =>
      let item := RainItem.set_y (RainItem.y item + RainItem.speed item) item in
      if (h <? RainItem.y item)%Z then
        let item := RainItem.set_y (-50) item in
        if (w =? 0)%Z then (item :: rest, true)
        else
          let item := RainItem.set_x ((RainItem.x item + 100) mod w) item in
          let '(rest, raised) := update_loop w h rest in
          (item :: rest, raised)
      else
        let '(rest, raised) := update_loop w h rest in
        (item :: rest, raised)
  end.

(** [_update_rain], lines 677 to 697, at the clock reading
    [current_time]. *)
Definition _update_rain (current_time : Z) (self : t) : t * bool :=
  if (rain_duration self <? current_time - start_time self)%Z then
    (mk (width self) (height self) (max_rain_items self)
        (emoji_enabled self) (text_enabled self) [] None
        (rain_duration self) (start_time self) false,
     false)
  else
    let kept :=
      List.filter (fun item => (RainItem.y item <? height self + 200)%Z)
                  (rain_items self) in
    let '(items, raised) := update_loop (width self) (height self) kept in
    (set_rain_items items self, raised).

(** The timer's ticks at the clock readings [times], in order; a tick
    that raised, or one that stopped the timer, ends the run. *)
Fixpoint ticks (times : list Z) (self : t) : t * bool :=
  match times with
  | [] => (self, false)
  | current_time :: rest =>
      match rain_timer self with
      | None => (self, false)
      | Some _ =>
          let '(self, raised) := _update_rain current_time self in
          if raised then (self, true) else ticks rest self
      end
  end.

End RainOverlay.

(** An item that is on its way down the screen of width [w] and height
    [h], and what a tick leaves alone in an item. *)
Definition falling (w h : Z) (item : RainItem.t) : Prop :=
  (0 <= RainItem.x item < w)%Z
  /\ (-50 <= RainItem.y item <= h)%Z
  /\ (2 <= RainItem.speed item <= 6)%Z.

Definition look (item : RainItem.t) : Z * RainItem.Content * RainItem.Type_ :=
  (RainItem.speed item, RainItem.content item, RainItem.type item).

(** ** The overlay window's extended style (Windows)

    The [new_style] words that [DimmerOverlay.__init__] (lines 448 to
    466), [temporarily_hide_for_gestures] (lines 560 to 577) and
    [_restore_transparency] (lines 579 to 593) hand to
    [SetWindowLongW], as functions of the [current_style] that
    [GetWindowLongW] returned.  Python's [|], [&] and [~] on ints are
    the two's-complement operations of [Z]. *)
Module ExStyle.

Definition WS_EX_LAYERED : Z := 0x00080000.
Definition WS_EX_TRANSPARENT : Z := 0x00000020.
Definition WS_EX_NOACTIVATE : Z := 0x08000000.

Definition __init__ (current_style : Z) : Z :=
  Z.lor (Z.lor (Z.lor current_style WS_EX_LAYERED) WS_EX_TRANSPARENT)
        WS_EX_NOACTIVATE.

Definition temporarily_hide_for_gestures (current_style : Z) : Z :=
  Z.land current_style (Z.lnot WS_EX_TRANSPARENT).

Definition _restore_transparency (current_style : Z) : Z :=
  Z.lor current_style WS_EX_TRANSPARENT.

(** What fits the C [long] that the two API calls exchange. *)
Definition c_long (style : Z) : Prop := (- 2 ^ 31 <= style < 2 ^ 31)%Z.

End ExStyle.

(** ** Vocabulary of the statements about the screens *)

(** [keeps k strict m s]: as [runs], and the handler leaves the overlay
    of screen [k] as it is (present or absent). *)
Definition keeps (k : Z) {A} (strict : bool) (m : M A) (s : DimmerControl)
  : Prop :=
  exists r o, m s = (r, set_overlays o s) /\ ok strict r
              /\ o !! k = overlays s !! k.

(** The overlay of a screen as [_apply_dimming_to_screen] leaves it:
    the one that was there, or a new one, after [set_dimming]. *)
Definition dimmed (before : option DimmerOverlay.t) (opacity : Z)
  (color : option QColor) : DimmerOverlay.t :=
  DimmerOverlay.set_dimming
    (match before with Some ov => ov | None => DimmerOverlay.init end)
    opacity color.

(** ** The tint and second-display handlers *)
Section TintHandlers.

Local Open Scope Z_scope.
Local Open Scope py_scope.

Definition set_blue_light_active (v : bool) (s : DimmerControl)
  : DimmerControl :=
  mkDimmerControl (overlays s) (dimmer_active s) (current_dim s) v
    (_toggle_in_progress s) (_schedule_toggle_in_progress s) (schedule s)
    (second_display s) (blinker s) (dim_slider s) (blue_intensity s)
    (schedule_timer s) (time_remaining_timer s) (tray_icon s) (screens s)
    (state_file s).

Definition set_blue_intensity (v : Z) (s : DimmerControl) : DimmerControl :=
  mkDimmerControl (overlays s) (dimmer_active s) (current_dim s)
    (blue_light_active s) (_toggle_in_progress s)
    (_schedule_toggle_in_progress s) (schedule s) (second_display s)
    (blinker s) (dim_slider s) v (schedule_timer s)
    (time_remaining_timer s) (tray_icon s) (screens s) (state_file s).

Definition set_second_display (v : SecondDisplayVars) (s : DimmerControl)
  : DimmerControl :=
  mkDimmerControl (overlays s) (dimmer_active s) (current_dim s)
    (blue_light_active s) (_toggle_in_progress s)
    (_schedule_toggle_in_progress s) (schedule s) v (blinker s)
    (dim_slider s) (blue_intensity s) (schedule_timer s)
    (time_remaining_timer s) (tray_icon s) (screens s) (state_file s).

Definition set_blinker (v : BlinkerVars) (s : DimmerControl)
  : DimmerControl :=
  mkDimmerControl (overlays s) (dimmer_active s) (current_dim s)
    (blue_light_active s) (_toggle_in_progress s)
    (_schedule_toggle_in_progress s) (schedule s) (second_display s) v
    (dim_slider s) (blue_intensity s) (schedule_timer s)
    (time_remaining_timer s) (tray_icon s) (screens s) (state_file s).

(** [_on_blue_light_changed(state)], lines 2085 to 2094; [checked] is
    [state == Qt.Checked]. *)
Definition _on_blue_light_changed (checked : bool) : M unit :=
  modify (set_blue_light_active checked) ;;
  _save_state ;;
  _update_blue_light.

(** [_on_blue_intensity_changed(value)], lines 2097 to 2108.  The
    slider already holds [value] when the signal arrives. *)
Definition _on_blue_intensity_changed (value : Z) : M unit :=
  _save_state ;;
  tinted <- gets blue_light_active ;;
  when tinted _update_blue_light.

(** [self.blue_intensity.setValue(value)] by the user's hand: a
    [QSlider] with range 0..100 (line 1097) connected to
    [_on_blue_intensity_changed]. *)
Definition blue_intensity_setValue (value : Z) : M unit :=
  let value := py_max 0 (py_min 100 value) in
  old <- gets blue_intensity ;;
  if value =? old then ret tt
  else
    modify (set_blue_intensity value) ;;
    _on_blue_intensity_changed value.

(** [_on_second_display_changed(state)], lines 1988 to 2016. *)
Definition _on_second_display_changed (checked : bool) : M unit :=
  modify (fun s =>
    let sd := second_display s in
    set_second_display
      (mkSecondDisplayVars checked (second_display_dim sd)
         (second_display_blue_light sd) (second_display_blue_intensity sd)
         (second_display_blue_intensity_widget sd)) s) ;;
  _save_state ;;
  if checked then
    dimming <- gets dimmer_active ;;
    tinted <- gets blue_light_active ;;
    when (dimming || tinted) _update_second_display
  else _close_overlay_for_screen 1.

(** [_on_second_display_dim_changed(value)], lines 2019 to 2033. *)
Definition _on_second_display_dim_changed (value : Z) : M unit :=
  modify (fun s =>
    let sd := second_display s in
    set_second_display
      (mkSecondDisplayVars (second_display_enabled sd) value
         (second_display_blue_light sd) (second_display_blue_intensity sd)
         (second_display_blue_intensity_widget sd)) s) ;;
  _save_state ;;
  enabled <- gets (fun s => second_display_enabled (second_display s)) ;;
  when enabled (
    tinted <- gets (fun s => second_display_blue_light (second_display s)) ;;
    if (tinted : bool) then _update_second_display
    else _apply_dimming_to_screen 1 value None).

(** [_on_second_display_blue_light_changed(state)], lines 2036 to
    2046. *)
Definition _on_second_display_blue_light_changed (checked : bool) : M unit :=
  modify (fun s =>
    let sd := second_display s in
    set_second_display
      (mkSecondDisplayVars (second_display_enabled sd) (second_display_dim sd)
         checked (second_display_blue_intensity sd)
         (second_display_blue_intensity_widget sd)) s) ;;
  _save_state ;;
  _update_second_display.

(** [_on_second_display_blue_intensity_changed(value)], lines 2049 to
    2058: the attribute is rebound to the int. *)
Definition _on_second_display_blue_intensity_changed (value : Z) : M unit :=
  modify (fun s =>
    let sd := second_display s in
    set_second_display
      (mkSecondDisplayVars (second_display_enabled sd) (second_display_dim sd)
         (second_display_blue_light sd) (Some value)
         (second_display_blue_intensity_widget sd)) s) ;;
  _save_state ;;
  tinted <- gets (fun s => second_display_blue_light (second_display s)) ;;
  when tinted _update_second_display.

(** [self.second_display_blue_intensity_widget.setValue(value)] by the
    user's hand: a [QSlider] with range 0..100 (line 1598) connected to
    [_on_second_display_blue_intensity_changed] (line 1600). *)
Definition second_display_blue_intensity_setValue (value : Z) : M unit :=
  let value := py_max 0 (py_min 100 value) in
  old <- gets (fun s => second_display_blue_intensity_widget (second_display s)) ;;
  if value =? old then ret tt
  else
    modify (fun s =>
      let sd := second_display s in
      set_second_display
        (mkSecondDisplayVars (second_display_enabled sd)
           (second_display_dim sd) (second_display_blue_light sd)
           (second_display_blue_intensity sd) value) s) ;;
    _on_second_display_blue_intensity_changed value.

End TintHandlers.

(** A session with the blue light filter ticked at first start, on a
    single screen, and the same with the dimmer then switched on. *)
Definition session_tint_on : DimmerControl :=
  exec (_on_blue_light_changed true) (__init__ 1).

Definition session_tint_dimmer_on : DimmerControl :=
  exec _toggle_dimmer session_tint_on.

(** Two screens, first start, the second display ticked. *)
Definition session_second_display : DimmerControl :=
  exec (_on_second_display_changed true) (__init__ 2).

(** ** Start-up from the state file

    [_load_saved_state], lines 1754 to 1906.  The file is one that
    [save_state] wrote, so every key is present.  The widgets are
    updated with their signals blocked, so no handler runs; of the
    widgets the model keeps the two sliders of the main tab and the
    second display's intensity slider, each bounded to its range by
    [setValue].  The callables handed to [QTimer.singleShot] are
    returned with their delays. *)
Section Startup.

Local Open Scope Z_scope.
Local Open Scope py_scope.





End Startup.

(** ** The blink reminder and the quick timer

    The attributes of [DimmerControl] that the handlers above leave
    alone, beside the controller state they work on: the rain overlays
    by screen index, the blinker's two timers (by interval when
    running), [blinker_start_time], the quick timer's attributes and
    its [QTimer], the tray messages of these handlers, and the
    geometry (width, height) of the screens Qt reports. *)
Inductive BlinkerMessage :=
| BlinkerDisabled
| BlinkerEnabled (minutes : Z)
| BlinkReminderEyesAndText
| BlinkReminderEyes
| BlinkReminderText
| TimerStarted (minutes : Z)
| TimerEnded.

Record App := mkApp {
  control : DimmerControl;
  rain_overlays : gmap Z RainOverlay.t;
  blinker_timer : option Z;
  blinker_countdown_timer : option Z;
  blinker_start_time : Z;
  timer_active : bool;
  timer_minutes : Z;
  timer_end_time : option Z;
  timer_timer : option Z;
  blinker_tray : list BlinkerMessage;
  geometry : Z -> Z * Z
}.

Definition set_control (v : DimmerControl) (a : App) : App :=
  mkApp v (rain_overlays a) (blinker_timer a) (blinker_countdown_timer a)
    (blinker_start_time a) (timer_active a) (timer_minutes a)
    (timer_end_time a) (timer_timer a) (blinker_tray a) (geometry a).

Definition set_rain_overlays (v : gmap Z RainOverlay.t) (a : App) : App :=
  mkApp (control a) v (blinker_timer a) (blinker_countdown_timer a)
    (blinker_start_time a) (timer_active a) (timer_minutes a)
    (timer_end_time a) (timer_timer a) (blinker_tray a) (geometry a).

Definition set_blinker_timer (v : option Z) (a : App) : App :=
  mkApp (control a) (rain_overlays a) v (blinker_countdown_timer a)
    (blinker_start_time a) (timer_active a) (timer_minutes a)
    (timer_end_time a) (timer_timer a) (blinker_tray a) (geometry a).

Definition set_blinker_countdown_timer (v : option Z) (a : App) : App :=
  mkApp (control a) (rain_overlays a) (blinker_timer a) v
    (blinker_start_time a) (timer_active a) (timer_minutes a)
    (timer_end_time a) (timer_timer a) (blinker_tray a) (geometry a).

Definition set_blinker_start_time (v : Z) (a : App) : App :=
  mkApp (control a) (rain_overlays a) (blinker_timer a)
    (blinker_countdown_timer a) v (timer_active a) (timer_minutes a)
    (timer_end_time a) (timer_timer a) (blinker_tray a) (geometry a).

Definition set_quick_timer (active : bool) (minutes : Z)
  (end_time : option Z) (a : App) : App :=
  mkApp (control a) (rain_overlays a) (blinker_timer a)
    (blinker_countdown_timer a) (blinker_start_time a) active minutes
    end_time (timer_timer a) (blinker_tray a) (geometry a).

Definition set_timer_timer (v : option Z) (a : App) : App :=
  mkApp (control a) (rain_overlays a) (blinker_timer a)
    (blinker_countdown_timer a) (blinker_start_time a) (timer_active a)
    (timer_minutes a) (timer_end_time a) v (blinker_tray a) (geometry a).

Definition show (m : BlinkerMessage) (a : App) : App :=
  mkApp (control a) (rain_overlays a) (blinker_timer a)
    (blinker_countdown_timer a) (blinker_start_time a) (timer_active a)
    (timer_minutes a) (timer_end_time a) (timer_timer a)
    (m :: blinker_tray a) (geometry a).

(** A handler of the controller run on the controller part. *)
Definition lift {A} (m : M A) (a : App) : Outcome A * App :=
  let '(r, c) := m (control a) in (r, set_control c a).

Definition App__init__ (n_screens : nat) (geometry : Z -> Z * Z) : App :=
  mkApp (__init__ n_screens) ∅ None None 0 false 0 None None [] geometry.

Section BlinkerHandlers.

Local Open Scope Z_scope.

Definition with_blinker (f : BlinkerVars -> BlinkerVars) (a : App) : App :=
  set_control (set_blinker (f (blinker (control a))) (control a)) a.








(** [_start_timer], lines 2986 to 3038, with the spin box's value and
    [datetime.now()] (in microseconds) passed in. *)
Definition _start_timer (minutes now : Z) (a : App) : Outcome unit * App :=
  let a := set_quick_timer true minutes
             (Some (now + minutes * 60 * 1000000)) a in
  let '(r, a) :=
    if negb (dimmer_active (control a)) then lift _toggle_dimmer a
    else (Returned tt, a) in
  match r with
  | Raised e => (Raised e, a)
  | Returned _ =>
      let a := set_timer_timer (Some 10000) a in
      (Returned tt, show (TimerStarted minutes) a)
  end.

(** [_check_timer], lines 3040 to 3089, with [datetime.now()] passed
    in. *)
Definition _check_timer (now : Z) (a : App) : Outcome unit * App :=
  match timer_active a, timer_end_time a with
  | true, Some end_time =>
      if end_time <=? now then
        let '(r, a) :=
          if dimmer_active (control a) then lift _toggle_dimmer a
          else (Returned tt, a) in
        match r with
        | Raised e => (Raised e, a)
        | Returned _ =>
            let a := set_quick_timer false 0 None a in
            let a := set_timer_timer None a in
            (Returned tt, show TimerEnded a)
        end
      else (Returned tt, a)
  | _, _ => (Returned tt, set_timer_timer None a)
  end.




End BlinkerHandlers.








(** * Verification *)

Section OpacityCurve.
Local Open Scope R_scope.
Import DimmerOverlay.

Lemma py_max_spec (a b : Z) : py_max a b = Z.max a b.
Proof. unfold py_max. destruct (Z.ltb_spec a b); lia. Qed.

Lemma py_min_spec (a b : Z) : py_min a b = Z.min a b.
Proof. unfold py_min. destruct (Z.ltb_spec b a); lia. Qed.

Lemma py_clamp_range (lo hi x : Z) :
  (lo <= hi)%Z -> (lo <= py_max lo (py_min hi x) <= hi)%Z.
Proof. intros Hle. rewrite py_max_spec, py_min_spec. lia. Qed.

Lemma py_clamp_id (lo hi x : Z) :
  (lo <= x <= hi)%Z -> py_max lo (py_min hi x) = x.
Proof. intros Hx. rewrite py_max_spec, py_min_spec. lia. Qed.

Lemma py_clamp_mono (lo hi x y : Z) :
  (x <= y)%Z -> (py_max lo (py_min hi x) <= py_max lo (py_min hi y))%Z.
Proof. intros Hxy. rewrite !py_max_spec, !py_min_spec. lia. Qed.

Lemma Rpower_one_base (a : R) : Rpower 1 a = 1.
Proof. unfold Rpower. rewrite ln_1, Rmult_0_r. apply exp_0. Qed.

Lemma normalized_range (lo w p : Z) :
  (lo < p <= lo + w)%Z -> 0 < IZR (p - lo) / IZR w <= 1.
Proof.
  intros [Hlo Hhi].
  assert (Hw : 0 < IZR w) by (apply IZR_lt; lia).
  assert (Hp : 0 < IZR (p - lo)) by (apply IZR_lt; lia).
  assert (Hq : IZR (p - lo) <= IZR w) by (apply IZR_le; lia).
  split.
  - apply Rdiv_lt_0_compat; assumption.
  - apply (Rmult_le_reg_r (IZR w)); [assumption|].
    unfold Rdiv. rewrite Rmult_assoc, Rinv_l by lra. lra.
Qed.

Lemma normalized_mono (lo w p q : Z) :
  (lo < p)%Z -> (p <= q)%Z -> (0 < w)%Z ->
  0 < IZR (p - lo) / IZR w <= IZR (q - lo) / IZR w.
Proof.
  intros Hlo Hpq Hw0.
  assert (Hw : 0 < IZR w) by (apply IZR_lt; lia).
  assert (Hp : 0 < IZR (p - lo)) by (apply IZR_lt; lia).
  assert (Hq : IZR (p - lo) <= IZR (q - lo)) by (apply IZR_le; lia).
  split.
  - apply Rdiv_lt_0_compat; assumption.
  - unfold Rdiv. apply Rmult_le_compat_r; [|assumption].
    left. apply Rinv_0_lt_compat. assumption.
Qed.

(** Within a power segment the curve stays between the segment's base
    and its base plus scale. *)
Lemma segment_bounds (base scale a : R) (lo w p : Z) :
  0 <= scale -> 0 <= a -> (lo < p <= lo + w)%Z ->
  base <= base + Rpower (IZR (p - lo) / IZR w) a * scale <= base + scale.
Proof.
  intros Hs Ha Hp.
  destruct (normalized_range lo w p Hp) as [Hn0 Hn1].
  assert (H0 : 0 < Rpower (IZR (p - lo) / IZR w) a) by apply exp_pos.
  assert (H1 : Rpower (IZR (p - lo) / IZR w) a <= 1).
  { rewrite <- (Rpower_one_base a). apply Rle_Rpower_l; lra. }
  split; nra.
Qed.

Lemma segment_mono (base scale a : R) (lo w p q : Z) :
  0 <= scale -> 0 <= a -> (lo < p)%Z -> (p <= q)%Z -> (0 < w)%Z ->
  base + Rpower (IZR (p - lo) / IZR w) a * scale
  <= base + Rpower (IZR (q - lo) / IZR w) a * scale.
Proof.
  intros Hs Ha Hlo Hpq Hw.
  pose proof (normalized_mono lo w p q Hlo Hpq Hw) as Hn.
  assert (H : Rpower (IZR (p - lo) / IZR w) a
              <= Rpower (IZR (q - lo) / IZR w) a)
    by (apply Rle_Rpower_l; [assumption | lra]).
  nra.
Qed.

(** Bounds of a term of the curve, from the segment it belongs to. *)
Ltac bound_term t :=
  lazymatch t with
  | ?base + Rpower (IZR (?x - ?lo) / IZR ?w) ?a * ?scale =>
      pose proof (segment_bounds base scale a lo w x
                    ltac:(lra) ltac:(lra) ltac:(lia))
  | _ => idtac
  end.

(** One pair of segments: impossible, the same power segment, or two
    terms separated by their segments' bounds (or both linear). *)
Ltac curve_step :=
  first
    [ exfalso; lia
    | apply segment_mono; first [lra | lia]
    | match goal with
      | |- ?l <= ?r => bound_term l; bound_term r
      end;
      repeat match goal with
             | H : (_ <= _)%Z |- _ => apply IZR_le in H
             | H : (_ < _)%Z |- _ => apply IZR_lt in H
             end;
      lra ].

(** The no-tint curve on the slider's range. *)
Lemma no_tint_mono_unclamped (p q : Z) :
  (0 <= p)%Z -> (p <= q)%Z -> (q <= 95)%Z ->
  actual_opacity p None <= actual_opacity q None.
Proof.
  intros H0 Hpq H95. unfold actual_opacity.
  rewrite !py_clamp_id by lia.
  apply Rle_max_compat_l, Rle_min_compat_l.
  destruct (Z.leb_spec p 5); [| destruct (Z.leb_spec p 15);
    [| destruct (Z.leb_spec p 30); [| destruct (Z.leb_spec p 50);
      [| destruct (Z.leb_spec p 75)]]]];
  (destruct (Z.leb_spec q 5); [| destruct (Z.leb_spec q 15);
    [| destruct (Z.leb_spec q 30); [| destruct (Z.leb_spec q 50);
      [| destruct (Z.leb_spec q 75)]]]]).
  all: curve_step.
Qed.

Lemma actual_opacity_clamped (p : Z) (c : option QColor) :
  actual_opacity p c = actual_opacity (py_max 0 (py_min 95 p)) c.
Proof.
  unfold actual_opacity.
  rewrite (py_clamp_id 0 95 (py_max 0 (py_min 95 p)))
    by (apply py_clamp_range; lia).
  reflexivity.
Qed.

(** Out-of-range percents are clamped first, so the curve is monotone
    on all integers. *)
Lemma no_tint_mono_all (p q : Z) :
  (p <= q)%Z -> actual_opacity p None <= actual_opacity q None.
Proof.
  intros Hpq.
  rewrite (actual_opacity_clamped p), (actual_opacity_clamped q).
  pose proof (py_clamp_range 0 95 p ltac:(lia)).
  pose proof (py_clamp_range 0 95 q ltac:(lia)).
  apply no_tint_mono_unclamped; try lia.
  apply py_clamp_mono. exact Hpq.
Qed.

Ltac clamp_lra :=
  unfold Rmax, Rmin; repeat destruct Rle_dec; lra.

Ltac eval_tests :=
  repeat match goal with
         | |- context [(?a <=? ?b)%Z] =>
             destruct (Z.leb_spec a b); try lia
         end.



Lemma clamp_unit (x : R) : 0 <= Rmax 0.0 (Rmin 0.99 x) <= 0.99.
Proof. clamp_lra. Qed.

(** *** The binary64 reading *)

Lemma ltb_leb (x y : float) : (x <? y)%float = true -> (x <=? y)%float = true.
Proof.
  rewrite ltb_spec, leb_spec. unfold SFltb, SFleb.
  destruct (SFcompare _ _) as [[]|]; congruence.
Qed.

Lemma ltb_below_one (x : float) :
  (x <? 0.99)%float = true -> (x <? 1)%float = true.
Proof.
  rewrite !ltb_spec. unfold SFltb.
  replace (Prim2SF 0.99) with (S754_finite false 8917127262193582 (-53))
    by (vm_compute; reflexivity).
  replace (Prim2SF 1) with (S754_finite false 4503599627370496 (-52))
    by (vm_compute; reflexivity).
  destruct (Prim2SF x) as [s|s| |s m e]; cbn [SFcompare];
    try destruct s; try congruence.
  destruct (Z.compare_spec e (-53)) as [->|Hlt|Hgt]; try congruence.
  - intros _. reflexivity.
  - intros _. destruct (Z.compare_spec e (-52)); first [reflexivity | lia].
Qed.

(** Whatever float reaches the last line of the computation, a NaN or an
    infinity included, what leaves it is between 0.0 and 0.99. *)
Lemma clamp_b64 (x : float) :
  let r := py_fmax 0.0 (py_fmin 0.99 x) in
  (0 <=? r)%float = true /\ (r <=? 0.99)%float = true /\ (r <? 1)%float = true.
Proof.
  cbv zeta. unfold py_fmin. destruct (x <? 0.99)%float eqn:Hx.
  - unfold py_fmax. destruct (0.0 <? x)%float eqn:H0.
    + repeat split; auto using ltb_leb, ltb_below_one.
    + repeat split; vm_compute; reflexivity.
  - repeat split; vm_compute; reflexivity.
Qed.



(** On the stretch 0..5, where the curve is linear and [pow] is not
    called, the binary64 values themselves are non-decreasing. *)
Lemma b64_no_tint_mono_linear (pow : float -> float -> float) (p q : Z) :
  (0 <= p)%Z -> (p <= q)%Z -> (q <= 5)%Z ->
  (actual_opacity_b64 pow p None <=? actual_opacity_b64 pow q None)%float
  = true.
Proof.
  intros H0 Hpq H5.
  assert (Hp : In p (map Z.of_nat (seq 0 6))).
  { apply in_map_iff. exists (Z.to_nat p). split; [lia|]. apply in_seq. lia. }
  assert (Hq : In q (map Z.of_nat (seq 0 6))).
  { apply in_map_iff. exists (Z.to_nat q). split; [lia|]. apply in_seq. lia. }
  cbn in Hp, Hq.
  repeat (destruct Hp as [<-|Hp]; [|]); try destruct Hp;
    (repeat (destruct Hq as [<-|Hq]; [|]); try destruct Hq);
    first [vm_compute; reflexivity | lia].
Qed.



(** C2.  For every integer percent, inside 0..95 or not, and every
    optional tint colour, the opacity computed by [set_dimming] lies in
    the closed interval 0.0..0.99 and so stays below 1.0: in binary64
    whatever [pow] returns, and in the real-number reading, where the
    same holds for the value the [except] branch falls back to. *)
Theorem opacity_never_opaque (pow : float -> float -> float) (opacity : Z)
    (color : option QColor) :
  ((0 <=? actual_opacity_b64 pow opacity color)%float = true
   /\ (actual_opacity_b64 pow opacity color <=? 0.99)%float = true
   /\ (actual_opacity_b64 pow opacity color <? 1)%float = true)
  /\ 0.0 <= actual_opacity opacity color <= 0.99
  /\ actual_opacity opacity color < 1.0
  /\ 0.0 <= fallback_opacity opacity <= 0.99.
Proof.
  split; [unfold actual_opacity_b64; apply clamp_b64|].
  unfold actual_opacity, fallback_opacity.
  split; [|split].
  - match goal with |- context [Rmin _ ?x] => pose proof (clamp_unit x) end.
    lra.
  - match goal with |- context [Rmin _ ?x] => pose proof (clamp_unit x) end.
    lra.
  - pose proof (py_clamp_range 0 95 opacity ltac:(lia)) as [Hlo _].
    apply IZR_le in Hlo. clamp_lra.
Qed.

(** C8.  With a tint colour present and a percent in 0..95 that is at
    most 12, the computed opacity is percent/100 exactly, the final
    clamp changing nothing: the binary64 result is the float quotient
    [percent / 100.0] itself, and in the real-number reading the result
    is the rational percent/100. *)
Theorem tint_low_percent_linear (pow : float -> float -> float) (percent : Z)
    (color : QColor) :
  (0 <= percent <= 95)%Z -> (percent <= 12)%Z ->
  actual_opacity_b64 pow percent (Some color)
  = (float_of_int percent / 100.0)%float
  /\ actual_opacity percent (Some color) = IZR percent / 100.
Proof.
  intros Hr H12. split.
  - assert (H : In percent (map Z.of_nat (seq 0 13))).
    { apply in_map_iff. exists (Z.to_nat percent). split; [lia|].
      apply in_seq. lia. }
    cbn in H.
    repeat (destruct H as [<-|H]; [vm_compute; reflexivity|]). destruct H.
  - unfold actual_opacity. rewrite py_clamp_id by lia.
    eval_tests.
    assert (0 <= IZR percent <= IZR 12) by (split; apply IZR_le; lia).
    clamp_lra.
Qed.

Lemma tint_low_percent_linear_witness :
  actual_opacity_b64 (fun x _ => x) 7 (Some (mkQColor 255 227 202))
  = (float_of_int 7 / 100.0)%float
  /\ actual_opacity 7 (Some (mkQColor 255 227 202)) = IZR 7 / 100.
Proof. apply (tint_low_percent_linear (fun x _ => x) 7); lia. Defined.

(** C10.  With any tint colour the opacity is 0.12 at percent 12 and
    0.26 (13 * 2.0 / 100) at percent 13, so one slider step more than
    doubles it: in binary64, where the two results are the floats
    written 0.12 and 0.26, and in the real-number reading. *)
Theorem tint_jump_at_13 (pow : float -> float -> float) (color : QColor) :
  (actual_opacity_b64 pow 12 (Some color) = 0.12%float
   /\ actual_opacity_b64 pow 13 (Some color) = 0.26%float
   /\ (2 * actual_opacity_b64 pow 12 (Some color)
       <? actual_opacity_b64 pow 13 (Some color))%float = true)
  /\ actual_opacity 12 (Some color) = 0.12
  /\ actual_opacity 13 (Some color) = 0.26
  /\ 2 * actual_opacity 12 (Some color) < actual_opacity 13 (Some color).
Proof.
  split; [repeat split; vm_compute; reflexivity|].
  assert (H12 : actual_opacity 12 (Some color) = 0.12).
  { unfold actual_opacity. rewrite py_clamp_id by lia. eval_tests. clamp_lra. }
  assert (H13 : actual_opacity 13 (Some color) = 0.26).
  { unfold actual_opacity. rewrite py_clamp_id by lia. eval_tests. clamp_lra. }
  rewrite H12, H13. repeat split; lra.
Qed.
End OpacityCurve.

Section ScheduleFacts.
Local Open Scope Z_scope.

Lemma QTime_le_iff (a b : QTime) :
  QTime_le a b = true <-> msecs_since_start_of_day a <= msecs_since_start_of_day b.
Proof. unfold QTime_le. apply Z.leb_le. Qed.

Lemma QTime_le_false_iff (a b : QTime) :
  QTime_le a b = false <-> msecs_since_start_of_day b < msecs_since_start_of_day a.
Proof. unfold QTime_le. rewrite Z.leb_gt. reflexivity. Qed.

Lemma in_schedule_same_day (now start_time end_time : QTime) :
  msecs_since_start_of_day start_time <= msecs_since_start_of_day end_time ->
  (in_schedule now start_time end_time = true <->
   msecs_since_start_of_day start_time <= msecs_since_start_of_day now
     <= msecs_since_start_of_day end_time).
Proof.
  intros Hse. unfold in_schedule.
  rewrite (proj2 (QTime_le_iff _ _) Hse), andb_true_iff, !QTime_le_iff.
  reflexivity.
Qed.

Lemma in_schedule_overnight (now start_time end_time : QTime) :
  msecs_since_start_of_day end_time < msecs_since_start_of_day start_time ->
  (in_schedule now start_time end_time = true <->
   msecs_since_start_of_day start_time <= msecs_since_start_of_day now
   \/ msecs_since_start_of_day now <= msecs_since_start_of_day end_time).
Proof.
  intros Hse. unfold in_schedule, QTime_ge.
  rewrite (proj2 (QTime_le_false_iff _ _) Hse), orb_true_iff, !QTime_le_iff.
  reflexivity.
Qed.

(** C3.  For times now, start, end with start <> end, the in-window test
    of the schedule check is true exactly when start <= now <= end if
    start <= end (same-day window), and exactly when now >= start or
    now <= end if start > end (overnight window); for 22:00 to 06:00 it
    is true at 23:30 and at 02:00 and false at 12:00.  Times are compared
    as Qt does, by milliseconds since midnight. *)
Theorem in_schedule_window (now start_time end_time : QTime) :
  start_time <> end_time ->
  (msecs_since_start_of_day start_time <= msecs_since_start_of_day end_time ->
     (in_schedule now start_time end_time = true <->
      msecs_since_start_of_day start_time <= msecs_since_start_of_day now
        <= msecs_since_start_of_day end_time))
  /\ (msecs_since_start_of_day start_time > msecs_since_start_of_day end_time ->
     (in_schedule now start_time end_time = true <->
      msecs_since_start_of_day now >= msecs_since_start_of_day start_time
      \/ msecs_since_start_of_day now <= msecs_since_start_of_day end_time))
  /\ in_schedule (QTime_hm 23 30) (QTime_hm 22 0) (QTime_hm 6 0) = true
  /\ in_schedule (QTime_hm 2 0) (QTime_hm 22 0) (QTime_hm 6 0) = true
  /\ in_schedule (QTime_hm 12 0) (QTime_hm 22 0) (QTime_hm 6 0) = false.
Proof.
  intros _. split; [|split; [|repeat split]].
  - apply in_schedule_same_day.
  - intros Hgt. rewrite in_schedule_overnight by lia.
    split; (intros [H|H]; [left|right]; lia).
Qed.

Lemma in_schedule_window_witness :
  (msecs_since_start_of_day (QTime_hm 9 0) <= msecs_since_start_of_day (QTime_hm 17 30) ->
     (in_schedule (QTime_hm 12 0) (QTime_hm 9 0) (QTime_hm 17 30) = true <->
      msecs_since_start_of_day (QTime_hm 9 0) <= msecs_since_start_of_day (QTime_hm 12 0)
        <= msecs_since_start_of_day (QTime_hm 17 30)))
  /\ (msecs_since_start_of_day (QTime_hm 9 0) > msecs_since_start_of_day (QTime_hm 17 30) ->
     (in_schedule (QTime_hm 12 0) (QTime_hm 9 0) (QTime_hm 17 30) = true <->
      msecs_since_start_of_day (QTime_hm 12 0) >= msecs_since_start_of_day (QTime_hm 9 0)
      \/ msecs_since_start_of_day (QTime_hm 12 0) <= msecs_since_start_of_day (QTime_hm 17 30)))
  /\ in_schedule (QTime_hm 23 30) (QTime_hm 22 0) (QTime_hm 6 0) = true
  /\ in_schedule (QTime_hm 2 0) (QTime_hm 22 0) (QTime_hm 6 0) = true
  /\ in_schedule (QTime_hm 12 0) (QTime_hm 22 0) (QTime_hm 6 0) = false.
Proof.
  apply (in_schedule_window (QTime_hm 12 0) (QTime_hm 9 0) (QTime_hm 17 30)).
  discriminate.
Defined.

Ltac time_cases :=
  unfold remaining_seconds, in_schedule, QTime_ge, QTime_lt, QTime_le,
    minute_seconds, msecs_since_start_of_day, QTime_hm, QTime_valid in *;
  cbn [hour minute second msec] in *;
  repeat match goal with
         | |- context [(?a <=? ?b)] => destruct (Z.leb_spec a b)
         | |- context [(?a <? ?b)] => destruct (Z.ltb_spec a b)
         end;
  cbn [andb orb hour minute second msec] in *.

(** C7.  For a valid current time and a window whose start and end are
    times [QTime(h, m)] with start <> end (the only way the program
    builds them: presets, the h:mm dialog, the HH:mm state file), the
    remaining seconds computed by [_update_time_remaining] are the
    minute-granular seconds from now to the far edge of the window (the
    end when inside, the start when outside), with 24 hours added exactly
    when that difference is negative; the result is never negative, it
    is the difference modulo one day, and the difference is negative
    exactly for an overnight window with now at or after the start and
    for a same-day window left behind for today. *)
Theorem remaining_seconds_far_edge (now : QTime) (h1 m1 h2 m2 : Z) :
  let start_time := QTime_hm h1 m1 in
  let end_time := QTime_hm h2 m2 in
  let edge := if in_schedule now start_time end_time
              then end_time else start_time in
  let naive := minute_seconds edge - minute_seconds now in
  QTime_valid now -> QTime_valid start_time -> QTime_valid end_time ->
  start_time <> end_time ->
  remaining_seconds now start_time end_time
    = (if naive <? 0 then naive + 24 * 3600 else naive)
  /\ 0 <= remaining_seconds now start_time end_time
  /\ remaining_seconds now start_time end_time = naive mod (24 * 3600)
  /\ (naive < 0 <->
      (QTime_le start_time end_time = false
       /\ QTime_ge now start_time = true)
      \/ (QTime_le start_time end_time = true
          /\ in_schedule now start_time end_time = false
          /\ minute_seconds start_time <= minute_seconds now)).
Proof.
  intros start_time end_time edge naive Hn Hs He Hne.
  assert (Hne' : h1 <> h2 \/ m1 <> m2).
  { destruct (Z.eq_dec h1 h2) as [->|]; [|now left].
    destruct (Z.eq_dec m1 m2) as [->|]; [|now right].
    exfalso. apply Hne. reflexivity. }
  clear Hne. subst naive edge start_time end_time.
  destruct now as [h m s ms].
  split; [|split; [|split]].
  - time_cases; lia.
  - time_cases; lia.
  - time_cases;
      match goal with
      | |- ?r = ?n mod ?d =>
          first [ apply (Z.mod_unique n d 0 r); lia
                | apply (Z.mod_unique n d (-1) r); lia ]
      end.
  - time_cases;
      (split;
       [ intros Hlt;
         first [ exfalso; lia
               | left; split; reflexivity
               | right; repeat split; first [reflexivity | lia] ]
       | intros [[A B]|[A [B C]]]; first [discriminate | lia] ]).
Qed.

Lemma remaining_seconds_far_edge_witness :
  remaining_seconds (mkQTime 23 30 15 250) (QTime_hm 22 0) (QTime_hm 6 0)
    = 6 * 3600 + 30 * 60
  /\ 0 <= remaining_seconds (mkQTime 23 30 15 250) (QTime_hm 22 0) (QTime_hm 6 0).
Proof.
  pose proof (remaining_seconds_far_edge (mkQTime 23 30 15 250) 22 0 6 0) as H.
  cbv zeta in H.
  destruct H as (H1 & H2 & _).
  - unfold QTime_valid; cbn; lia.
  - unfold QTime_valid; cbn; lia.
  - unfold QTime_valid; cbn; lia.
  - discriminate.
  - split; [exact H1 | exact H2].
Defined.
End ScheduleFacts.

Section TintFacts.
Local Open Scope Z_scope.

Lemma tint_ok_table : forallb tint_ok (map Z.of_nat (seq 0 101)) = true.
Proof. vm_compute. reflexivity. Qed.

Lemma tint_ok_slider (i : Z) : 0 <= i <= 100 -> tint_ok i = true.
Proof.
  intros Hi. pose proof tint_ok_table as H.
  rewrite forallb_forall in H. apply H.
  apply in_map_iff. exists (Z.to_nat i). split; [lia|].
  apply in_seq. lia.
Qed.

(** C9.  [_calculate_blue_light_color] returns (255, 255, 255) at
    intensity 0 and (255, 200, 150) at intensity 100, and for every
    intensity in 0..100 it returns a colour with red 255, green at least
    200 and blue at least 150. *)
Theorem blue_light_color_range (intensity : Z) :
  0 <= intensity <= 100 ->
  _calculate_blue_light_color 0 = Some (mkQColor 255 255 255)
  /\ _calculate_blue_light_color 100 = Some (mkQColor 255 200 150)
  /\ exists c, _calculate_blue_light_color intensity = Some c
       /\ red c = 255 /\ 200 <= green c /\ 150 <= blue c.
Proof.
  intros Hi. split; [vm_compute; reflexivity|].
  split; [vm_compute; reflexivity|].
  pose proof (tint_ok_slider intensity Hi) as H. unfold tint_ok in H.
  destruct (_calculate_blue_light_color intensity) as [c|]; [|discriminate].
  destruct (tint_only_opacity intensity); [|discriminate].
  exists c. rewrite !andb_true_iff in H.
  repeat match goal with H : _ /\ _ |- _ => destruct H end.
  repeat split; lia.
Qed.

Lemma blue_light_color_range_witness :
  _calculate_blue_light_color 0 = Some (mkQColor 255 255 255)
  /\ _calculate_blue_light_color 100 = Some (mkQColor 255 200 150)
  /\ exists c, _calculate_blue_light_color 37 = Some c
       /\ red c = 255 /\ 200 <= green c /\ 150 <= blue c.
Proof. apply (blue_light_color_range 37). lia. Defined.
End TintFacts.

Section ProfileFacts.
Import ProfileManager.

Lemma load_replaces_with_defaults (self : ProfileManager.t) (disk : option file) :
  disk = None \/ disk = Some Malformed ->
  _profiles (fst (load self disk)) = _get_defaults.
Proof.
  intros [-> | ->]; unfold load, save; destruct (_cache_dirty self); reflexivity.
Qed.

Lemma load_clean_cache_writes_nothing (self : ProfileManager.t) (disk : option file) :
  _cache_dirty self = false -> snd (load self disk) = disk.
Proof.
  intros Hc. unfold load, save. destruct disk as [[|data]|]; cbn; rewrite ?Hc; reflexivity.
Qed.

(** C5.  What the code does where the claim asks for an immediate
    write: constructing the manager without a profiles file leaves the
    four defaults in memory and no file on disk; a malformed file is left
    as it was; and a later [save()] (as [quit_app] issues) writes nothing
    either, because [_cache_dirty] was never set. *)
Theorem init_missing_file_not_written :
  _profiles (fst (init None)) = _get_defaults
  /\ get (fst (init None)) "Night Mode" = Some (Profile.mk 85 true 60)
  /\ get (fst (init None)) "Reading" = Some (Profile.mk 60 false 0)
  /\ get (fst (init None)) "Gaming" = Some (Profile.mk 50 false 0)
  /\ get (fst (init None)) "Movie" = Some (Profile.mk 80 true 30)
  /\ size (_profiles (fst (init None))) = 4%nat
  /\ _profiles (fst (init (Some Malformed))) = _get_defaults
  /\ snd (init None) = None
  /\ snd (init (Some Malformed)) = Some Malformed
  /\ snd (save (fst (init None)) (snd (init None))) = None.
Proof. repeat split. Qed.
End ProfileFacts.

Create HintDb handlers.

Ltac fields :=
  cbn [overlays dimmer_active current_dim blue_light_active
       _toggle_in_progress _schedule_toggle_in_progress schedule
       second_display blinker dim_slider blue_intensity schedule_timer
       time_remaining_timer tray_icon screens state_file
       set_overlays set_dimmer_active set_current_dim set_toggle_in_progress
       set_schedule_toggle_in_progress set_schedule set_dim_slider
       set_schedule_timer set_time_remaining_timer set_state_file
       showMessage StateManager.save_state set_schedule_enabled] in *.

Section Frames.
Local Open Scope Z_scope.
Local Open Scope py_scope.

Lemma set_overlays_twice (o o' : gmap Z DimmerOverlay.t) (s : DimmerControl) :
  set_overlays o' (set_overlays o s) = set_overlays o' s.
Proof. reflexivity. Qed.

Lemma set_overlays_same (s : DimmerControl) : set_overlays (overlays s) s = s.
Proof. destruct s; reflexivity. Qed.

Lemma runs_ret {A} b (a : A) s : runs b (ret a) s.
Proof. exists (Returned a), (overlays s). rewrite set_overlays_same. now split. Qed.

Lemma runs_gets {A B} b (f : DimmerControl -> A) (k : A -> M B) s :
  runs b (k (f s)) s -> runs b (bind (gets f) k) s.
Proof. intros H. exact H. Qed.

Lemma runs_bind {A B} b (m : M A) (k : A -> M B) s :
  runs b m s ->
  (forall a o, runs b (k a) (set_overlays o s)) ->
  runs b (bind m k) s.
Proof.
  intros (r & o & Hm & Hr) Hk. unfold runs, bind. rewrite Hm.
  destruct r as [a|e].
  - destruct (Hk a o) as (r' & o' & Hk' & Hr'). rewrite Hk'.
    exists r', o'. split; [reflexivity | assumption].
  - exists (Raised e), o. split; [reflexivity | assumption].
Qed.

Lemma runs_set_overlays b f s :
  runs b (modify (fun s => set_overlays (f s) s)) s.
Proof. exists (Returned tt), (f s). now split. Qed.

Lemma runs_get_overlay b i s : runs b (_get_overlay_for_screen i) s.
Proof.
  unfold runs, _get_overlay_for_screen.
  destruct (overlays s !! i).
  - exists (Returned (Some i)), (overlays s). rewrite set_overlays_same. now split.
  - destruct (i <? Z.of_nat (screens s)).
    + eexists _, _. split; [reflexivity | exact I].
    + exists (Returned None), (overlays s). rewrite set_overlays_same. now split.
Qed.

Lemma runs_overlay_set_dimming b ov opacity color s :
  runs b (overlay_set_dimming ov opacity color) s.
Proof. apply runs_set_overlays. Qed.

Lemma runs_close_overlay b i s : runs b (_close_overlay_for_screen i) s.
Proof. apply runs_set_overlays. Qed.

Lemma runs_apply_dimming b i opacity color s :
  runs b (_apply_dimming_to_screen i opacity color) s.
Proof.
  unfold _apply_dimming_to_screen.
  apply runs_bind; [apply runs_get_overlay|].
  intros [ov|] o; [apply runs_overlay_set_dimming | apply runs_ret].
Qed.

Lemma runs_raise {A} e s : runs false (raise e : M A) s.
Proof.
  exists (Raised e), (overlays s). rewrite set_overlays_same. now split.
Qed.

Lemma runs_calculate_color b i s :
  (b = true -> exists z, i = Some z /\ 0 <= z <= 100) ->
  runs b (calculate_color i) s.
Proof.
  intros Hi. unfold calculate_color. destruct b.
  - destruct (Hi eq_refl) as (z & -> & Hz).
    pose proof (tint_ok_slider z Hz) as Hok. unfold tint_ok in Hok.
    destruct (_calculate_blue_light_color z); [apply runs_ret | discriminate].
  - destruct i as [z|]; [|apply runs_raise].
    destruct (_calculate_blue_light_color z); [apply runs_ret | apply runs_raise].
Qed.

Lemma runs_calculate_tint_opacity b i s :
  (b = true -> exists z, i = Some z /\ 0 <= z <= 100) ->
  runs b (calculate_tint_opacity i) s.
Proof.
  intros Hi. unfold calculate_tint_opacity. destruct b.
  - destruct (Hi eq_refl) as (z & -> & Hz).
    pose proof (tint_ok_slider z Hz) as Hok. unfold tint_ok in Hok.
    destruct (_calculate_blue_light_color z); [|discriminate].
    destruct (tint_only_opacity z); [apply runs_ret | discriminate].
  - destruct i as [z|]; [|apply runs_raise].
    destruct (tint_only_opacity z); [apply runs_ret | apply runs_raise].
Qed.

Hint Resolve runs_ret runs_get_overlay runs_overlay_set_dimming
  runs_close_overlay runs_apply_dimming : handlers.

Ltac run_step :=
  first
    [ apply runs_ret
    | apply runs_gets; fields
    | apply runs_bind; [solve [eauto with handlers] | intros; fields]
    | match goal with
      | |- runs _ (if ?c then _ else _) _ => destruct c eqn:?
      | |- runs _ (match ?x with _ => _ end) _ => destruct x eqn:?
      | |- runs _ (when ?c _) _ => unfold when
      end
    | solve [eauto with handlers] ].

Lemma runs_update_blue_light b s :
  (b = true -> 0 <= blue_intensity s <= 100) ->
  runs b _update_blue_light s.
Proof.
  intros Hi.
  assert (Hc : forall o, runs b (calculate_color (Some (blue_intensity s)))
                           (set_overlays o s))
    by (intros; apply runs_calculate_color; eauto).
  assert (Ht : forall o, runs b (calculate_tint_opacity (Some (blue_intensity s)))
                           (set_overlays o s))
    by (intros; apply runs_calculate_tint_opacity; eauto).
  unfold _update_blue_light.
  repeat first [ run_step
               | apply runs_bind; [first [apply Hc | apply Ht] | intros; fields] ].
Qed.

Lemma runs_update_second_display b s :
  (b = true -> tint_inputs_ok s) ->
  runs b _update_second_display s.
Proof.
  intros Hi. unfold _update_second_display.
  repeat run_step.
  assert (Hz : b = true ->
               exists z, second_display_blue_intensity (second_display s) = Some z
                         /\ 0 <= z <= 100).
  { intros Hb. destruct (Hi Hb) as [_ H2]. apply H2; [|assumption].
    destruct (second_display_enabled (second_display s));
      [reflexivity | discriminate]. }
  repeat first
    [ run_step
    | apply runs_bind;
      [ first [ apply runs_calculate_color | apply runs_calculate_tint_opacity ];
        exact Hz
      | intros; fields ] ].
Qed.

Lemma runs_for_each {A} b (l : list A) (body : A -> M unit) s :
  (forall x o, In x l -> runs b (body x) (set_overlays o s)) ->
  runs b (for_each l body) s.
Proof.
  revert s. induction l as [|x l IH]; intros s Hbody; cbn [for_each].
  - apply runs_ret.
  - apply runs_bind.
    + rewrite <- (set_overlays_same s). apply Hbody. now left.
    + intros _ o. apply IH. intros y o' Hy.
      rewrite set_overlays_twice. apply Hbody. now right.
Qed.

(** Turning the dimmer on: the handler returns and leaves exactly the
    state the four assignments after the loop describe. *)
Lemma toggle_on_run s :
  dimmer_active s = false -> _toggle_in_progress s = false ->
  tint_inputs_ok s ->
  exists o,
    _toggle_dimmer s =
    (Returned tt,
     set_toggle_in_progress false
       (StateManager.save_state
          (showMessage (DimmerActivated (current_dim s))
             (set_dimmer_active true
                (set_overlays o (set_toggle_in_progress true s)))))).
Proof.
  intros Hoff Hfree Hok. unfold _toggle_dimmer.
  unfold bind at 1. unfold gets at 1. rewrite Hfree.
  unfold bind at 1. unfold modify at 1. unfold try_finally.
  unfold bind at 1. unfold gets at 1. fields. rewrite Hoff. cbn [negb].
  unfold _get_enabled_screens.
  unfold bind at 1. unfold gets at 1. unfold bind at 1.
  match goal with
  | |- context [for_each ?l ?body ?s1] =>
      assert (Hloop : runs true (for_each l body) s1)
  end.
  { apply runs_for_each. intros x o _.
    destruct (x =? 0); [|destruct (x =? 1)].
    - apply runs_gets. fields.
      destruct (blue_light_active s).
      + apply runs_update_blue_light. intros _. apply Hok.
      + apply runs_gets. apply runs_apply_dimming.
    - apply runs_gets. unfold when.
      destruct (second_display_enabled _);
        [apply runs_update_second_display; intros _; exact Hok | apply runs_ret].
    - apply runs_ret. }
  destruct Hloop as (r & o & Hrun & Hr).
  destruct r as [[]|e]; [|discriminate Hr].
  exists o. rewrite Hrun. reflexivity.
Qed.

(** Turning the dimmer off: whatever happens in the loop, the state
    file is not touched; when the loop completes the flag is cleared. *)
Lemma toggle_off_run s :
  dimmer_active s = true -> _toggle_in_progress s = false ->
  exists r o,
    _toggle_dimmer s =
    (r, match r with
        | Returned _ =>
            set_toggle_in_progress false
              (showMessage DimmerDeactivated
                 (set_dimmer_active false
                    (set_overlays o (set_toggle_in_progress true s))))
        | Raised _ =>
            set_toggle_in_progress false
              (set_overlays o (set_toggle_in_progress true s))
        end)
    /\ (tint_inputs_ok s -> r = Returned tt).
Proof.
  intros Hon Hfree. unfold _toggle_dimmer.
  unfold bind at 1. unfold gets at 1. rewrite Hfree.
  unfold bind at 1. unfold modify at 1. unfold try_finally.
  unfold bind at 1. unfold gets at 1. fields. rewrite Hon. cbn [negb].
  unfold _get_enabled_screens.
  unfold bind at 1. unfold gets at 1. unfold bind at 1.
  match goal with
  | |- context [for_each ?l ?body ?s1] =>
      assert (Hloop : forall b, (b = true -> tint_inputs_ok s) ->
                                runs b (for_each l body) s1)
  end.
  { intros b Hb. apply runs_for_each. intros x o Hx.
    assert (H1 : b = true -> exists z, Some (blue_intensity s) = Some z
                                       /\ 0 <= z <= 100)
      by (intros E; destruct (Hb E); eauto).
    destruct (Z.eqb_spec x 0) as [->|Hx0]; [|destruct (Z.eqb_spec x 1) as [->|Hx1]].
    - apply runs_gets. fields. destruct (blue_light_active s); cbn [negb].
      + apply runs_gets. fields.
        apply runs_bind; [apply runs_calculate_color; exact H1|].
        intros c o1.
        apply runs_bind; [apply runs_calculate_tint_opacity; exact H1|].
        intros t o2. apply runs_apply_dimming.
      + apply runs_close_overlay.
    - apply runs_gets. fields.
      destruct (second_display_blue_light (second_display s)) eqn:Hbl;
        cbn [negb]; [|apply runs_close_overlay].
      apply runs_gets. fields.
      assert (H2 : b = true ->
                   exists z, second_display_blue_intensity (second_display s) = Some z
                             /\ 0 <= z <= 100).
      { intros E. destruct (Hb E) as [_ Hsd]. apply Hsd; [|exact Hbl].
        fields. destruct Hx as [Hx|Hx]; [discriminate Hx|].
        destruct (second_display_enabled (second_display s));
          [reflexivity | destruct Hx]. }
      apply runs_bind; [apply runs_calculate_color; exact H2|].
      intros c o1.
      apply runs_bind; [apply runs_calculate_tint_opacity; exact H2|].
      intros t o2. apply runs_apply_dimming.
    - apply runs_ret. }
  destruct (Hloop false) as (r & o & Hrun & _); [discriminate|].
  rewrite Hrun. exists (match r with Returned _ => Returned tt | Raised e => Raised e end), o.
  split.
  - destruct r as [[]|e]; reflexivity.
  - intros Hok. destruct (Hloop true (fun _ => Hok)) as (r' & o' & Hrun' & Hr').
    rewrite Hrun in Hrun'. injection Hrun' as <- _.
    destruct r as [[]|e]; [reflexivity | discriminate Hr'].
Qed.

Lemma on_dim_changed_run value s :
  exists r o,
    _on_dim_changed value s =
    (r, set_overlays o (StateManager.save_state (set_current_dim value s)))
    /\ (dimmer_active s = false \/ 0 <= blue_intensity s <= 100 ->
        r = Returned tt).
Proof.
  unfold _on_dim_changed.
  unfold bind at 1. unfold modify at 1.
  unfold bind at 1. unfold _save_state at 1. unfold modify at 1.
  unfold bind at 1. unfold gets at 1. fields.
  match goal with
  | |- context [when ?c ?m ?s1] =>
      assert (Hw : forall b, (b = true -> dimmer_active s = false
                                          \/ 0 <= blue_intensity s <= 100) ->
                             runs b (when c m) s1)
  end.
  { intros b Hb. unfold when.
    destruct (dimmer_active s); [|apply runs_ret].
    apply runs_gets. fields. destruct (blue_light_active s).
    - apply runs_update_blue_light. intros E.
      destruct (Hb E) as [H|H]; [discriminate H | exact H].
    - apply runs_apply_dimming. }
  destruct (Hw false) as (r & o & Hrun & _); [discriminate|].
  exists r, o. split; [exact Hrun|].
  intros Hok. destruct (Hw true (fun _ => Hok)) as (r' & o' & Hrun' & Hr').
  rewrite Hrun in Hrun'. injection Hrun' as <- _.
  destruct r as [[]|e]; [reflexivity | discriminate Hr'].
Qed.

(** Every slider change reaches the state file. *)
Lemma on_dim_changed_persisted value s :
  current_dim (exec (_on_dim_changed value) s) = value
  /\ dimmer_active (exec (_on_dim_changed value) s) = dimmer_active s
  /\ dim_state_persisted (exec (_on_dim_changed value) s).
Proof.
  destruct (on_dim_changed_run value s) as (r & o & Hrun & _).
  unfold exec, dim_state_persisted. rewrite Hrun. cbn [snd]. fields.
  repeat split. eexists. split; [reflexivity|]. split; reflexivity.
Qed.

(** Turning the dimmer on reaches the state file. *)
Lemma toggle_on_persisted s :
  dimmer_active s = false -> _toggle_in_progress s = false ->
  tint_inputs_ok s ->
  returns _toggle_dimmer s = true
  /\ dimmer_active (exec _toggle_dimmer s) = true
  /\ current_dim (exec _toggle_dimmer s) = current_dim s
  /\ dim_state_persisted (exec _toggle_dimmer s).
Proof.
  intros Hoff Hfree Hok.
  destruct (toggle_on_run s Hoff Hfree Hok) as (o & Hrun).
  unfold returns, exec, dim_state_persisted. rewrite Hrun. cbn [fst snd]. fields.
  repeat split. eexists. split; [reflexivity|]. split; reflexivity.
Qed.

(** Turning the dimmer off never writes the state file. *)
Lemma toggle_off_state_file s :
  dimmer_active s = true ->
  state_file (exec _toggle_dimmer s) = state_file s.
Proof.
  intros Hon. destruct (_toggle_in_progress s) eqn:Hbusy.
  - unfold exec, _toggle_dimmer. unfold bind at 1. unfold gets at 1.
    rewrite Hbusy. reflexivity.
  - destruct (toggle_off_run s Hon Hbusy) as (r & o & Hrun & _).
    unfold exec. rewrite Hrun. cbn [snd]. destruct r; reflexivity.
Qed.

(** So a completed On-to-Off transition leaves the file claiming that
    the dimmer is still active. *)
Lemma toggle_off_stale s :
  dimmer_active s = true -> _toggle_in_progress s = false ->
  tint_inputs_ok s -> dim_state_persisted s ->
  returns _toggle_dimmer s = true
  /\ dimmer_active (exec _toggle_dimmer s) = false
  /\ option_map s_dimmer_active (state_file (exec _toggle_dimmer s)) = Some true
  /\ ~ dim_state_persisted (exec _toggle_dimmer s).
Proof.
  intros Hon Hfree Hok (f & Hf & Hact & Hdim).
  pose proof (toggle_off_state_file s Hon) as Hfile.
  destruct (toggle_off_run s Hon Hfree) as (r & o & Hrun & Hr).
  rewrite (Hr Hok) in Hrun.
  assert (Hd : dimmer_active (exec _toggle_dimmer s) = false)
    by (unfold exec; rewrite Hrun; reflexivity).
  repeat split.
  - unfold returns. rewrite Hrun. reflexivity.
  - exact Hd.
  - rewrite Hfile, Hf. cbn. congruence.
  - intros (f' & Hf' & Hact' & _). rewrite Hfile, Hf in Hf'.
    injection Hf' as <-. congruence.
Qed.

Lemma dim_slider_setValue_off value s :
  dimmer_active s = false -> 0 <= value <= 95 -> current_dim s = dim_slider s ->
  exists s1,
    dim_slider_setValue value s = (Returned tt, s1)
    /\ current_dim s1 = value /\ dim_slider s1 = value
    /\ dimmer_active s1 = false
    /\ _toggle_in_progress s1 = _toggle_in_progress s
    /\ schedule s1 = schedule s
    /\ (tint_inputs_ok s -> tint_inputs_ok s1).
Proof.
  intros Hoff Hv Hsync. unfold dim_slider_setValue.
  rewrite py_clamp_id by lia.
  unfold bind at 1. unfold gets at 1.
  destruct (Z.eqb_spec value (dim_slider s)) as [->|Hne].
  - exists s. repeat match goal with |- _ /\ _ => split end; auto.
  - unfold bind at 1. unfold modify at 1.
    destruct (on_dim_changed_run value (set_dim_slider value s))
      as (r & o & Hrun & Hr).
    rewrite Hrun, Hr by (left; exact Hoff).
    eexists. split; [reflexivity|]. fields.
    repeat match goal with |- _ /\ _ => split end; auto.
Qed.
End Frames.

Section ControllerFacts.
Local Open Scope Z_scope.
Local Open Scope py_scope.

Lemma tint_inputs_ok_defaults (s : DimmerControl) :
  blue_intensity s = 50 ->
  second_display_enabled (second_display s) = false ->
  tint_inputs_ok s.
Proof.
  intros Hb Hs. split; [lia|]. intros H. rewrite Hs in H. discriminate H.
Qed.

Lemma check_schedule_run (now start end_ : QTime) (s : DimmerControl) :
  schedule_enabled (schedule s) = true ->
  schedule_time_set (schedule s) = true ->
  start_time (schedule s) = Some start ->
  end_time (schedule s) = Some end_ ->
  in_schedule now start end_ = true ->
  _toggle_in_progress s = false ->
  current_dim s = dim_slider s ->
  0 <= schedule_dim_value (schedule s) <= 95 ->
  tint_inputs_ok s ->
  exists s',
    _check_schedule now s = (Returned tt, s')
    /\ dimmer_active s' = true
    /\ current_dim s' = if dimmer_active s then current_dim s
                        else schedule_dim_value (schedule s).
Proof.
  intros Hen Hset Hst Hend Hin Hfree Hsync Hlevel Hok.
  unfold _check_schedule. unfold bind at 1. unfold gets at 1.
  rewrite Hen, Hset, Hst, Hend, Hin. cbn [negb orb].
  unfold bind at 1. unfold gets at 1.
  destruct (dimmer_active s) eqn:Hd; cbn [negb when].
  - eexists. split; [reflexivity|]. fields. split; [exact Hd | reflexivity].
  - destruct (dim_slider_setValue_off (schedule_dim_value (schedule s)) s
                Hd Hlevel Hsync)
      as (s1 & Hrun1 & Hdim1 & _ & Hoff1 & Hfree1 & _ & Hok1).
    rewrite Hfree in Hfree1.
    destruct (toggle_on_run s1 Hoff1 Hfree1 (Hok1 Hok)) as (o & Hrun2).
    unfold bind at 1. unfold bind at 1. rewrite Hrun1, Hrun2.
    eexists. split; [reflexivity|]. fields. split; [reflexivity | exact Hdim1].
Qed.

(** C4, as amended.  A schedule tick taken while the schedule is
    enabled, a window is set and the current time is inside it, from a
    state between events (no toggle in progress, slider and
    [current_dim] in step, schedule level within the slider's range
    0..95, tint intensities from their sliders) returns normally and
    leaves the dimmer On; the dim percent is the schedule level when the
    dimmer was Off before the tick, and is left as it was when the dimmer
    was already On. *)
Theorem check_schedule_in_window (now start end_ : QTime) (s : DimmerControl) :
  schedule_enabled (schedule s) = true ->
  schedule_time_set (schedule s) = true ->
  start_time (schedule s) = Some start ->
  end_time (schedule s) = Some end_ ->
  in_schedule now start end_ = true ->
  _toggle_in_progress s = false ->
  current_dim s = dim_slider s ->
  0 <= schedule_dim_value (schedule s) <= 95 ->
  tint_inputs_ok s ->
  returns (_check_schedule now) s = true
  /\ dimmer_active (exec (_check_schedule now) s) = true
  /\ (dimmer_active s = false ->
      current_dim (exec (_check_schedule now) s)
      = schedule_dim_value (schedule s))
  /\ (dimmer_active s = true ->
      current_dim (exec (_check_schedule now) s) = current_dim s).
Proof.
  intros Hen Hset Hst Hend Hin Hfree Hsync Hlevel Hok.
  destruct (check_schedule_run now start end_ s Hen Hset Hst Hend Hin Hfree
              Hsync Hlevel Hok) as (s' & Hrun & Hact & Hdim).
  unfold returns, exec. rewrite Hrun. cbn [fst snd].
  repeat split; try assumption.
  - intros Hd. rewrite Hd in Hdim. exact Hdim.
  - intros Hd. rewrite Hd in Hdim. exact Hdim.
Qed.

Lemma check_schedule_in_window_witness :
  returns (_check_schedule (mkQTime 19 0 12 0)) session_schedule_dimmer_off = true
  /\ dimmer_active (exec (_check_schedule (mkQTime 19 0 12 0))
                      session_schedule_dimmer_off) = true
  /\ current_dim (exec (_check_schedule (mkQTime 19 0 12 0))
                    session_schedule_dimmer_off) = 90.
Proof.
  destruct (check_schedule_in_window (mkQTime 19 0 12 0) (QTime_hm 18 0)
              (QTime_hm 6 0) session_schedule_dimmer_off)
    as (Hret & Hact & Hoff & _);
    try reflexivity.
  - change (0 <= 90 <= 95). lia.
  - apply tint_inputs_ok_defaults; reflexivity.
  - split; [exact Hret|]. split; [exact Hact|]. apply Hoff. reflexivity.
Defined.

(** C4 as stated fails: with the dimmer already On at 25 percent, the
    "All Night" schedule (90 percent) enabled and a tick at 19:00:12,
    the dimmer stays at 25 percent. *)
Lemma check_schedule_keeps_level_when_on :
  ~ (forall (now start end_ : QTime) (s : DimmerControl),
       schedule_enabled (schedule s) = true ->
       schedule_time_set (schedule s) = true ->
       start_time (schedule s) = Some start ->
       end_time (schedule s) = Some end_ ->
       in_schedule now start end_ = true ->
       dimmer_active (exec (_check_schedule now) s) = true
       /\ current_dim (exec (_check_schedule now) s)
          = schedule_dim_value (schedule s)).
Proof.
  intros H.
  destruct (H (mkQTime 19 0 12 0) (QTime_hm 18 0) (QTime_hm 6 0)
              session_schedule_dimmer_on) as [_ Hdim]; try reflexivity.
  discriminate Hdim.
Qed.

(** C6.  What the code does where the claim asks for a write on every
    change: after Off to On the state file agrees with the dim state, and
    so it does after a slider change; after the following On to Off
    transition the dimmer is Off in memory while the state file still
    records it as active. *)
Theorem toggle_off_not_persisted :
  let s_on := session_dimmer_on in
  let s_off := exec _toggle_dimmer s_on in
  dimmer_active s_on = true
  /\ dim_state_persisted s_on
  /\ dim_state_persisted (exec (_on_dim_changed 60) s_on)
  /\ returns _toggle_dimmer s_on = true
  /\ dimmer_active s_off = false
  /\ option_map s_dimmer_active (state_file s_off) = Some true
  /\ ~ dim_state_persisted s_off.
Proof.
  cbv zeta.
  assert (Hon : dimmer_active session_dimmer_on = true) by reflexivity.
  assert (Hp : dim_state_persisted session_dimmer_on).
  { eexists. split; [reflexivity|]. split; reflexivity. }
  assert (Hok : tint_inputs_ok session_dimmer_on).
  { apply tint_inputs_ok_defaults; reflexivity. }
  destruct (toggle_off_stale session_dimmer_on Hon eq_refl Hok Hp)
    as (H1 & H2 & H3 & H4).
  split; [exact Hon|]. split; [exact Hp|].
  split; [apply on_dim_changed_persisted|].
  split; [exact H1|]. split; [exact H2|]. split; [exact H3 | exact H4].
Qed.
End ControllerFacts.

(** * Further properties of the code *)

(** ** The opacity curves *)

Ltac div_lia := unfold ceil_div in *; Z.div_mod_to_equations; lia.

Section CurveShape.
Local Open Scope R_scope.
Import DimmerOverlay.


Ltac to_reals :=
  repeat match goal with
         | H : (_ <= _)%Z |- _ => apply IZR_le in H
         | H : (_ < _)%Z |- _ => apply IZR_lt in H
         end.




Lemma clamp_id (x : R) : 0 <= x <= 0.99 -> Rmax 0.0 (Rmin 0.99 x) = x.
Proof. intros H. unfold Rmax, Rmin. repeat destruct Rle_dec; lra. Qed.













Lemma tint_exact_table : forallb tint_exact (map Z.of_nat (seq 0 101)) = true.
Proof. vm_compute. reflexivity. Qed.

Lemma tint_exact_slider (i : Z) : (0 <= i <= 100)%Z -> tint_exact i = true.
Proof.
  intros Hi. pose proof tint_exact_table as H.
  rewrite forallb_forall in H. apply H.
  apply in_map_iff. exists (Z.to_nat i). split; [lia|].
  apply in_seq. lia.
Qed.

Lemma tint_exact_inv (i : Z) :
  (0 <= i <= 100)%Z ->
  _calculate_blue_light_color i
  = Some (mkQColor 255 (255 - ceil_div (55 * i) 100)
                   (255 - ceil_div (105 * i) 100))
  /\ tint_only_opacity i = Some (12 * i / 100)%Z.
Proof.
  intros Hi. pose proof (tint_exact_slider i Hi) as H. unfold tint_exact in H.
  destruct (_calculate_blue_light_color i) as [[r g b]|]; [|discriminate].
  destruct (tint_only_opacity i) as [o|]; [|discriminate].
  cbn [red green blue] in H. rewrite !andb_true_iff in H.
  destruct H as [[[Hr Hg] Hb] Ho].
  apply Z.eqb_eq in Hr, Hg, Hb, Ho. subst. split; reflexivity.
Qed.

(** The tint shown without the dimmer sits on the linear stretch of the
    curve. *)
Lemma tint_only_linear (i : Z) (c : QColor) :
  (0 <= i <= 100)%Z ->
  actual_opacity (12 * i / 100) (Some c) = IZR (12 * i / 100) / 100
  /\ actual_opacity (12 * i / 100) (Some c) <= 0.12.
Proof.
  intros Hi.
  assert (Ho : (0 <= 12 * i / 100 <= 12)%Z) by div_lia.
  assert (Hlin : actual_opacity (12 * i / 100) (Some c)
                 = IZR (12 * i / 100) / 100).
  { unfold actual_opacity. rewrite py_clamp_id by lia.
    destruct (Z.leb_spec (12 * i / 100) 12); [|lia].
    destruct Ho as [Ho0 Ho12]. to_reals.
    rewrite clamp_id; lra. }
  split; [exact Hlin|]. rewrite Hlin.
  destruct Ho as [_ Ho12]. to_reals. lra.
Qed.

(** X4.  For an intensity in 0..100 the percent the handlers use when
    only the tint is shown, [int(intensity * 0.12)] in binary64, is
    exactly the integer quotient of [12 * intensity] by 100;
    [set_dimming] turns it into the opacity percent/100, at most 0.12,
    and that opacity is 0 exactly for the intensities up to 8. *)
Theorem tint_only_overlay (i : Z) (c : QColor) :
  (0 <= i <= 100)%Z ->
  tint_only_opacity i = Some (12 * i / 100)%Z
  /\ actual_opacity (12 * i / 100) (Some c) = IZR (12 * i / 100) / 100
  /\ actual_opacity (12 * i / 100) (Some c) <= 0.12
  /\ (actual_opacity (12 * i / 100) (Some c) = 0 <-> (i <= 8)%Z).
Proof.
  intros Hi. destruct (tint_only_linear i c Hi) as [Hlin Hmax].
  split; [apply tint_exact_inv, Hi|].
  split; [exact Hlin|]. split; [exact Hmax|]. rewrite Hlin.
  split.
  - intros Hz. assert (Hz' : IZR (12 * i / 100) = 0) by lra.
    apply eq_IZR in Hz'. div_lia.
  - intros H8. replace (12 * i / 100)%Z with 0%Z by div_lia. lra.
Qed.

Lemma tint_only_overlay_witness :
  tint_only_opacity 50 = Some (12 * 50 / 100)%Z
  /\ actual_opacity (12 * 50 / 100) (Some (mkQColor 255 227 202))
     = IZR (12 * 50 / 100) / 100
  /\ actual_opacity (12 * 50 / 100) (Some (mkQColor 255 227 202)) <= 0.12
  /\ (actual_opacity (12 * 50 / 100) (Some (mkQColor 255 227 202)) = 0
      <-> (50 <= 8)%Z).
Proof. apply (tint_only_overlay 50). lia. Defined.

(** X5.  For intensities 0 <= i <= j <= 100 the colour of
    [_calculate_blue_light_color] has green 255 minus the ceiling of
    0.55 i and blue 255 minus the ceiling of 1.05 i (the two [max]
    calls never change the value); green and blue at [j] are at most
    those at [i], and blue is at most green. *)
Theorem blue_light_color_ramp (i j : Z) :
  (0 <= i <= j)%Z -> (j <= 100)%Z ->
  exists ci cj,
    _calculate_blue_light_color i = Some ci
    /\ _calculate_blue_light_color j = Some cj
    /\ green ci = (255 - ceil_div (55 * i) 100)%Z
    /\ blue ci = (255 - ceil_div (105 * i) 100)%Z
    /\ (green cj <= green ci)%Z /\ (blue cj <= blue ci)%Z
    /\ (blue ci <= green ci)%Z.
Proof.
  intros Hij Hj.
  destruct (tint_exact_inv i ltac:(lia)) as [Hi _].
  destruct (tint_exact_inv j ltac:(lia)) as [Hj' _].
  eexists _, _. split; [exact Hi|]. split; [exact Hj'|].
  cbn [green blue]. unfold ceil_div.
  repeat match goal with |- _ /\ _ => split end; try reflexivity; div_lia.
Qed.

Lemma blue_light_color_ramp_witness :
  exists ci cj,
    _calculate_blue_light_color 30 = Some ci
    /\ _calculate_blue_light_color 70 = Some cj
    /\ green ci = (255 - ceil_div (55 * 30) 100)%Z
    /\ blue ci = (255 - ceil_div (105 * 30) 100)%Z
    /\ (green cj <= green ci)%Z /\ (blue cj <= blue ci)%Z
    /\ (blue ci <= green ci)%Z.
Proof. apply (blue_light_color_ramp 30 70); lia. Defined.

End CurveShape.


(** ** The rain overlay *)
Section Rain.
Local Open Scope Z_scope.
Import RainOverlay.

Lemma make_item_set_rain_items (l : list RainItem.t) (self : t) (sp i : Z) :
  make_item (set_rain_items l self) sp i = make_item self sp i.
Proof. reflexivity. Qed.

Lemma set_rain_items_twice (l l' : list RainItem.t) (self : t) :
  set_rain_items l (set_rain_items l' self) = set_rain_items l self.
Proof. reflexivity. Qed.

(** With both flags in place the loop appends one item per index and
    does not raise. *)
Lemma create_loop_seq (e tx : bool) (sp : Z) (len : nat) :
  forall (start : nat) (self : t),
    emoji_enabled self = Some e -> text_enabled self = Some tx ->
    exists items,
      create_loop self sp (map Z.of_nat (seq start len))
      = (set_rain_items (rain_items self ++ items) self, false)
      /\ length items = len
      /\ forall k item, nth_error items k = Some item ->
           make_item self sp (Z.of_nat (start + k)) = Some item.
Proof.
  induction len as [|len IH]; intros start self He Ht.
  - exists []. cbn [seq map create_loop]. rewrite app_nil_r.
    destruct self; repeat split. intros [|k] item; discriminate.
  - cbn [seq map create_loop].
    assert (Hsome : exists item, make_item self sp (Z.of_nat start) = Some item).
    { unfold make_item. rewrite He, Ht. destruct e, tx; eexists; reflexivity. }
    destruct Hsome as [item Hitem]. rewrite Hitem.
    destruct (IH (S start) (set_rain_items (rain_items self ++ [item]) self)
                He Ht) as (items & Hrun & Hlen & Hnth).
    exists (item :: items). rewrite Hrun.
    cbn [rain_items set_rain_items]. rewrite <- app_assoc.
    repeat split.
    + cbn [length]. rewrite Hlen. reflexivity.
    + intros [|k] it Hk.
      * cbn [nth_error] in Hk. inversion Hk; subst it.
        rewrite Nat.add_0_r. exact Hitem.
      * cbn [nth_error] in Hk. apply Hnth in Hk.
        rewrite make_item_set_rain_items in Hk.
        replace (start + S k)%nat with (S start + k)%nat by lia. exact Hk.
Qed.

(** What [start_rain] leaves behind when [max_rain_items] is not set
    (the default of 50 gives 25 items). *)
Lemma start_rain_run (self : t) (e tx : bool) (now : Z) :
  max_rain_items self = None ->
  exists items,
    start_rain e tx now self
    = (mk (width self) (height self) None (Some e) (Some tx) items
          (Some 30) (rain_duration self) now true, false)
    /\ length items = 25%nat
    /\ forall k item, nth_error items k = Some item ->
         make_item (mk (width self) (height self) None (Some e) (Some tx) []
                       (rain_timer self) (rain_duration self) now
                       (visible self))
                   (width self / 25) (Z.of_nat k) = Some item.
Proof.
  intros Hmax. destruct self as [w h m e0 t0 its tm d st v].
  cbn [max_rain_items] in Hmax. subst m.
  unfold start_rain, _create_rain_items.
  cbn [max_rain_items width height rain_timer rain_duration visible].
  change (py_min 25 50) with 25. cbn [Z.ltb Z.compare].
  change (range 25) with (map Z.of_nat (seq 0 25)).
  match goal with
  | |- context [create_loop ?s ?sp _] =>
      destruct (create_loop_seq e tx sp 25 0 s eq_refl eq_refl)
        as (items & Hrun & Hlen & Hnth)
  end.
  exists items. rewrite Hrun. cbn [rain_items set_rain_items app].
  repeat split; [exact Hlen|]. intros k item Hk.
  apply Hnth in Hk. exact Hk.
Qed.

Lemma nth_error_lt {A} (l : list A) (k : nat) (a : A) :
  nth_error l k = Some a -> (k < length l)%nat.
Proof. intros H. apply nth_error_Some. congruence. Qed.

(** X6.  [start_rain] on a screen of positive width, with
    [max_rain_items] not set, never raises and leaves 25 items, the
    timer at 30 ms and the widget shown, with [start_time] the clock
    reading and the duration unchanged; item [k] sits at
    [k * (width // 25) + (width // 25) // 2], inside the screen's
    width, at height -50, and falls at speed [2 + k mod 5], between 2
    and 6. *)
Theorem start_rain_geometry (self : t) (e tx : bool) (now : Z) :
  0 < width self -> max_rain_items self = None ->
  exists s',
    start_rain e tx now self = (s', false)
    /\ length (rain_items s') = 25%nat
    /\ rain_timer s' = Some 30 /\ visible s' = true /\ start_time s' = now
    /\ rain_duration s' = rain_duration self
    /\ forall k item, nth_error (rain_items s') k = Some item ->
         RainItem.x item
         = Z.of_nat k * (width self / 25) + (width self / 25) / 2
         /\ 0 <= RainItem.x item < width self
         /\ RainItem.y item = -50
         /\ RainItem.speed item = 2 + Z.of_nat k mod 5
         /\ 2 <= RainItem.speed item <= 6.
Proof.
  intros Hw Hmax.
  destruct (start_rain_run self e tx now Hmax) as (items & Hrun & Hlen & Hnth).
  eexists. split; [exact Hrun|]. cbn [rain_items rain_timer visible
    start_time rain_duration].
  repeat match goal with |- _ /\ _ => split end; try reflexivity;
    try exact Hlen.
  intros k item Hk. pose proof (nth_error_lt _ _ _ Hk) as Hlt.
  rewrite Hlen in Hlt. apply Hnth in Hk.
  unfold make_item in Hk. cbn [emoji_enabled text_enabled] in Hk.
  assert (Hfields :
    RainItem.x item = Z.of_nat k * (width self / 25) + (width self / 25) / 2
    /\ RainItem.y item = -50
    /\ RainItem.speed item = 2 + Z.of_nat k mod 5).
  { destruct e, tx; try destruct (Z.of_nat k mod 2 =? 0);
      inversion Hk; subst item; repeat split. }
  destruct Hfields as (Hx & Hy & Hs). rewrite Hx, Hy, Hs.
  repeat match goal with |- _ /\ _ => split end; try reflexivity.
  - assert (0 <= width self / 25) by (apply Z.div_pos; lia).
    assert (0 <= (width self / 25) / 2) by (apply Z.div_pos; lia).
    nia.
  - assert (Hsp : 25 * (width self / 25) <= width self)
      by (apply Z.mul_div_le; lia).
    assert (0 <= width self / 25) by (apply Z.div_pos; lia).
    destruct (Z.eq_dec (width self / 25) 0) as [H0 | H0].
    + rewrite H0, Z.mul_0_r. change (0 / 2) with 0. lia.
    + assert ((width self / 25) / 2 < width self / 25)
        by (apply Z.div_lt; lia).
      nia.
  - pose proof (Z.mod_pos_bound (Z.of_nat k) 5 ltac:(lia)). lia.
  - pose proof (Z.mod_pos_bound (Z.of_nat k) 5 ltac:(lia)). lia.
Qed.

Lemma start_rain_geometry_witness :
  exists s',
    start_rain true true 1000 (init 1920 1080) = (s', false)
    /\ length (rain_items s') = 25%nat
    /\ rain_timer s' = Some 30 /\ visible s' = true /\ start_time s' = 1000
    /\ rain_duration s' = rain_duration (init 1920 1080)
    /\ forall k item, nth_error (rain_items s') k = Some item ->
         RainItem.x item
         = Z.of_nat k * (width (init 1920 1080) / 25)
           + (width (init 1920 1080) / 25) / 2
         /\ 0 <= RainItem.x item < width (init 1920 1080)
         /\ RainItem.y item = -50
         /\ RainItem.speed item = 2 + Z.of_nat k mod 5
         /\ 2 <= RainItem.speed item <= 6.
Proof.
  apply (start_rain_geometry (init 1920 1080) true true 1000).
  - reflexivity.
  - reflexivity.
Defined.

Lemma texts_cycle (z : Z) :
  0 <= z ->
  nth (Z.to_nat (z mod Z.of_nat (length texts))) texts ""%string
  = if z mod 4 =? 3 then "Are you blinking?"%string else "Blink"%string.
Proof.
  intros Hz. change (Z.of_nat (length texts)) with 8.
  assert (Hr : z mod 4 = (z mod 8) mod 4)
    by (Z.div_mod_to_equations; lia).
  rewrite Hr. pose proof (Z.mod_pos_bound z 8 ltac:(lia)) as Hb.
  assert (Hc : z mod 8 = 0 \/ z mod 8 = 1 \/ z mod 8 = 2 \/ z mod 8 = 3
               \/ z mod 8 = 4 \/ z mod 8 = 5 \/ z mod 8 = 6 \/ z mod 8 = 7)
    by lia.
  repeat destruct Hc as [Hc | Hc]; rewrite Hc; reflexivity.
Qed.

(** X7.  What [start_rain] puts in item [k]: an emoji exactly when
    emojis are enabled and, if texts are enabled too, [k] is even;
    otherwise a text, also when both flags are off.  An emoji item
    holds entry [k mod 15] of the emoji list; a text item holds
    "Are you blinking?" when [k mod 4 = 3] and "Blink" otherwise. *)
Theorem start_rain_content (self : t) (e tx : bool) (now : Z) :
  max_rain_items self = None ->
  exists s',
    start_rain e tx now self = (s', false)
    /\ forall k item, nth_error (rain_items s') k = Some item ->
         (RainItem.type item = RainItem.emoji
          <-> e = true /\ (tx = true -> Z.of_nat k mod 2 = 0))
         /\ (RainItem.type item = RainItem.emoji ->
             RainItem.content item = RainItem.Emoji (Z.of_nat k mod 15))
         /\ (RainItem.type item = RainItem.text ->
             RainItem.content item
             = RainItem.Text (if Z.of_nat k mod 4 =? 3
                              then "Are you blinking?"%string
                              else "Blink"%string)).
Proof.
  intros Hmax.
  destruct (start_rain_run self e tx now Hmax) as (items & Hrun & _ & Hnth).
  eexists. split; [exact Hrun|]. cbn [rain_items].
  intros k item Hk. apply Hnth in Hk.
  unfold make_item in Hk. cbn [emoji_enabled text_enabled] in Hk.
  rewrite texts_cycle in Hk by lia.
  destruct e, tx; try destruct (Z.eqb_spec (Z.of_nat k mod 2) 0);
    inversion Hk; subst item; cbn [RainItem.type RainItem.content];
    (split; [split; [intros Hty | intros [He Hev]] |
             split; intros Hty]);
    try discriminate; try reflexivity; try (split; [reflexivity|]);
    try (intros; assumption); try (intros; discriminate).
  exfalso. apply n, Hev. reflexivity.
Qed.

Lemma start_rain_content_witness :
  exists s',
    start_rain false false 1000 (init 1920 1080) = (s', false)
    /\ forall k item, nth_error (rain_items s') k = Some item ->
         (RainItem.type item = RainItem.emoji
          <-> false = true /\ (false = true -> Z.of_nat k mod 2 = 0))
         /\ (RainItem.type item = RainItem.emoji ->
             RainItem.content item = RainItem.Emoji (Z.of_nat k mod 15))
         /\ (RainItem.type item = RainItem.text ->
             RainItem.content item
             = RainItem.Text (if Z.of_nat k mod 4 =? 3
                              then "Are you blinking?"%string
                              else "Blink"%string)).
Proof.
  apply (start_rain_content (init 1920 1080) false false 1000). reflexivity.
Defined.

(** One pass of the loop over items that are on their way down: none
    is lost, all stay on their way, nothing raises. *)
Lemma update_loop_keeps (w h : Z) (items : list RainItem.t) :
  0 < w -> -50 <= h -> Forall (falling w h) items ->
  exists items',
    update_loop w h items = (items', false)
    /\ Forall (falling w h) items'
    /\ map look items' = map look items.
Proof.
  intros Hw Hh. induction 1 as [|item rest Hitem _ IH].
  - exists []. repeat split. constructor.
  - destruct IH as (rest' & Hrun & Hall & Hlook).
    destruct Hitem as (Hx & Hy & Hs).
    cbn [update_loop]. unfold RainItem.set_y at 1.
    cbn [RainItem.x RainItem.y RainItem.speed RainItem.content RainItem.type
         RainItem.set_y RainItem.set_x].
    destruct (Z.ltb_spec h (RainItem.y item + RainItem.speed item)).
    + destruct (Z.eqb_spec w 0); [lia|]. rewrite Hrun.
      eexists. split; [reflexivity|]. split.
      * constructor; [|exact Hall].
        unfold falling, RainItem.set_x, RainItem.set_y.
        cbn [RainItem.x RainItem.y RainItem.speed].
        pose proof (Z.mod_pos_bound (RainItem.x item + 100) w Hw). lia.
      * cbn [map]. rewrite Hlook. reflexivity.
    + rewrite Hrun. eexists. split; [reflexivity|]. split.
      * constructor; [|exact Hall].
        unfold falling, RainItem.set_x, RainItem.set_y.
        cbn [RainItem.x RainItem.y RainItem.speed]. lia.
      * cbn [map]. rewrite Hlook. reflexivity.
Qed.

(** The filter of line 689 removes nothing from such a list. *)
Lemma filter_keeps (w h : Z) (items : list RainItem.t) :
  Forall (falling w h) items ->
  List.filter (fun item => RainItem.y item <? h + 200) items = items.
Proof.
  induction 1 as [|item rest (_ & Hy & _) _ IH]; [reflexivity|].
  cbn [List.filter]. rewrite IH.
  destruct (Z.ltb_spec (RainItem.y item) (h + 200)); [reflexivity | lia].
Qed.

Lemma update_rain_keeps (current_time : Z) (self : t) :
  0 < width self -> -50 <= height self ->
  Forall (falling (width self) (height self)) (rain_items self) ->
  current_time - start_time self <= rain_duration self ->
  exists items,
    _update_rain current_time self = (set_rain_items items self, false)
    /\ Forall (falling (width self) (height self)) items
    /\ map look items = map look (rain_items self).
Proof.
  intros Hw Hh Hall Ht. unfold _update_rain.
  destruct (Z.ltb_spec (rain_duration self) (current_time - start_time self));
    [lia|].
  rewrite (filter_keeps _ _ _ Hall).
  destruct (update_loop_keeps _ _ _ Hw Hh Hall) as (items & Hrun & H1 & H2).
  rewrite Hrun. exists items. repeat split; assumption.
Qed.

Lemma ticks_keep (times : list Z) :
  forall self : t,
    0 < width self -> -50 <= height self ->
    Forall (falling (width self) (height self)) (rain_items self) ->
    Forall (fun current_time =>
              current_time - start_time self <= rain_duration self) times ->
    exists items,
      ticks times self = (set_rain_items items self, false)
      /\ Forall (falling (width self) (height self)) items
      /\ map look items = map look (rain_items self).
Proof.
  induction times as [|current_time rest IH]; intros self Hw Hh Hall Ht.
  - exists (rain_items self). cbn [ticks]. destruct self.
    repeat split. exact Hall.
  - inversion Ht as [|? ? Hnow Hrest]; subst.
    destruct (update_rain_keeps current_time self Hw Hh Hall Hnow)
      as (items & Hrun & H1 & H2).
    destruct (IH (set_rain_items items self) Hw Hh H1 Hrest)
      as (items' & Hrun' & H1' & H2').
    cbn [ticks]. destruct (rain_timer self) eqn:Htimer.
    + rewrite Hrun, Hrun'. exists items'.
      rewrite set_rain_items_twice. repeat split; [exact H1'|].
      rewrite H2'. exact H2.
    + exists (rain_items self). destruct self.
      repeat split. exact Hall.
Qed.

Lemma make_item_falling (self : t) (w h i : Z) (item : RainItem.t) :
  0 < w -> -50 <= h -> 0 <= i < 25 ->
  make_item self (w / 25) i = Some item -> falling w h item.
Proof.
  intros Hw Hh Hi Hk. unfold make_item in Hk.
  assert (Hfields :
    RainItem.x item = i * (w / 25) + (w / 25) / 2
    /\ RainItem.y item = -50
    /\ RainItem.speed item = 2 + i mod 5).
  { destruct (emoji_enabled self) as [[|]|]; [| |discriminate];
      [destruct (text_enabled self) as [[|]|]; [| |discriminate]|];
      try destruct (i mod 2 =? 0);
      inversion Hk; subst item; repeat split. }
  destruct Hfields as (Hx & Hy & Hs). unfold falling. rewrite Hx, Hy, Hs.
  pose proof (Z.mod_pos_bound i 5 ltac:(lia)).
  assert (Hsp : 25 * (w / 25) <= w) by (apply Z.mul_div_le; lia).
  assert (0 <= w / 25) by (apply Z.div_pos; lia).
  assert (0 <= (w / 25) / 2) by (apply Z.div_pos; lia).
  repeat match goal with |- _ /\ _ => split end; try lia; try nia.
  destruct (Z.eq_dec (w / 25) 0) as [Hz | Hz].
  - rewrite Hz, Z.mul_0_r. change (0 / 2) with 0. lia.
  - assert ((w / 25) / 2 < w / 25) by (apply Z.div_lt; lia). nia.
Qed.

Lemma start_rain_falling (self : t) (e tx : bool) (now : Z) :
  0 < width self -> -50 <= height self -> max_rain_items self = None ->
  exists items,
    start_rain e tx now self
    = (mk (width self) (height self) None (Some e) (Some tx) items
          (Some 30) (rain_duration self) now true, false)
    /\ length items = 25%nat
    /\ Forall (falling (width self) (height self)) items.
Proof.
  intros Hw Hh Hmax.
  destruct (start_rain_run self e tx now Hmax) as (items & Hrun & Hlen & Hnth).
  exists items. split; [exact Hrun|]. split; [exact Hlen|].
  apply List.Forall_forall. intros item Hin.
  apply In_nth_error in Hin. destruct Hin as [k Hk].
  pose proof (nth_error_lt _ _ _ Hk) as Hlt. rewrite Hlen in Hlt.
  apply Hnth in Hk.
  apply (make_item_falling _ _ _ (Z.of_nat k) item Hw Hh ltac:(lia) Hk).
Qed.

(** X8.  While the rain lasts, that is for ticks whose clock readings
    are within [rain_duration] of the start, [_update_rain] never
    raises and never loses an item: after any number of such ticks
    there are still 25 items, each inside the screen's width and
    between -50 and the screen's height, with its speed, content and
    type unchanged, the timer still runs and the widget is shown (the
    filter of line 689 never removes anything). *)
Theorem rain_keeps_falling (self : t) (e tx : bool) (now : Z)
  (times : list Z) :
  0 < width self -> 0 <= height self -> max_rain_items self = None ->
  Forall (fun current_time => current_time - now <= rain_duration self)
         times ->
  exists s1 s2,
    start_rain e tx now self = (s1, false)
    /\ ticks times s1 = (s2, false)
    /\ length (rain_items s2) = 25%nat
    /\ Forall (falling (width self) (height self)) (rain_items s2)
    /\ map look (rain_items s2) = map look (rain_items s1)
    /\ rain_timer s2 = Some 30 /\ visible s2 = true.
Proof.
  intros Hw Hh Hmax Htimes.
  destruct (start_rain_falling self e tx now Hw ltac:(lia) Hmax)
    as (items & Hrun & Hlen & Hall).
  match type of Hrun with _ = (?s, _) =>
    destruct (ticks_keep times s Hw ltac:(cbn; lia) Hall Htimes)
      as (items' & Hticks & Hall' & Hlook)
  end.
  eexists _, _. split; [exact Hrun|]. split; [exact Hticks|].
  cbn [rain_items set_rain_items rain_timer visible].
  split; [|split; [exact Hall'|split; [exact Hlook|split; reflexivity]]].
  rewrite <- Hlen, <- (length_map look items'), Hlook. apply length_map.
Qed.

Lemma rain_keeps_falling_witness :
  exists s1 s2,
    start_rain true true 1000 (init 1920 1080) = (s1, false)
    /\ ticks [1030; 1060; 6000] s1 = (s2, false)
    /\ length (rain_items s2) = 25%nat
    /\ Forall (falling (width (init 1920 1080)) (height (init 1920 1080)))
              (rain_items s2)
    /\ map look (rain_items s2) = map look (rain_items s1)
    /\ rain_timer s2 = Some 30 /\ visible s2 = true.
Proof.
  apply (rain_keeps_falling (init 1920 1080) true true 1000
           [1030; 1060; 6000]).
  - reflexivity.
  - discriminate.
  - reflexivity.
  - repeat constructor; discriminate.
Defined.

Lemma ticks_then (times rest : list Z) :
  forall self : t,
    0 < width self -> -50 <= height self ->
    Forall (falling (width self) (height self)) (rain_items self) ->
    Forall (fun current_time =>
              current_time - start_time self <= rain_duration self) times ->
    rain_timer self <> None ->
    exists items,
      ticks (times ++ rest) self = ticks rest (set_rain_items items self).
Proof.
  induction times as [|current_time times IH];
    intros self Hw Hh Hall Ht Htimer.
  - exists (rain_items self). destruct self. reflexivity.
  - inversion Ht as [|? ? Hnow Hrest]; subst.
    destruct (update_rain_keeps current_time self Hw Hh Hall Hnow)
      as (items & Hrun & H1 & H2).
    destruct (IH (set_rain_items items self) Hw Hh H1 Hrest Htimer)
      as (items' & Hrun').
    cbn [app ticks]. destruct (rain_timer self); [|congruence].
    rewrite Hrun, Hrun'. exists items'.
    rewrite set_rain_items_twice. reflexivity.
Qed.

(** X9.  The first tick later than [rain_duration] after the start
    ends the rain: the items are cleared, the timer is stopped and the
    widget hidden, whatever ticks were taken before and whatever would
    follow. *)
Theorem rain_ends (self : t) (e tx : bool) (now late : Z)
  (times rest : list Z) :
  0 < width self -> 0 <= height self -> max_rain_items self = None ->
  Forall (fun current_time => current_time - now <= rain_duration self)
         times ->
  rain_duration self < late - now ->
  exists s1 s3,
    start_rain e tx now self = (s1, false)
    /\ ticks (times ++ late :: rest) s1 = (s3, false)
    /\ rain_items s3 = [] /\ rain_timer s3 = None /\ visible s3 = false.
Proof.
  intros Hw Hh Hmax Htimes Hlate.
  destruct (start_rain_falling self e tx now Hw ltac:(lia) Hmax)
    as (items & Hrun & Hlen & Hall).
  match type of Hrun with _ = (?s, _) =>
    destruct (ticks_then times (late :: rest) s Hw ltac:(cbn; lia) Hall
                Htimes ltac:(discriminate)) as (items' & Hticks)
  end.
  eexists _, (mk (width self) (height self) None (Some e) (Some tx) [] None
                 (rain_duration self) now false).
  split; [exact Hrun|]. rewrite Hticks.
  unfold set_rain_items.
  cbn [ticks rain_timer rain_duration start_time width height
       max_rain_items emoji_enabled text_enabled rain_items visible].
  unfold _update_rain.
  cbn [rain_duration start_time width height max_rain_items emoji_enabled
       text_enabled].
  destruct (Z.ltb_spec (rain_duration self) (late - now)); [|lia].
  destruct rest; cbn [ticks rain_timer]; repeat split.
Qed.

Lemma rain_ends_witness :
  exists s1 s3,
    start_rain true false 1000 (init 1920 1080) = (s1, false)
    /\ ticks ([1030; 6000] ++ 6001 :: [6031]) s1 = (s3, false)
    /\ rain_items s3 = [] /\ rain_timer s3 = None /\ visible s3 = false.
Proof.
  apply (rain_ends (init 1920 1080) true false 1000 6001 [1030; 6000] [6031]).
  - reflexivity.
  - discriminate.
  - reflexivity.
  - repeat constructor; discriminate.
  - reflexivity.
Defined.

End Rain.


(** ** Profiles: adding, deleting, saving and loading again *)
Section Profiles.
Import ProfileManager.

(** X10.  A profile added with [add] and written with [save] is
    found again by a new [ProfileManager] reading that file: [save]
    writes the profiles with the new one and clears the dirty flag,
    the new manager holds the same profiles, [get] returns the added
    profile under its name and what the old manager returned under
    every other name, and a second [save] leaves manager and file as
    they are. *)
Theorem add_save_load_round_trip (self : t) (disk : option file)
  (name : string) (profile : Profile.t) :
  exists saved fresh,
    save (add self name profile) disk
    = (saved, Some (Json (<[name := profile]> (_profiles self))))
    /\ _cache_dirty saved = false
    /\ init (Some (Json (<[name := profile]> (_profiles self))))
       = (fresh, Some (Json (<[name := profile]> (_profiles self))))
    /\ _profiles fresh = _profiles saved
    /\ get fresh name = Some profile
    /\ (forall other, other <> name -> get fresh other = get self other)
    /\ save saved (Some (Json (<[name := profile]> (_profiles self))))
       = (saved, Some (Json (<[name := profile]> (_profiles self)))).
Proof.
  eexists _, _. unfold add, save, init, load, get. cbn.
  split; [reflexivity|]. split; [reflexivity|]. split; [reflexivity|].
  cbn. split; [reflexivity|].
  split; [apply lookup_insert_eq|]. split; [|reflexivity].
  intros other Hne. apply lookup_insert_ne. congruence.
Qed.

(** X11.  [delete] returns [True] exactly when the name was present;
    afterwards [get] of that name is [None] and every other name is
    as before; when the name was missing the manager is unchanged
    (the dirty flag too), and when it was present the cache is marked
    dirty. *)
Theorem delete_behaviour (self : t) (name : string) :
  exists self' removed,
    delete self name = (self', removed)
    /\ (removed = true <-> get self name <> None)
    /\ get self' name = None
    /\ (forall other, other <> name -> get self' other = get self other)
    /\ (removed = false -> self' = self)
    /\ (removed = true -> _cache_dirty self' = true).
Proof.
  unfold delete, get. destruct (_profiles self !! name) as [profile|] eqn:H.
  - eexists _, _. split; [reflexivity|]. cbn [_profiles _cache_dirty].
    split; [split; [discriminate | reflexivity]|].
    split; [apply lookup_delete_eq|].
    split; [|split; [discriminate | reflexivity]].
    intros other Hne. apply lookup_delete_ne. congruence.
  - eexists _, _. split; [reflexivity|].
    split; [split; [discriminate | congruence]|].
    split; [exact H|]. split; [reflexivity|].
    split; [reflexivity | discriminate].
Qed.

End Profiles.


(** ** The time-remaining label *)
Section TimeLabel.
Local Open Scope Z_scope.

Ltac clock_cases :=
  unfold remaining_seconds, in_schedule, QTime_ge, QTime_lt, QTime_le,
    minute_seconds, msecs_since_start_of_day, QTime_hm, QTime_valid in *;
  cbn [hour minute second msec] in *;
  repeat match goal with
         | |- context [(?a <=? ?b)] => destruct (Z.leb_spec a b)
         | |- context [(?a <? ?b)] => destruct (Z.ltb_spec a b)
         end;
  cbn [andb orb hour minute second msec] in *.

(** The remaining time is a whole number of minutes below a day, and
    outside the window it is never zero. *)
Lemma remaining_whole_minutes (now : QTime) (h1 m1 h2 m2 : Z) :
  QTime_valid now -> QTime_valid (QTime_hm h1 m1) ->
  QTime_valid (QTime_hm h2 m2) -> QTime_hm h1 m1 <> QTime_hm h2 m2 ->
  exists k,
    remaining_seconds now (QTime_hm h1 m1) (QTime_hm h2 m2) = 60 * k
    /\ 0 <= k < 1440
    /\ (if in_schedule now (QTime_hm h1 m1) (QTime_hm h2 m2)
        then k = 0 <-> hour now = h2 /\ minute now = m2
        else 0 < k).
Proof.
  intros Hn Hs He Hne.
  assert (Hne' : h1 <> h2 \/ m1 <> m2).
  { destruct (Z.eq_dec h1 h2) as [->|]; [|now left].
    destruct (Z.eq_dec m1 m2) as [->|]; [|now right].
    exfalso. apply Hne. reflexivity. }
  clear Hne. destruct now as [h m s ms].
  clock_cases;
    first
      [ exists (h2 * 60 + m2 - (h * 60 + m)); lia
      | exists ((h2 + 24) * 60 + m2 - (h * 60 + m)); lia
      | exists (h1 * 60 + m1 - (h * 60 + m)); lia
      | exists (24 * 60 - (h * 60 + m) + (h1 * 60 + m1)); lia ].
Qed.

(** X28.  For a valid clock reading and a schedule whose two
    different times are whole minutes, the time-remaining label shows
    exactly the remaining time: "ends in" inside the window and
    "starts in" outside it, with hours below 24, minutes below 60 and
    [hours * 3600 + minutes * 60] the remaining seconds; "ending now"
    appears only in the end time's own minute, and "starting now"
    never. *)
Theorem time_remaining_label_exact (now : QTime) (h1 m1 h2 m2 : Z) :
  QTime_valid now -> QTime_valid (QTime_hm h1 m1) ->
  QTime_valid (QTime_hm h2 m2) -> QTime_hm h1 m1 <> QTime_hm h2 m2 ->
  match time_remaining_label now (QTime_hm h1 m1) (QTime_hm h2 m2) with
  | ScheduleEndsIn hours minutes =>
      in_schedule now (QTime_hm h1 m1) (QTime_hm h2 m2) = true
      /\ 0 <= hours < 24 /\ 0 <= minutes < 60 /\ 0 < hours * 60 + minutes
      /\ remaining_seconds now (QTime_hm h1 m1) (QTime_hm h2 m2)
         = hours * 3600 + minutes * 60
  | ScheduleEndingNow =>
      in_schedule now (QTime_hm h1 m1) (QTime_hm h2 m2) = true
      /\ hour now = h2 /\ minute now = m2
  | ScheduleStartsIn hours minutes =>
      in_schedule now (QTime_hm h1 m1) (QTime_hm h2 m2) = false
      /\ 0 <= hours < 24 /\ 0 <= minutes < 60 /\ 0 < hours * 60 + minutes
      /\ remaining_seconds now (QTime_hm h1 m1) (QTime_hm h2 m2)
         = hours * 3600 + minutes * 60
  | ScheduleStartingNow => False
  | NoScheduleSet => False
  end.
Proof.
  intros Hn Hs He Hne.
  destruct (remaining_whole_minutes now h1 m1 h2 m2 Hn Hs He Hne)
    as (k & Hk & Hrange & Hzero).
  unfold time_remaining_label. rewrite Hk.
  destruct (in_schedule now (QTime_hm h1 m1) (QTime_hm h2 m2));
    destruct (Z.ltb_spec 0 (60 * k));
    repeat match goal with |- _ /\ _ => split end;
    try reflexivity; Z.div_mod_to_equations; lia.
Qed.

Lemma time_remaining_label_exact_witness :
  match time_remaining_label (mkQTime 23 15 40 0) (QTime_hm 20 0)
          (QTime_hm 7 0) with
  | ScheduleEndsIn hours minutes =>
      in_schedule (mkQTime 23 15 40 0) (QTime_hm 20 0) (QTime_hm 7 0) = true
      /\ 0 <= hours < 24 /\ 0 <= minutes < 60 /\ 0 < hours * 60 + minutes
      /\ remaining_seconds (mkQTime 23 15 40 0) (QTime_hm 20 0) (QTime_hm 7 0)
         = hours * 3600 + minutes * 60
  | ScheduleEndingNow =>
      in_schedule (mkQTime 23 15 40 0) (QTime_hm 20 0) (QTime_hm 7 0) = true
      /\ hour (mkQTime 23 15 40 0) = 7 /\ minute (mkQTime 23 15 40 0) = 0
  | ScheduleStartsIn hours minutes =>
      in_schedule (mkQTime 23 15 40 0) (QTime_hm 20 0) (QTime_hm 7 0) = false
      /\ 0 <= hours < 24 /\ 0 <= minutes < 60 /\ 0 < hours * 60 + minutes
      /\ remaining_seconds (mkQTime 23 15 40 0) (QTime_hm 20 0) (QTime_hm 7 0)
         = hours * 3600 + minutes * 60
  | ScheduleStartingNow => False
  | NoScheduleSet => False
  end.
Proof.
  apply (time_remaining_label_exact (mkQTime 23 15 40 0) 20 0 7 0);
    try (unfold QTime_valid; cbn; lia).
  discriminate.
Defined.

End TimeLabel.


(** ** The click-through flag of the overlay window *)
Section ClickThrough.
Local Open Scope Z_scope.
Import ExStyle.

Lemma small_bits (x : Z) :
  0 <= x < 2 ^ 31 <-> (forall n, 31 <= n -> Z.testbit x n = false).
Proof.
  split.
  - intros [H0 H1] n Hn.
    destruct (Z.eq_dec x 0) as [->|Hx]; [apply Z.bits_0|].
    apply Z.bits_above_log2; [lia|].
    assert (Z.log2 x < 31) by (apply Z.log2_lt_pow2; lia). lia.
  - intros Hbits.
    assert (Hx : x = x mod 2 ^ 31).
    { rewrite <- Z.land_ones by lia. apply Z.bits_inj'. intros n Hn.
      rewrite Z.land_spec. destruct (Z.lt_ge_cases n 31).
      - rewrite Z.ones_spec_low by lia. rewrite andb_true_r. reflexivity.
      - rewrite Z.ones_spec_high by lia. rewrite andb_false_r.
        apply Hbits. lia. }
    pose proof (Z.mod_pos_bound x (2 ^ 31) ltac:(lia)). lia.
Qed.

(** A C [long] is a word whose bits from 31 on repeat the sign bit. *)
Lemma c_long_bits (x : Z) :
  c_long x <-> (forall n, 31 <= n -> Z.testbit x n = Z.testbit x 31).
Proof.
  unfold c_long. split.
  - intros Hx n Hn. destruct (Z.neg_nonneg_cases x) as [Hneg|Hpos].
    + assert (Hs : 0 <= Z.lnot x < 2 ^ 31) by (unfold Z.lnot; lia).
      pose proof (proj1 (small_bits _) Hs) as Hb.
      pose proof (Hb n Hn) as H1. pose proof (Hb 31 ltac:(lia)) as H2.
      rewrite Z.lnot_spec in H1, H2 by lia.
      destruct (Z.testbit x n), (Z.testbit x 31);
        try reflexivity; discriminate.
    + assert (Hs : 0 <= x < 2 ^ 31) by lia.
      pose proof (proj1 (small_bits _) Hs) as Hb.
      rewrite (Hb n Hn), (Hb 31 ltac:(lia)). reflexivity.
  - intros Hbits. destruct (Z.testbit x 31) eqn:H31.
    + assert (Hs : 0 <= Z.lnot x < 2 ^ 31).
      { apply small_bits. intros n Hn. rewrite Z.lnot_spec by lia.
        rewrite (Hbits n Hn). reflexivity. }
      unfold Z.lnot in Hs. lia.
    + assert (Hs : 0 <= x < 2 ^ 31).
      { apply small_bits. intros n Hn. apply Hbits. exact Hn. }
      lia.
Qed.

Lemma lor_c_long (style flag : Z) :
  c_long style -> 0 <= flag < 2 ^ 31 -> c_long (Z.lor style flag).
Proof.
  intros Hs Hf. apply c_long_bits. intros n Hn.
  rewrite !Z.lor_spec.
  rewrite (proj1 (c_long_bits style) Hs n Hn).
  rewrite (proj1 (small_bits flag) Hf n Hn).
  rewrite (proj1 (small_bits flag) Hf 31 ltac:(lia)). reflexivity.
Qed.

Lemma land_lnot_c_long (style flag : Z) :
  c_long style -> 0 <= flag < 2 ^ 31 ->
  c_long (Z.land style (Z.lnot flag)).
Proof.
  intros Hs Hf. apply c_long_bits. intros n Hn.
  rewrite !Z.land_spec, !Z.lnot_spec by lia.
  rewrite (proj1 (c_long_bits style) Hs n Hn).
  rewrite (proj1 (small_bits flag) Hf n Hn).
  rewrite (proj1 (small_bits flag) Hf 31 ltac:(lia)). reflexivity.
Qed.

(** X30.  The gesture pause of the overlay window: hiding clears
    the click-through flag WS_EX_TRANSPARENT (bit 5) and restoring
    sets it, neither touches another bit, restoring after hiding gives
    the style with the flag set, which for a window configured by
    [__init__] is its configured style; and all three style words fit
    the C [long] the API exchanges when the current style does. *)
Theorem gesture_pause_round_trip (style : Z) :
  c_long style ->
  _restore_transparency (temporarily_hide_for_gestures style)
  = Z.lor style WS_EX_TRANSPARENT
  /\ _restore_transparency (temporarily_hide_for_gestures (__init__ style))
     = __init__ style
  /\ Z.testbit (temporarily_hide_for_gestures style) 5 = false
  /\ Z.testbit (_restore_transparency style) 5 = true
  /\ (forall n, 0 <= n -> n <> 5 ->
      Z.testbit (temporarily_hide_for_gestures style) n = Z.testbit style n
      /\ Z.testbit (_restore_transparency style) n = Z.testbit style n)
  /\ c_long (__init__ style)
  /\ c_long (temporarily_hide_for_gestures style)
  /\ c_long (_restore_transparency style).
Proof.
  intros Hs.
  assert (Hbit : forall n, 0 <= n ->
            Z.testbit WS_EX_TRANSPARENT n = (n =? 5)).
  { intros n Hn. change WS_EX_TRANSPARENT with (2 ^ 5).
    rewrite Z.pow2_bits_eqb by lia. rewrite Z.eqb_sym. reflexivity. }
  unfold _restore_transparency, temporarily_hide_for_gestures, __init__.
  repeat match goal with |- _ /\ _ => split end.
  - apply Z.bits_inj'. intros n Hn.
    rewrite !Z.lor_spec, Z.land_spec, Z.lnot_spec, Hbit by lia.
    destruct (Z.testbit style n), (n =? 5); reflexivity.
  - apply Z.bits_inj'. intros n Hn.
    rewrite !Z.lor_spec, Z.land_spec, !Z.lor_spec, Z.lnot_spec, Hbit by lia.
    destruct (Z.testbit style n), (n =? 5),
      (Z.testbit WS_EX_LAYERED n), (Z.testbit WS_EX_NOACTIVATE n);
      reflexivity.
  - rewrite Z.land_spec, Z.lnot_spec, Hbit by lia. cbn.
    apply andb_false_r.
  - rewrite Z.lor_spec, Hbit by lia. cbn. apply orb_true_r.
  - intros n Hn Hn5. split.
    + rewrite Z.land_spec, Z.lnot_spec, Hbit by lia.
      destruct (Z.eqb_spec n 5); [contradiction|]. cbn. apply andb_true_r.
    + rewrite Z.lor_spec, Hbit by lia.
      destruct (Z.eqb_spec n 5); [contradiction|]. apply orb_false_r.
  - repeat apply lor_c_long; try assumption; cbv; split; congruence.
  - apply land_lnot_c_long; [assumption|]. cbv. split; congruence.
  - apply lor_c_long; [assumption|]. cbv. split; congruence.
Qed.

Lemma gesture_pause_round_trip_witness :
  _restore_transparency (temporarily_hide_for_gestures 0x80)
  = Z.lor 0x80 WS_EX_TRANSPARENT
  /\ _restore_transparency (temporarily_hide_for_gestures (__init__ 0x80))
     = __init__ 0x80
  /\ Z.testbit (temporarily_hide_for_gestures 0x80) 5 = false
  /\ Z.testbit (_restore_transparency 0x80) 5 = true
  /\ (forall n, 0 <= n -> n <> 5 ->
      Z.testbit (temporarily_hide_for_gestures 0x80) n = Z.testbit 0x80 n
      /\ Z.testbit (_restore_transparency 0x80) n = Z.testbit 0x80 n)
  /\ c_long (__init__ 0x80)
  /\ c_long (temporarily_hide_for_gestures 0x80)
  /\ c_long (_restore_transparency 0x80).
Proof.
  apply (gesture_pause_round_trip 0x80). cbv. split; congruence.
Defined.

End ClickThrough.


(** ** What the handlers put on the screens *)
Ltac keep_fields :=
  cbn [overlays dimmer_active current_dim blue_light_active
       _toggle_in_progress _schedule_toggle_in_progress schedule
       second_display blinker dim_slider blue_intensity schedule_timer
       time_remaining_timer tray_icon screens state_file
       set_overlays set_dimmer_active set_current_dim set_toggle_in_progress
       set_schedule_toggle_in_progress set_schedule set_dim_slider
       set_schedule_timer set_time_remaining_timer set_state_file
       showMessage StateManager.save_state set_schedule_enabled
       set_blue_light_active set_blue_intensity set_second_display
       set_blinker] in *.

Section Screens.
Local Open Scope Z_scope.
Local Open Scope py_scope.

Lemma keeps_ret {A} k b (a : A) s : keeps k b (ret a) s.
Proof.
  exists (Returned a), (overlays s). rewrite set_overlays_same.
  repeat split.
Qed.

Lemma keeps_raise {A} k e s : keeps k false (raise e : M A) s.
Proof.
  exists (Raised e), (overlays s). rewrite set_overlays_same.
  repeat split.
Qed.

Lemma keeps_gets {A B} k b (f : DimmerControl -> A) (c : A -> M B) s :
  keeps k b (c (f s)) s -> keeps k b (bind (gets f) c) s.
Proof. intros H. exact H. Qed.

Lemma keeps_bind {A B} k b (m : M A) (c : A -> M B) s :
  keeps k b m s ->
  (forall a o, o !! k = overlays s !! k -> keeps k b (c a) (set_overlays o s)) ->
  keeps k b (bind m c) s.
Proof.
  intros (r & o & Hm & Hr & Ho) Hc. unfold keeps, bind. rewrite Hm.
  destruct r as [a|e].
  - destruct (Hc a o Ho) as (r' & o' & Hc' & Hr' & Ho'). rewrite Hc'.
    exists r', o'. rewrite set_overlays_twice.
    split; [reflexivity|]. split; [assumption|].
    rewrite Ho'. exact Ho.
  - exists (Raised e), o. repeat split; assumption.
Qed.

Lemma keeps_modify_overlays k b (f : DimmerControl -> gmap Z DimmerOverlay.t) s :
  f s !! k = overlays s !! k ->
  keeps k b (modify (fun s => set_overlays (f s) s)) s.
Proof. intros H. exists (Returned tt), (f s). repeat split. exact H. Qed.

Lemma keeps_get_overlay k b i s :
  i <> k -> keeps k b (_get_overlay_for_screen i) s.
Proof.
  intros Hne. unfold keeps, _get_overlay_for_screen.
  destruct (overlays s !! i).
  - exists (Returned (Some i)), (overlays s). rewrite set_overlays_same.
    repeat split.
  - destruct (i <? Z.of_nat (screens s)).
    + eexists _, _. split; [reflexivity|]. split; [exact I|].
      apply lookup_insert_ne. exact Hne.
    + exists (Returned None), (overlays s). rewrite set_overlays_same.
      repeat split.
Qed.

Lemma keeps_overlay_set_dimming k b i opacity color s :
  i <> k -> keeps k b (overlay_set_dimming i opacity color) s.
Proof.
  intros Hne. apply keeps_modify_overlays. apply lookup_alter_ne. exact Hne.
Qed.

Lemma keeps_close_overlay k b i s :
  i <> k -> keeps k b (_close_overlay_for_screen i) s.
Proof.
  intros Hne. apply keeps_modify_overlays. apply lookup_delete_ne. exact Hne.
Qed.

(** [_apply_dimming_to_screen] in closed form: the overlay of the screen
    is fetched or created and dimmed; without overlay and without such
    a screen nothing happens. *)
Lemma apply_dimming_run i opacity color s :
  _apply_dimming_to_screen i opacity color s
  = (Returned tt,
     match overlays s !! i with
     | None =>
         if i <? Z.of_nat (screens s)
         then set_overlays (<[i := dimmed None opacity color]> (overlays s)) s
         else s
     | before =>
         set_overlays (<[i := dimmed before opacity color]> (overlays s)) s
     end).
Proof.
  unfold _apply_dimming_to_screen, bind, _get_overlay_for_screen.
  destruct (overlays s !! i) as [ov|] eqn:Hov.
  - unfold overlay_set_dimming, modify.
    f_equal. apply (f_equal (fun m => set_overlays m s)).
    apply map_eq. intros j. destruct (Z.eq_dec j i) as [->|Hne].
    + rewrite lookup_alter_eq, lookup_insert_eq, Hov. reflexivity.
    + rewrite lookup_alter_ne, lookup_insert_ne by congruence. reflexivity.
  - destruct (i <? Z.of_nat (screens s)); [|reflexivity].
    unfold overlay_set_dimming, modify. rewrite set_overlays_twice.
    change (overlays (set_overlays ?m s)) with m.
    f_equal. apply (f_equal (fun m => set_overlays m s)).
    apply map_eq. intros j. destruct (Z.eq_dec j i) as [->|Hne].
    + rewrite lookup_alter_eq, !lookup_insert_eq. reflexivity.
    + rewrite lookup_alter_ne, !lookup_insert_ne by congruence. reflexivity.
Qed.

Lemma keeps_apply_dimming k b i opacity color s :
  i <> k -> keeps k b (_apply_dimming_to_screen i opacity color) s.
Proof.
  intros Hne. unfold keeps. rewrite apply_dimming_run.
  destruct (overlays s !! i);
    [|destruct (i <? Z.of_nat (screens s))];
    try (eexists _, _; split; [reflexivity|]; split; [exact I|];
         apply lookup_insert_ne; exact Hne).
  exists (Returned tt), (overlays s). rewrite set_overlays_same.
  repeat split.
Qed.

Lemma keeps_calculate_color k b i s :
  (b = true -> exists z, i = Some z /\ 0 <= z <= 100) ->
  keeps k b (calculate_color i) s.
Proof.
  intros Hi. unfold calculate_color. destruct b.
  - destruct (Hi eq_refl) as (z & -> & Hz).
    pose proof (tint_ok_slider z Hz) as Hok. unfold tint_ok in Hok.
    destruct (_calculate_blue_light_color z); [apply keeps_ret | discriminate].
  - destruct i as [z|]; [|apply keeps_raise].
    destruct (_calculate_blue_light_color z); [apply keeps_ret | apply keeps_raise].
Qed.

Lemma keeps_calculate_tint_opacity k b i s :
  (b = true -> exists z, i = Some z /\ 0 <= z <= 100) ->
  keeps k b (calculate_tint_opacity i) s.
Proof.
  intros Hi. unfold calculate_tint_opacity. destruct b.
  - destruct (Hi eq_refl) as (z & -> & Hz).
    pose proof (tint_ok_slider z Hz) as Hok. unfold tint_ok in Hok.
    destruct (_calculate_blue_light_color z); [|discriminate].
    destruct (tint_only_opacity z); [apply keeps_ret | discriminate].
  - destruct i as [z|]; [|apply keeps_raise].
    destruct (tint_only_opacity z); [apply keeps_ret | apply keeps_raise].
Qed.

(** [_update_second_display] touches the overlay of screen 1 only. *)
Lemma keeps_update_second_display k b s :
  k <> 1 -> (b = true -> tint_inputs_ok s) ->
  keeps k b _update_second_display s.
Proof.
  intros Hk Hi. unfold _update_second_display.
  apply keeps_gets.
  destruct (second_display_enabled (second_display s)) eqn:Hen; cbn [negb];
    [|apply keeps_ret].
  unfold keeps, bind at 1, _get_overlay_for_screen.
  assert (Hbody : forall o, o !! k = overlays s !! k ->
    keeps k b
      (intensity <- gets (fun s => second_display_blue_intensity (second_display s)) ;;
       tinted <- gets (fun s => second_display_blue_light (second_display s)) ;;
       dim2 <- gets (fun s => second_display_dim (second_display s)) ;;
       if (tinted : bool) then
         color <- calculate_color intensity ;;
         dimming <- gets dimmer_active ;;
         if (dimming : bool) then
           overlay_set_dimming 1 dim2 (Some color)
         else
           opacity <- calculate_tint_opacity intensity ;;
           overlay_set_dimming 1 opacity (Some color)
       else
         overlay_set_dimming 1 dim2 None) (set_overlays o s)).
  { intros o Ho. do 3 (apply keeps_gets; keep_fields).
    destruct (second_display_blue_light (second_display s)) eqn:Hbl.
    - assert (Hz : b = true ->
                   exists z, second_display_blue_intensity (second_display s)
                             = Some z /\ 0 <= z <= 100).
      { intros Hb. destruct (Hi Hb) as [_ H2]. apply H2; assumption. }
      apply keeps_bind; [apply keeps_calculate_color, Hz|].
      intros c o1 Ho1. apply keeps_gets. keep_fields.
      destruct (dimmer_active s).
      + apply keeps_overlay_set_dimming. congruence.
      + apply keeps_bind; [apply keeps_calculate_tint_opacity, Hz|].
        intros t o2 Ho2. apply keeps_overlay_set_dimming. congruence.
    - apply keeps_overlay_set_dimming. congruence. }
  destruct (overlays s !! 1) eqn:Hov.
  - destruct (Hbody (overlays s) eq_refl) as (r & o & Hrun & Hr & Ho).
    rewrite set_overlays_same in Hrun. rewrite Hrun.
    exists r, o. repeat split; assumption.
  - destruct (1 <? Z.of_nat (screens s)).
    + destruct (Hbody (<[1 := DimmerOverlay.init]> (overlays s)))
        as (r & o & Hrun & Hr & Ho).
      { apply lookup_insert_ne. congruence. }
      rewrite Hrun. exists r, o. rewrite set_overlays_twice.
      split; [reflexivity|]. split; [assumption|].
      keep_fields. rewrite Ho. apply lookup_insert_ne. congruence.
    + exists (Returned tt), (overlays s). rewrite set_overlays_same.
      repeat split.
Qed.

Lemma tint_inputs_ok_frame (s s' : DimmerControl) :
  blue_intensity s' = blue_intensity s ->
  second_display s' = second_display s ->
  tint_inputs_ok s -> tint_inputs_ok s'.
Proof. unfold tint_inputs_ok. intros -> ->. exact (fun H => H). Qed.

(** Switching on: what the first pass of the loop (screen 0) puts on
    the primary screen is what is there at the end. *)
Lemma toggle_on_screens s :
  dimmer_active s = false -> _toggle_in_progress s = false ->
  tint_inputs_ok s ->
  exists o0 o,
    (if blue_light_active s then _update_blue_light
     else _apply_dimming_to_screen 0 (current_dim s) None)
      (set_toggle_in_progress true s)
    = (Returned tt, set_overlays o0 (set_toggle_in_progress true s))
    /\ _toggle_dimmer s =
       (Returned tt,
        set_toggle_in_progress false
          (StateManager.save_state
             (showMessage (DimmerActivated (current_dim s))
                (set_dimmer_active true
                   (set_overlays o (set_toggle_in_progress true s))))))
    /\ o !! 0 = o0 !! 0.
Proof.
  intros Hoff Hfree Hok.
  assert (Hfirst : runs true
            (if blue_light_active s then _update_blue_light
             else _apply_dimming_to_screen 0 (current_dim s) None)
            (set_toggle_in_progress true s)).
  { destruct (blue_light_active s).
    - apply runs_update_blue_light. intros _. apply Hok.
    - apply runs_apply_dimming. }
  destruct Hfirst as (r0 & o0 & Hrun0 & Hr0).
  destruct r0 as [[]|e]; [|discriminate Hr0].
  exists o0.
  unfold _toggle_dimmer.
  unfold bind at 1. unfold gets at 1. rewrite Hfree.
  unfold bind at 1. unfold modify at 1. unfold try_finally.
  unfold bind at 1. unfold gets at 1. keep_fields. rewrite Hoff. cbn [negb].
  unfold _get_enabled_screens.
  unfold bind at 1. unfold gets at 1. unfold bind at 1.
  keep_fields. cbn [for_each]. unfold bind at 1.
  change (0 =? 0) with true. cbv iota.
  unfold bind at 1. unfold gets at 1. keep_fields.
  assert (Hsame :
    (if blue_light_active s
     then _update_blue_light
     else dim <- gets current_dim ;; _apply_dimming_to_screen 0 dim None)
      (set_toggle_in_progress true s)
    = (Returned tt, set_overlays o0 (set_toggle_in_progress true s))).
  { rewrite <- Hrun0. destruct (blue_light_active s); reflexivity. }
  rewrite Hsame. clear Hsame.
  match goal with
  | |- context [for_each ?l ?body ?s1] =>
      assert (Hrest : keeps 0 true (for_each l body) s1)
  end.
  { destruct (second_display_enabled (second_display s)
              && (1 <? Z.of_nat (screens s))); cbn [for_each];
      [|apply keeps_ret].
    apply keeps_bind; [|intros; apply keeps_ret].
    change (1 =? 0) with false. change (1 =? 1) with true. cbv iota.
    apply keeps_gets. keep_fields. unfold when.
    destruct (second_display_enabled (second_display s)); [|apply keeps_ret].
    apply keeps_update_second_display; [discriminate|].
    intros _. revert Hok. apply tint_inputs_ok_frame; reflexivity. }
  destruct Hrest as (r & o & Hrun & Hr & Ho).
  destruct r as [[]|e]; [|discriminate Hr].
  exists o. rewrite Hrun. split; [exact Hrun0|]. split; [reflexivity|].
  exact Ho.
Qed.

(** [_update_blue_light] in closed form, on a machine with a primary
    screen and the intensity a slider value. *)
Lemma update_blue_light_run s :
  0 <= blue_intensity s <= 100 -> (0 < screens s)%nat ->
  _update_blue_light s
  = (Returned tt,
     if blue_light_active s then
       set_overlays
         (<[0 := dimmed (overlays s !! 0)
                   (if dimmer_active s then current_dim s
                    else 12 * blue_intensity s / 100)
                   (_calculate_blue_light_color (blue_intensity s))]>
            (overlays s)) s
     else if dimmer_active s then
       set_overlays
         (<[0 := dimmed (overlays s !! 0) (current_dim s) None]>
            (overlays s)) s
     else set_overlays (delete 0 (overlays s)) s).
Proof.
  intros Hi Hscr.
  destruct (tint_exact_inv (blue_intensity s) Hi) as [Hc Ho].
  assert (Happly : forall opacity color,
    _apply_dimming_to_screen 0 opacity color s
    = (Returned tt,
       set_overlays (<[0 := dimmed (overlays s !! 0) opacity color]>
                       (overlays s)) s)).
  { intros opacity color. rewrite apply_dimming_run.
    destruct (overlays s !! 0); [reflexivity|].
    destruct (Z.ltb_spec 0 (Z.of_nat (screens s))); [reflexivity | lia]. }
  unfold _update_blue_light.
  unfold bind at 1. unfold gets at 1.
  destruct (blue_light_active s) eqn:Hbl.
  - rewrite Hc.
    specialize (Happly (if dimmer_active s then current_dim s
                        else 12 * blue_intensity s / 100)
                       (Some (mkQColor 255
                                (255 - ceil_div (55 * blue_intensity s) 100)
                                (255 - ceil_div (105 * blue_intensity s) 100)))).
    unfold _apply_dimming_to_screen in Happly.
    unfold bind at 1 in Happly. unfold bind at 1.
    destruct (_get_overlay_for_screen 0 s) as [[[ov|]|e] s1] eqn:Hget.
    + unfold bind at 1. unfold gets at 1.
      assert (Hs1 : blue_intensity s1 = blue_intensity s
                    /\ dimmer_active s1 = dimmer_active s
                    /\ current_dim s1 = current_dim s).
      { unfold _get_overlay_for_screen in Hget.
        destruct (overlays s !! 0);
          [|destruct (0 <? Z.of_nat (screens s))];
          inversion Hget; subst; repeat split. }
      destruct Hs1 as (Hi1 & Hd1 & Hc1). rewrite Hi1.
      unfold bind at 1. unfold calculate_color. rewrite Hc. unfold ret at 1.
      unfold bind at 1. unfold gets at 1. rewrite Hd1.
      destruct (dimmer_active s).
      * unfold bind at 1. unfold gets at 1. rewrite Hc1. exact Happly.
      * unfold bind at 1. unfold calculate_tint_opacity. rewrite Ho.
        unfold ret at 1. exact Happly.
    + exfalso. unfold _get_overlay_for_screen in Hget.
      destruct (overlays s !! 0); [discriminate|].
      destruct (Z.ltb_spec 0 (Z.of_nat (screens s))); [discriminate | lia].
    + exfalso. unfold _get_overlay_for_screen in Hget.
      destruct (overlays s !! 0); [discriminate|].
      destruct (0 <? Z.of_nat (screens s)); discriminate.
  - unfold bind at 1. unfold gets at 1.
    destruct (dimmer_active s); cbn [negb].
    + unfold bind at 1. unfold gets at 1. apply Happly.
    + reflexivity.
Qed.

(** X12.  Switching the dimmer on without the blue light filter, on
    a machine with a primary screen and between two events: the call
    returns, the dimmer is active at the unchanged level, the
    re-entrancy flag is clear again, "Dimmer Activated" is the newest
    tray message, and the primary screen carries an overlay (the one
    it had, or a new one) with black background whose opacity is the
    untinted curve at [current_dim]. *)
Theorem toggle_on_shows_dim_level (s : DimmerControl) :
  dimmer_active s = false -> _toggle_in_progress s = false ->
  blue_light_active s = false -> tint_inputs_ok s -> (0 < screens s)%nat ->
  exists s' ov,
    _toggle_dimmer s = (Returned tt, s')
    /\ dimmer_active s' = true
    /\ current_dim s' = current_dim s
    /\ _toggle_in_progress s' = false
    /\ tray_icon s' = DimmerActivated (current_dim s) :: tray_icon s
    /\ overlays s' !! 0 = Some ov
    /\ ov = dimmed (overlays s !! 0) (current_dim s) None
    /\ DimmerOverlay._current_opacity ov
       = DimmerOverlay.actual_opacity (current_dim s) None
    /\ DimmerOverlay.background ov = mkQColor 0 0 0.
Proof.
  intros Hoff Hfree Hbl Hok Hscr.
  destruct (toggle_on_screens s Hoff Hfree Hok) as (o0 & o & H0 & Hrun & Ho).
  rewrite Hbl, apply_dimming_run in H0. keep_fields.
  assert (Ho0 : o0 !! 0
                = Some (dimmed (overlays s !! 0) (current_dim s) None)).
  { destruct (overlays s !! 0) as [ov|] eqn:Hov.
    - inversion H0 as [H1]. apply lookup_insert_eq.
    - destruct (Z.ltb_spec 0 (Z.of_nat (screens s))); [|lia].
      inversion H0 as [H1]. apply lookup_insert_eq. }
  eexists _, _. split; [exact Hrun|]. keep_fields.
  repeat match goal with |- _ /\ _ => split end; try reflexivity.
  rewrite Ho. exact Ho0.
Qed.

Lemma toggle_on_shows_dim_level_witness :
  exists s' ov,
    _toggle_dimmer (__init__ 1) = (Returned tt, s')
    /\ dimmer_active s' = true
    /\ current_dim s' = current_dim (__init__ 1)
    /\ _toggle_in_progress s' = false
    /\ tray_icon s'
       = DimmerActivated (current_dim (__init__ 1)) :: tray_icon (__init__ 1)
    /\ overlays s' !! 0 = Some ov
    /\ ov = dimmed (overlays (__init__ 1) !! 0) (current_dim (__init__ 1)) None
    /\ DimmerOverlay._current_opacity ov
       = DimmerOverlay.actual_opacity (current_dim (__init__ 1)) None
    /\ DimmerOverlay.background ov = mkQColor 0 0 0.
Proof.
  apply (toggle_on_shows_dim_level (__init__ 1)); try reflexivity.
  - apply tint_inputs_ok_defaults; reflexivity.
  - cbn. lia.
Defined.

(** X13.  Switching the dimmer on while the blue light filter is
    active leaves the primary overlay at the tint-only opacity,
    [12 * intensity // 100] percent, at most 0.12, whatever the dim
    level is: [_update_blue_light] runs before [dimmer_active] is set.
    The dimmer is active afterwards and [current_dim] is unchanged. *)
Theorem toggle_on_with_tint_shows_tint_only (s : DimmerControl) :
  dimmer_active s = false -> _toggle_in_progress s = false ->
  blue_light_active s = true -> tint_inputs_ok s -> (0 < screens s)%nat ->
  exists s' ov c,
    _toggle_dimmer s = (Returned tt, s')
    /\ dimmer_active s' = true
    /\ current_dim s' = current_dim s
    /\ _calculate_blue_light_color (blue_intensity s) = Some c
    /\ overlays s' !! 0 = Some ov
    /\ ov = dimmed (overlays s !! 0) (12 * blue_intensity s / 100) (Some c)
    /\ DimmerOverlay._current_opacity ov
       = (IZR (12 * blue_intensity s / 100) / 100)%R
    /\ (DimmerOverlay._current_opacity ov <= 0.12)%R.
Proof.
  intros Hoff Hfree Hbl Hok Hscr.
  destruct (toggle_on_screens s Hoff Hfree Hok) as (o0 & o & H0 & Hrun & Ho).
  rewrite Hbl in H0.
  destruct (tint_exact_inv (blue_intensity s) ltac:(apply Hok)) as [Hc _].
  rewrite (update_blue_light_run (set_toggle_in_progress true s)) in H0
    by (keep_fields; first [apply Hok | assumption]).
  keep_fields. rewrite Hbl, Hoff, Hc in H0.
  match type of Hc with _ = Some ?v => set (c := v) in * end.
  assert (Ho0 : o0 !! 0
                = Some (dimmed (overlays s !! 0)
                          (12 * blue_intensity s / 100) (Some c))).
  { inversion H0 as [H1]. apply lookup_insert_eq. }
  destruct (tint_only_linear (blue_intensity s) c ltac:(apply Hok))
    as [Hlin Hmax].
  eexists _, _, c. split; [exact Hrun|]. keep_fields.
  split; [reflexivity|]. split; [reflexivity|]. split; [exact Hc|].
  split; [rewrite Ho; exact Ho0|]. split; [reflexivity|].
  split; [exact Hlin | exact Hmax].
Qed.

Lemma toggle_on_with_tint_shows_tint_only_witness :
  exists s' ov c,
    _toggle_dimmer session_tint_on = (Returned tt, s')
    /\ dimmer_active s' = true
    /\ current_dim s' = current_dim session_tint_on
    /\ _calculate_blue_light_color (blue_intensity session_tint_on) = Some c
    /\ overlays s' !! 0 = Some ov
    /\ ov = dimmed (overlays session_tint_on !! 0)
              (12 * blue_intensity session_tint_on / 100) (Some c)
    /\ DimmerOverlay._current_opacity ov
       = (IZR (12 * blue_intensity session_tint_on / 100) / 100)%R
    /\ (DimmerOverlay._current_opacity ov <= 0.12)%R.
Proof.
  apply (toggle_on_with_tint_shows_tint_only session_tint_on);
    try reflexivity.
  - apply tint_inputs_ok_defaults; reflexivity.
  - change (0 < 1)%nat. lia.
Defined.

(** Switching off: the primary screen loses its overlay, or keeps it
    for the tint alone. *)
Lemma toggle_off_screens s :
  dimmer_active s = true -> _toggle_in_progress s = false ->
  tint_inputs_ok s -> (0 < screens s)%nat ->
  exists o,
    _toggle_dimmer s =
    (Returned tt,
     set_toggle_in_progress false
       (showMessage DimmerDeactivated
          (set_dimmer_active false
             (set_overlays o (set_toggle_in_progress true s)))))
    /\ o !! 0 = if blue_light_active s then
                  Some (dimmed (overlays s !! 0)
                          (12 * blue_intensity s / 100)
                          (_calculate_blue_light_color (blue_intensity s)))
                else None.
Proof.
  intros Hon Hfree Hok Hscr.
  destruct (tint_exact_inv (blue_intensity s) ltac:(apply Hok)) as [Hc Ho].
  unfold _toggle_dimmer.
  unfold bind at 1. unfold gets at 1. rewrite Hfree.
  unfold bind at 1. unfold modify at 1. unfold try_finally.
  unfold bind at 1. unfold gets at 1. keep_fields. rewrite Hon. cbn [negb].
  unfold _get_enabled_screens.
  unfold bind at 1. unfold gets at 1. unfold bind at 1.
  keep_fields. cbn [for_each]. unfold bind at 1.
  change (0 =? 0) with true. cbv iota.
  unfold bind at 1. unfold gets at 1. keep_fields.
  set (s1 := set_toggle_in_progress true s).
  assert (Hfirst : exists o0,
    (if negb (blue_light_active s)
     then _close_overlay_for_screen 0
     else
       intensity <- gets blue_intensity ;;
       color <- calculate_color (Some intensity) ;;
       opacity <- calculate_tint_opacity (Some intensity) ;;
       _apply_dimming_to_screen 0 opacity (Some color)) s1
    = (Returned tt, set_overlays o0 s1)
    /\ o0 !! 0 = if blue_light_active s then
                   Some (dimmed (overlays s !! 0)
                           (12 * blue_intensity s / 100)
                           (_calculate_blue_light_color (blue_intensity s)))
                 else None).
  { destruct (blue_light_active s); cbn [negb].
    - unfold bind at 1. unfold gets at 1. subst s1. keep_fields.
      unfold bind at 1. unfold calculate_color. rewrite Hc. unfold ret at 1.
      unfold bind at 1. unfold calculate_tint_opacity. rewrite Ho.
      unfold ret at 1. rewrite apply_dimming_run. keep_fields.
      destruct (overlays s !! 0) eqn:Hov.
      + eexists. split; [reflexivity|]. apply lookup_insert_eq.
      + destruct (Z.ltb_spec 0 (Z.of_nat (screens s))); [|lia].
        eexists. split; [reflexivity|]. apply lookup_insert_eq.
    - eexists. split; [reflexivity|]. apply lookup_delete_eq. }
  destruct Hfirst as (o0 & Hrun0 & Ho0). rewrite Hrun0.
  match goal with
  | |- context [for_each ?l ?body ?s2] =>
      assert (Hrest : keeps 0 true (for_each l body) s2)
  end.
  { destruct (second_display_enabled (second_display s)) eqn:Hen;
      cbn [andb]; [|apply keeps_ret].
    destruct (1 <? Z.of_nat (screens s)); cbn [for_each]; [|apply keeps_ret].
    apply keeps_bind; [|intros; apply keeps_ret].
    change (1 =? 0) with false. change (1 =? 1) with true. cbv iota.
    apply keeps_gets. subst s1. keep_fields.
    destruct (second_display_blue_light (second_display s)) eqn:Hbl2;
      cbn [negb]; [|apply keeps_close_overlay; discriminate].
    apply keeps_gets. keep_fields.
    assert (Hz : true = true ->
                 exists z, second_display_blue_intensity (second_display s)
                           = Some z /\ 0 <= z <= 100).
    { intros _. destruct Hok as [_ H2]. apply H2; assumption. }
    apply keeps_bind; [apply keeps_calculate_color, Hz|].
    intros c o1 Ho1.
    apply keeps_bind; [apply keeps_calculate_tint_opacity, Hz|].
    intros t o2 Ho2. apply keeps_apply_dimming. discriminate. }
  destruct Hrest as (r & o & Hrun & Hr & Hkeep).
  destruct r as [[]|e]; [|discriminate Hr].
  exists o. rewrite Hrun. split; [reflexivity|].
  rewrite Hkeep. subst s1. keep_fields. exact Ho0.
Qed.

(** X14.  Switching the dimmer off returns, clears [dimmer_active],
    keeps [current_dim] and shows "Dimmer Deactivated"; the primary
    screen loses its overlay when the blue light filter is off, and
    keeps it with the tint colour as background at the tint-only
    opacity (at most 0.12) when the filter is on. *)
Theorem toggle_off_clears_primary_screen (s : DimmerControl) :
  dimmer_active s = true -> _toggle_in_progress s = false ->
  tint_inputs_ok s -> (0 < screens s)%nat ->
  exists s',
    _toggle_dimmer s = (Returned tt, s')
    /\ dimmer_active s' = false
    /\ current_dim s' = current_dim s
    /\ tray_icon s' = DimmerDeactivated :: tray_icon s
    /\ match overlays s' !! 0 with
       | None => blue_light_active s = false
       | Some ov =>
           blue_light_active s = true
           /\ Some (DimmerOverlay.background ov)
              = _calculate_blue_light_color (blue_intensity s)
           /\ DimmerOverlay._current_opacity ov
              = (IZR (12 * blue_intensity s / 100) / 100)%R
           /\ (DimmerOverlay._current_opacity ov <= 0.12)%R
       end.
Proof.
  intros Hon Hfree Hok Hscr.
  destruct (toggle_off_screens s Hon Hfree Hok Hscr) as (o & Hrun & Ho).
  eexists. split; [exact Hrun|]. keep_fields.
  split; [reflexivity|]. split; [reflexivity|]. split; [reflexivity|].
  rewrite Ho. destruct (blue_light_active s); [|reflexivity].
  split; [reflexivity|].
  destruct (tint_exact_inv (blue_intensity s) ltac:(apply Hok)) as [Hc _].
  rewrite Hc.
  destruct (tint_only_linear (blue_intensity s)
              (mkQColor 255 (255 - ceil_div (55 * blue_intensity s) 100)
                 (255 - ceil_div (105 * blue_intensity s) 100))
              ltac:(apply Hok)) as [Hlin Hmax].
  split; [|split; [exact Hlin | exact Hmax]].
  unfold dimmed, DimmerOverlay.set_dimming. cbn [DimmerOverlay.background red green blue].
  f_equal.
  assert (H55 : 0 <= ceil_div (55 * blue_intensity s) 100 <= 55)
    by (destruct Hok as [Hi _]; div_lia).
  assert (H105 : 0 <= ceil_div (105 * blue_intensity s) 100 <= 105)
    by (destruct Hok as [Hi _]; div_lia).
  rewrite !py_clamp_id by lia. reflexivity.
Qed.

Lemma toggle_off_clears_primary_screen_witness :
  exists s',
    _toggle_dimmer session_tint_dimmer_on = (Returned tt, s')
    /\ dimmer_active s' = false
    /\ current_dim s' = current_dim session_tint_dimmer_on
    /\ tray_icon s' = DimmerDeactivated :: tray_icon session_tint_dimmer_on
    /\ match overlays s' !! 0 with
       | None => blue_light_active session_tint_dimmer_on = false
       | Some ov =>
           blue_light_active session_tint_dimmer_on = true
           /\ Some (DimmerOverlay.background ov)
              = _calculate_blue_light_color
                  (blue_intensity session_tint_dimmer_on)
           /\ DimmerOverlay._current_opacity ov
              = (IZR (12 * blue_intensity session_tint_dimmer_on / 100) / 100)%R
           /\ (DimmerOverlay._current_opacity ov <= 0.12)%R
       end.
Proof.
  apply (toggle_off_clears_primary_screen session_tint_dimmer_on);
    try reflexivity.
  - apply tint_inputs_ok_defaults; reflexivity.
  - change (0 < 1)%nat. lia.
Defined.

(** X15.  [_on_dim_changed(value)] stores and saves the new level
    and leaves [dimmer_active] alone.  While the dimmer is active the
    primary overlay takes the opacity of the curve at [value], tinted
    with the filter's colour when the blue light filter is active;
    while it is inactive the overlays are not touched. *)
Theorem on_dim_changed_screen (value : Z) (s : DimmerControl) :
  0 <= blue_intensity s <= 100 -> (0 < screens s)%nat ->
  exists s',
    _on_dim_changed value s = (Returned tt, s')
    /\ current_dim s' = value
    /\ option_map s_current_dim (state_file s') = Some value
    /\ dimmer_active s' = dimmer_active s
    /\ if dimmer_active s then
         exists ov,
           overlays s' !! 0 = Some ov
           /\ DimmerOverlay._current_opacity ov
              = DimmerOverlay.actual_opacity value
                  (if blue_light_active s
                   then _calculate_blue_light_color (blue_intensity s)
                   else None)
       else overlays s' = overlays s.
Proof.
  intros Hi Hscr. unfold _on_dim_changed.
  unfold bind at 1. unfold modify at 1.
  unfold bind at 1. unfold _save_state at 1. unfold modify at 1.
  unfold bind at 1. unfold gets at 1. keep_fields. unfold when.
  destruct (dimmer_active s) eqn:Hact.
  - unfold bind at 1. unfold gets at 1. keep_fields.
    destruct (blue_light_active s) eqn:Hbl.
    + rewrite update_blue_light_run by (keep_fields; assumption).
      keep_fields. rewrite Hbl, Hact.
      eexists. split; [reflexivity|]. keep_fields.
      repeat match goal with |- _ /\ _ => split end; try reflexivity;
        try exact Hact.
      eexists. split; [apply lookup_insert_eq | reflexivity].
    + rewrite apply_dimming_run. keep_fields.
      destruct (overlays s !! 0) eqn:Hov.
      * eexists. split; [reflexivity|]. keep_fields.
        repeat match goal with |- _ /\ _ => split end; try reflexivity;
        try exact Hact.
        eexists. split; [apply lookup_insert_eq | reflexivity].
      * destruct (Z.ltb_spec 0 (Z.of_nat (screens s))); [|lia].
        eexists. split; [reflexivity|]. keep_fields.
        repeat match goal with |- _ /\ _ => split end; try reflexivity;
        try exact Hact.
        eexists. split; [apply lookup_insert_eq | reflexivity].
  - eexists. split; [reflexivity|]. keep_fields.
    repeat match goal with |- _ /\ _ => split end; try reflexivity.
    exact Hact.
Qed.

Lemma on_dim_changed_screen_witness :
  exists s',
    _on_dim_changed 60 session_tint_dimmer_on = (Returned tt, s')
    /\ current_dim s' = 60
    /\ option_map s_current_dim (state_file s') = Some 60
    /\ dimmer_active s' = dimmer_active session_tint_dimmer_on
    /\ if dimmer_active session_tint_dimmer_on then
         exists ov,
           overlays s' !! 0 = Some ov
           /\ DimmerOverlay._current_opacity ov
              = DimmerOverlay.actual_opacity 60
                  (if blue_light_active session_tint_dimmer_on
                   then _calculate_blue_light_color
                          (blue_intensity session_tint_dimmer_on)
                   else None)
       else overlays s' = overlays session_tint_dimmer_on.
Proof.
  apply (on_dim_changed_screen 60 session_tint_dimmer_on).
  - change (0 <= 50 <= 100). lia.
  - change (0 < 1)%nat. lia.
Defined.

(** X16.  [_toggle_dimmer] leaves [_toggle_in_progress] as it found
    it on every path, also when a handler inside raises; called while
    the flag is set it returns at once and changes nothing. *)
Theorem toggle_guard_released (s : DimmerControl) :
  _toggle_in_progress (exec _toggle_dimmer s) = _toggle_in_progress s
  /\ _toggle_dimmer (set_toggle_in_progress true s)
     = (Returned tt, set_toggle_in_progress true s).
Proof.
  split.
  - unfold exec. destruct (_toggle_in_progress s) eqn:Hfree.
    + unfold _toggle_dimmer, bind, gets. rewrite Hfree. cbn [snd]. exact Hfree.
    + destruct (dimmer_active s) eqn:Hact.
      * destruct (toggle_off_run s Hact Hfree) as (r & o & Hrun & _).
        rewrite Hrun. destruct r; reflexivity.
      * unfold _toggle_dimmer.
        unfold bind at 1. unfold gets at 1. rewrite Hfree.
        unfold bind at 1. unfold modify at 1. unfold try_finally.
        match goal with
        | |- context [let '(r, s') := ?body ?s1 in _] =>
            destruct (body s1) as [r s2]
        end.
        reflexivity.
  - reflexivity.
Qed.

(** A tick outside the window, in closed form up to the overlays. *)
Lemma check_schedule_outside_run (now start end_ : QTime)
  (s : DimmerControl) :
  schedule_enabled (schedule s) = true ->
  schedule_time_set (schedule s) = true ->
  start_time (schedule s) = Some start ->
  end_time (schedule s) = Some end_ ->
  in_schedule now start end_ = false ->
  _toggle_in_progress s = false ->
  tint_inputs_ok s ->
  exists o,
    _check_schedule now s
    = (Returned tt,
       showMessage ScheduleEnded
         (if dimmer_active s && negb (blue_light_active s)
          then set_toggle_in_progress false
                 (showMessage DimmerDeactivated
                    (set_dimmer_active false
                       (set_overlays o (set_toggle_in_progress true s))))
          else s)).
Proof.
  intros Hen Hset Hst Hend Hin Hfree Hok. unfold _check_schedule.
  unfold bind at 1. unfold gets at 1. rewrite Hen, Hset, Hst, Hend, Hin.
  cbn [negb orb].
  unfold bind at 1. unfold gets at 1.
  unfold bind at 1. unfold gets at 1. unfold when.
  destruct (dimmer_active s) eqn:Hact;
    destruct (blue_light_active s) eqn:Hbl; cbn [andb negb];
    try (exists (overlays s); reflexivity).
  destruct (toggle_off_run s Hact Hfree) as (r & o & Hrun & Hr).
  specialize (Hr Hok). subst r.
  unfold bind at 1. rewrite Hrun. exists o. reflexivity.
Qed.

(** X17.  A tick of the enabled schedule outside its window returns
    and shows "Schedule Ended" every time; the dimmer is active
    afterwards exactly when it was active and the blue light filter is
    on (otherwise an active dimmer is switched off, with its own tray
    message); level, schedule and state file are unchanged. *)
Theorem check_schedule_outside_window (now start end_ : QTime)
  (s : DimmerControl) :
  schedule_enabled (schedule s) = true ->
  schedule_time_set (schedule s) = true ->
  start_time (schedule s) = Some start ->
  end_time (schedule s) = Some end_ ->
  in_schedule now start end_ = false ->
  _toggle_in_progress s = false ->
  tint_inputs_ok s ->
  exists s',
    _check_schedule now s = (Returned tt, s')
    /\ dimmer_active s' = dimmer_active s && blue_light_active s
    /\ current_dim s' = current_dim s
    /\ schedule s' = schedule s
    /\ state_file s' = state_file s
    /\ tray_icon s'
       = ScheduleEnded
           :: (if dimmer_active s && negb (blue_light_active s)
               then DimmerDeactivated :: tray_icon s
               else tray_icon s).
Proof.
  intros Hen Hset Hst Hend Hin Hfree Hok.
  destruct (check_schedule_outside_run now start end_ s Hen Hset Hst Hend
              Hin Hfree Hok) as (o & Hrun).
  eexists. split; [exact Hrun|].
  destruct (dimmer_active s) eqn:Hact;
    destruct (blue_light_active s) eqn:Hbl; cbn [andb negb]; keep_fields;
    repeat match goal with |- _ /\ _ => split end;
    first [reflexivity | assumption].
Qed.

Lemma check_schedule_outside_window_witness :
  exists s',
    _check_schedule (mkQTime 12 30 0 0) session_schedule_dimmer_on
    = (Returned tt, s')
    /\ dimmer_active s'
       = dimmer_active session_schedule_dimmer_on
         && blue_light_active session_schedule_dimmer_on
    /\ current_dim s' = current_dim session_schedule_dimmer_on
    /\ schedule s' = schedule session_schedule_dimmer_on
    /\ state_file s' = state_file session_schedule_dimmer_on
    /\ tray_icon s'
       = ScheduleEnded
           :: (if dimmer_active session_schedule_dimmer_on
                  && negb (blue_light_active session_schedule_dimmer_on)
               then DimmerDeactivated :: tray_icon session_schedule_dimmer_on
               else tray_icon session_schedule_dimmer_on).
Proof.
  apply (check_schedule_outside_window (mkQTime 12 30 0 0) (QTime_hm 18 0)
           (QTime_hm 6 0) session_schedule_dimmer_on); try reflexivity.
  apply tint_inputs_ok_defaults; reflexivity.
Defined.

(** X18.  Pressing the schedule button while the schedule is
    disabled enables it exactly when a schedule time has been set: then
    "Schedule Enabled" is shown and the state file records the
    schedule as enabled; otherwise "No Schedule Time Set" is shown and
    the state file is not written.  Times, level, dimmer, overlays and
    the schedule timer are untouched, and the re-entrancy flag is
    clear afterwards. *)
Theorem schedule_control_enable (s : DimmerControl) :
  schedule_enabled (schedule s) = false ->
  _schedule_toggle_in_progress s = false ->
  exists s',
    _toggle_schedule_control s = (Returned tt, s')
    /\ schedule_enabled (schedule s') = schedule_time_set (schedule s)
    /\ start_time (schedule s') = start_time (schedule s)
    /\ end_time (schedule s') = end_time (schedule s)
    /\ schedule_dim_value (schedule s') = schedule_dim_value (schedule s)
    /\ dimmer_active s' = dimmer_active s
    /\ overlays s' = overlays s
    /\ schedule_timer s' = schedule_timer s
    /\ _schedule_toggle_in_progress s' = false
    /\ tray_icon s'
       = (if schedule_time_set (schedule s) then ScheduleEnabled
          else NoScheduleTimeSet) :: tray_icon s
    /\ if schedule_time_set (schedule s)
       then option_map s_schedule_enabled (state_file s') = Some true
       else state_file s' = state_file s.
Proof.
  intros Hen Hfree. unfold _toggle_schedule_control.
  unfold bind at 1. unfold gets at 1. rewrite Hfree.
  unfold bind at 1. unfold modify at 1. unfold try_finally.
  unfold bind at 1. unfold gets at 1. keep_fields. rewrite Hen.
  destruct (schedule_time_set (schedule s)) eqn:Hset; cbn [negb].
  - unfold bind, modify, _save_state. keep_fields.
    eexists. split; [reflexivity|]. keep_fields.
    cbn [schedule_enabled start_time end_time schedule_dim_value
         schedule_time_set option_map StateManager.state s_schedule_enabled].
    repeat match goal with |- _ /\ _ => split end; reflexivity.
  - unfold modify. eexists. split; [reflexivity|]. keep_fields.
    repeat match goal with |- _ /\ _ => split end;
      first [reflexivity | assumption].
Qed.

Lemma schedule_control_enable_witness :
  exists s',
    _toggle_schedule_control (__init__ 1) = (Returned tt, s')
    /\ schedule_enabled (schedule s')
       = schedule_time_set (schedule (__init__ 1))
    /\ start_time (schedule s') = start_time (schedule (__init__ 1))
    /\ end_time (schedule s') = end_time (schedule (__init__ 1))
    /\ schedule_dim_value (schedule s')
       = schedule_dim_value (schedule (__init__ 1))
    /\ dimmer_active s' = dimmer_active (__init__ 1)
    /\ overlays s' = overlays (__init__ 1)
    /\ schedule_timer s' = schedule_timer (__init__ 1)
    /\ _schedule_toggle_in_progress s' = false
    /\ tray_icon s'
       = (if schedule_time_set (schedule (__init__ 1)) then ScheduleEnabled
          else NoScheduleTimeSet) :: tray_icon (__init__ 1)
    /\ if schedule_time_set (schedule (__init__ 1))
       then option_map s_schedule_enabled (state_file s') = Some true
       else state_file s' = state_file (__init__ 1).
Proof. apply (schedule_control_enable (__init__ 1)); reflexivity. Defined.

(** X19.  Pressing the schedule button while the schedule is enabled
    disables it and leaves the dimmer off (an active dimmer is
    switched off, with its tray message), shows "Schedule Disabled",
    keeps the level and the schedule timer, and does not write the
    state file. *)
Theorem schedule_control_disable (s : DimmerControl) :
  schedule_enabled (schedule s) = true ->
  schedule_time_set (schedule s) = true ->
  _schedule_toggle_in_progress s = false ->
  _toggle_in_progress s = false ->
  tint_inputs_ok s ->
  exists s',
    _toggle_schedule_control s = (Returned tt, s')
    /\ schedule_enabled (schedule s') = false
    /\ dimmer_active s' = false
    /\ current_dim s' = current_dim s
    /\ schedule_timer s' = schedule_timer s
    /\ state_file s' = state_file s
    /\ tray_icon s'
       = ScheduleDisabled
           :: (if dimmer_active s then DimmerDeactivated :: tray_icon s
               else tray_icon s).
Proof.
  intros Hen Hset Hfree Hfree' Hok. unfold _toggle_schedule_control.
  unfold bind at 1. unfold gets at 1. rewrite Hfree.
  unfold bind at 1. unfold modify at 1. unfold try_finally.
  unfold bind at 1. unfold gets at 1. keep_fields. rewrite Hen, Hset.
  cbn [negb].
  unfold bind at 1. unfold modify at 1.
  unfold bind at 1. unfold gets at 1. keep_fields. unfold when.
  destruct (dimmer_active s) eqn:Hact.
  - match goal with
    | |- context [bind _toggle_dimmer _ ?s1] =>
        destruct (toggle_off_run s1 Hact Hfree') as (r & o & Hrun & Hr);
        specialize (Hr ltac:(revert Hok; apply tint_inputs_ok_frame;
                             reflexivity))
    end.
    subst r. unfold bind at 1. rewrite Hrun. unfold modify.
    eexists. split; [reflexivity|]. keep_fields.
    repeat match goal with |- _ /\ _ => split end; reflexivity.
  - unfold bind, ret, modify.
    eexists. split; [reflexivity|]. keep_fields.
    repeat match goal with |- _ /\ _ => split end;
      first [reflexivity | assumption].
Qed.

Lemma schedule_control_disable_witness :
  exists s',
    _toggle_schedule_control session_schedule_dimmer_on = (Returned tt, s')
    /\ schedule_enabled (schedule s') = false
    /\ dimmer_active s' = false
    /\ current_dim s' = current_dim session_schedule_dimmer_on
    /\ schedule_timer s' = schedule_timer session_schedule_dimmer_on
    /\ state_file s' = state_file session_schedule_dimmer_on
    /\ tray_icon s'
       = ScheduleDisabled
           :: (if dimmer_active session_schedule_dimmer_on
               then DimmerDeactivated :: tray_icon session_schedule_dimmer_on
               else tray_icon session_schedule_dimmer_on).
Proof.
  apply (schedule_control_disable session_schedule_dimmer_on);
    try reflexivity.
  apply tint_inputs_ok_defaults; reflexivity.
Defined.

(** A tick inside the window, in closed form up to the overlays. *)
Lemma check_schedule_inside_run (now start end_ : QTime) (s : DimmerControl) :
  schedule_enabled (schedule s) = true ->
  schedule_time_set (schedule s) = true ->
  start_time (schedule s) = Some start ->
  end_time (schedule s) = Some end_ ->
  in_schedule now start end_ = true ->
  _toggle_in_progress s = false ->
  current_dim s = dim_slider s ->
  0 <= schedule_dim_value (schedule s) <= 95 ->
  tint_inputs_ok s ->
  exists s',
    _check_schedule now s = (Returned tt, s')
    /\ dimmer_active s' = true
    /\ current_dim s' = (if dimmer_active s then current_dim s
                         else schedule_dim_value (schedule s))
    /\ dim_slider s' = current_dim s'
    /\ schedule s' = schedule s
    /\ schedule_timer s' = schedule_timer s
    /\ _toggle_in_progress s' = false
    /\ blue_intensity s' = blue_intensity s
    /\ second_display s' = second_display s
    /\ tray_icon s'
       = ScheduleAutoStarted (schedule_dim_value (schedule s))
           :: (if dimmer_active s then tray_icon s
               else DimmerActivated (schedule_dim_value (schedule s))
                      :: tray_icon s).
Proof.
  intros Hen Hset Hst Hend Hin Hfree Hsync Hlevel Hok.
  unfold _check_schedule. unfold bind at 1. unfold gets at 1.
  rewrite Hen, Hset, Hst, Hend, Hin. cbn [negb orb].
  unfold bind at 1. unfold gets at 1.
  destruct (dimmer_active s) eqn:Hd; cbn [negb when].
  - eexists. split; [reflexivity|]. keep_fields.
    repeat match goal with |- _ /\ _ => split end;
      first [reflexivity | assumption | symmetry; assumption].
  - assert (Hslide : exists s1,
      dim_slider_setValue (schedule_dim_value (schedule s)) s
      = (Returned tt, s1)
      /\ current_dim s1 = schedule_dim_value (schedule s)
      /\ dim_slider s1 = schedule_dim_value (schedule s)
      /\ dimmer_active s1 = false /\ _toggle_in_progress s1 = false
      /\ schedule s1 = schedule s /\ schedule_timer s1 = schedule_timer s
      /\ blue_intensity s1 = blue_intensity s
      /\ second_display s1 = second_display s
      /\ tray_icon s1 = tray_icon s).
    { unfold dim_slider_setValue. rewrite py_clamp_id by lia.
      unfold bind at 1. unfold gets at 1.
      destruct (Z.eqb_spec (schedule_dim_value (schedule s)) (dim_slider s))
        as [Heq|Hne].
      - exists s. rewrite Hsync, Heq.
        repeat match goal with |- _ /\ _ => split end;
          first [reflexivity | assumption].
      - unfold bind at 1. unfold modify at 1.
        destruct (on_dim_changed_run (schedule_dim_value (schedule s))
                    (set_dim_slider (schedule_dim_value (schedule s)) s))
          as (r & o & Hrun & Hr).
        rewrite Hrun, Hr by (left; exact Hd).
        eexists. split; [reflexivity|]. keep_fields.
        repeat match goal with |- _ /\ _ => split end;
          first [reflexivity | assumption]. }
    destruct Hslide as (s1 & Hrun1 & Hdim1 & Hsl1 & Hoff1 & Hfree1 & Hsch1
                        & Htm1 & Hbi1 & Hsd1 & Htray1).
    destruct (toggle_on_run s1 Hoff1 Hfree1
                (tint_inputs_ok_frame s s1 Hbi1 Hsd1 Hok)) as (o & Hrun2).
    unfold bind at 1. unfold bind at 1. rewrite Hrun1, Hrun2.
    eexists. split; [reflexivity|]. keep_fields.
    rewrite Hdim1, Hsl1, Hsch1, Htm1, Hbi1, Hsd1, Htray1.
    repeat match goal with |- _ /\ _ => split end; reflexivity.
Qed.

(** X20.  Choosing a preset, enabling the schedule and taking one
    tick, from a state with the dimmer off and the schedule disabled:
    all three return, the schedule is enabled with its timer running,
    its level is within 10..95, and after the tick the dimmer is
    active exactly when the clock reading is inside the preset's
    window, in which case [current_dim] is the preset's level;
    outside it [current_dim] is unchanged. *)
Theorem preset_then_enable_then_tick (preset_type : Preset) (now : QTime)
  (s : DimmerControl) :
  dimmer_active s = false ->
  schedule_enabled (schedule s) = false ->
  _schedule_toggle_in_progress s = false ->
  _toggle_in_progress s = false ->
  current_dim s = dim_slider s ->
  tint_inputs_ok s ->
  exists s' start end_,
    (_apply_preset preset_type ;; _toggle_schedule_control ;;
     _check_schedule now) s = (Returned tt, s')
    /\ start_time (schedule s') = Some start
    /\ end_time (schedule s') = Some end_
    /\ schedule_enabled (schedule s') = true
    /\ schedule_timer s' = true
    /\ dimmer_active s' = in_schedule now start end_
    /\ current_dim s' = (if in_schedule now start end_
                         then schedule_dim_value (schedule s')
                         else current_dim s)
    /\ 10 <= schedule_dim_value (schedule s') <= 95.
Proof.
  intros Hoff Hen Hfree Hfree' Hsync Hok.
  unfold bind at 1.
  assert (Hpre : exists start end_ dim,
    _apply_preset preset_type s
    = (Returned tt,
       showMessage (PresetSet dim)
         (set_time_remaining_timer true
            (set_schedule_timer true
               (set_schedule (mkScheduleVars (schedule_enabled (schedule s))
                                (Some start) (Some end_) dim true) s))))
    /\ 10 <= dim <= 95).
  { destruct preset_type; eexists _, _, _; (split; [reflexivity | lia]). }
  destruct Hpre as (start & end_ & dim & Hrun1 & Hdim). rewrite Hrun1.
  unfold bind at 1.
  match goal with
  | |- context [_toggle_schedule_control ?s1] =>
      assert (Hrun2 : exists s2,
        _toggle_schedule_control s1 = (Returned tt, s2)
        /\ schedule s2 = mkScheduleVars true (Some start) (Some end_) dim true
        /\ schedule_timer s2 = true
        /\ dimmer_active s2 = false /\ _toggle_in_progress s2 = false
        /\ current_dim s2 = current_dim s /\ dim_slider s2 = dim_slider s
        /\ blue_intensity s2 = blue_intensity s
        /\ blue_light_active s2 = blue_light_active s
        /\ second_display s2 = second_display s)
  end.
  { unfold _toggle_schedule_control.
    unfold bind at 1. unfold gets at 1. keep_fields. rewrite Hfree.
    unfold bind at 1. unfold modify at 1. unfold try_finally.
    unfold bind at 1. unfold gets at 1. keep_fields.
    cbn [schedule_time_set schedule_enabled negb]. rewrite Hen. cbn [negb].
    unfold bind, modify, _save_state. keep_fields.
    eexists. split; [reflexivity|]. keep_fields.
    cbn [schedule_enabled start_time end_time schedule_dim_value
         schedule_time_set].
    repeat match goal with |- _ /\ _ => split end;
      first [reflexivity | assumption]. }
  destruct Hrun2 as (s2 & Hrun2 & Hsch & Htimer & Hoff2 & Hfree2 & Hdim2
                     & Hsl2 & Hbi2 & Hbl2 & Hsd2).
  rewrite Hrun2.
  assert (Hok2 : tint_inputs_ok s2)
    by (exact (tint_inputs_ok_frame s s2 Hbi2 Hsd2 Hok)).
  destruct (in_schedule now start end_) eqn:Hin.
  - destruct (check_schedule_inside_run now start end_ s2) as
      (s3 & Hrun3 & Hact3 & Hdim3 & _ & Hsch3 & Htm3 & _);
      try (rewrite Hsch; reflexivity); try assumption.
    { congruence. } { rewrite Hsch. cbn [schedule_dim_value]. lia. }
    exists s3, start, end_.
    rewrite Hin, Hrun3, Hsch3, Hsch, Htm3, Htimer, Hdim3, Hact3, Hoff2, Hsch.
    cbn [start_time end_time schedule_enabled schedule_dim_value].
    repeat match goal with |- _ /\ _ => split end;
      first [reflexivity | assumption | lia].
  - destruct (check_schedule_outside_run now start end_ s2) as (o & Hrun3);
      try (rewrite Hsch; reflexivity); try assumption.
    rewrite Hoff2 in Hrun3. cbn [andb] in Hrun3.
    exists (showMessage ScheduleEnded s2), start, end_.
    rewrite Hin, Hrun3. keep_fields. rewrite Hsch, Htimer, Hoff2, Hdim2.
    cbn [start_time end_time schedule_enabled schedule_dim_value].
    repeat match goal with |- _ /\ _ => split end;
      first [reflexivity | assumption | lia].
Qed.

Lemma preset_then_enable_then_tick_witness :
  exists s' start end_,
    (_apply_preset night ;; _toggle_schedule_control ;;
     _check_schedule (mkQTime 23 15 0 0)) (__init__ 1) = (Returned tt, s')
    /\ start_time (schedule s') = Some start
    /\ end_time (schedule s') = Some end_
    /\ schedule_enabled (schedule s') = true
    /\ schedule_timer s' = true
    /\ dimmer_active s' = in_schedule (mkQTime 23 15 0 0) start end_
    /\ current_dim s' = (if in_schedule (mkQTime 23 15 0 0) start end_
                         then schedule_dim_value (schedule s')
                         else current_dim (__init__ 1))
    /\ 10 <= schedule_dim_value (schedule s') <= 95.
Proof.
  apply (preset_then_enable_then_tick night (mkQTime 23 15 0 0) (__init__ 1));
    try reflexivity.
  apply tint_inputs_ok_defaults; reflexivity.
Defined.

Lemma repeat_snoc {A} (x : A) (n : nat) (l : list A) :
  repeat x n ++ x :: l = x :: repeat x n ++ l.
Proof. induction n as [|n IH]; cbn [repeat app]; [|rewrite IH]; reflexivity. Qed.

(** X21.  Every tick of the enabled schedule inside its window
    shows "Schedule Auto-Started": after [n] such ticks the tray holds
    [n] of these messages on top of what it held, with "Dimmer
    Activated" under the first of them when the first tick switched
    the dimmer on; the dimmer is active after any tick and the
    schedule is unchanged. *)
Theorem every_tick_in_window_notifies (times : list QTime)
  (start end_ : QTime) :
  forall s : DimmerControl,
    schedule_enabled (schedule s) = true ->
    schedule_time_set (schedule s) = true ->
    start_time (schedule s) = Some start ->
    end_time (schedule s) = Some end_ ->
    Forall (fun now => in_schedule now start end_ = true) times ->
    _toggle_in_progress s = false ->
    current_dim s = dim_slider s ->
    0 <= schedule_dim_value (schedule s) <= 95 ->
    tint_inputs_ok s ->
    exists s',
      for_each times _check_schedule s = (Returned tt, s')
      /\ tray_icon s'
         = repeat (ScheduleAutoStarted (schedule_dim_value (schedule s)))
                  (length times)
           ++ (if dimmer_active s || Nat.eqb (length times) 0 then []
               else [DimmerActivated (schedule_dim_value (schedule s))])
           ++ tray_icon s
      /\ dimmer_active s' = dimmer_active s || negb (Nat.eqb (length times) 0)
      /\ schedule s' = schedule s.
Proof.
  induction times as [|now times IH];
    intros s Hen Hset Hst Hend Hin Hfree Hsync Hlevel Hok.
  - exists s. cbn [for_each length repeat app Nat.eqb negb].
    rewrite !orb_true_r, orb_false_r. repeat split.
  - inversion Hin as [|? ? Hnow Hrest]; subst.
    destruct (check_schedule_inside_run now start end_ s Hen Hset Hst Hend
                Hnow Hfree Hsync Hlevel Hok)
      as (s1 & Hrun1 & Hact1 & Hdim1 & Hsl1 & Hsch1 & _ & Hfree1 & Hbi1
          & Hsd1 & Htray1).
    destruct (IH s1) as (s2 & Hrun2 & Htray2 & Hact2 & Hsch2);
      try (rewrite Hsch1; assumption); try assumption.
    { symmetry. exact Hsl1. }
    { exact (tint_inputs_ok_frame s s1 Hbi1 Hsd1 Hok). }
    exists s2. cbn [for_each]. unfold bind. rewrite Hrun1, Hrun2.
    rewrite Htray2, Hact2, Hsch2, Hsch1, Hact1, Htray1.
    cbn [length Nat.eqb negb orb app repeat].
    rewrite orb_false_r, orb_true_r.
    split; [reflexivity|]. split; [|split; reflexivity].
    rewrite repeat_snoc. destruct (dimmer_active s); reflexivity.
Qed.

Lemma every_tick_in_window_notifies_witness :
  exists s',
    for_each [mkQTime 19 0 12 0; mkQTime 19 0 42 0; mkQTime 19 1 12 0]
             _check_schedule session_schedule_dimmer_off = (Returned tt, s')
    /\ tray_icon s'
       = repeat (ScheduleAutoStarted
                   (schedule_dim_value (schedule session_schedule_dimmer_off)))
                (length [mkQTime 19 0 12 0; mkQTime 19 0 42 0;
                         mkQTime 19 1 12 0])
         ++ (if dimmer_active session_schedule_dimmer_off
                || Nat.eqb (length [mkQTime 19 0 12 0; mkQTime 19 0 42 0;
                                    mkQTime 19 1 12 0]) 0
             then []
             else [DimmerActivated
                     (schedule_dim_value
                        (schedule session_schedule_dimmer_off))])
         ++ tray_icon session_schedule_dimmer_off
    /\ dimmer_active s'
       = dimmer_active session_schedule_dimmer_off
         || negb (Nat.eqb (length [mkQTime 19 0 12 0; mkQTime 19 0 42 0;
                                   mkQTime 19 1 12 0]) 0)
    /\ schedule s' = schedule session_schedule_dimmer_off.
Proof.
  apply (every_tick_in_window_notifies
           [mkQTime 19 0 12 0; mkQTime 19 0 42 0; mkQTime 19 1 12 0]
           (QTime_hm 18 0) (QTime_hm 6 0) session_schedule_dimmer_off);
    try reflexivity.
  - repeat constructor.
  - change (0 <= 90 <= 95). lia.
  - apply tint_inputs_ok_defaults; reflexivity.
Defined.

(** X22.  As long as [second_display_blue_intensity] still names the
    slider widget (every start without a state file, until the slider
    is moved), ticking the second display's blue light filter with the
    second display enabled raises [TypeError] whenever there is a
    second screen or an overlay for it, and returns otherwise; in both
    cases the attribute is set and the state file already records the
    filter as on, with the widget's value as intensity. *)
Theorem second_display_tint_before_first_slider_move (s : DimmerControl) :
  second_display_enabled (second_display s) = true ->
  second_display_blue_intensity (second_display s) = None ->
  exists r s',
    _on_second_display_blue_light_changed true s = (r, s')
    /\ r = (if match overlays s !! 1 with Some _ => true | None => false end
               || (1 <? Z.of_nat (screens s))
            then Raised TypeError else Returned tt)
    /\ second_display_blue_light (second_display s') = true
    /\ option_map s_second_display_blue_light (state_file s') = Some true
    /\ option_map s_second_display_blue_intensity (state_file s')
       = Some (second_display_blue_intensity_widget (second_display s)).
Proof.
  intros Hen Hnone. unfold _on_second_display_blue_light_changed.
  unfold bind at 1. unfold modify at 1.
  unfold bind at 1. unfold _save_state at 1. unfold modify at 1.
  unfold _update_second_display.
  unfold bind at 1. unfold gets at 1. keep_fields.
  cbn [second_display_enabled]. rewrite Hen. cbn [negb].
  unfold bind at 1. unfold _get_overlay_for_screen. keep_fields.
  destruct (overlays s !! 1) eqn:Hov; cbn [orb].
  - unfold bind, gets, calculate_color, raise. keep_fields.
    cbn [second_display_blue_intensity second_display_blue_light].
    rewrite Hnone.
    eexists _, _. split; [reflexivity|]. keep_fields.
    cbn [option_map StateManager.state s_second_display_blue_light
         s_second_display_blue_intensity second_display_blue_light
         second_display_blue_intensity second_display_blue_intensity_widget
         second_display_enabled second_display_dim].
    try rewrite Hnone. repeat split.
  - destruct (1 <? Z.of_nat (screens s)).
    + unfold bind, gets, calculate_color, raise. keep_fields.
      cbn [second_display_blue_intensity second_display_blue_light].
      rewrite Hnone.
      eexists _, _. split; [reflexivity|]. keep_fields.
      cbn [option_map StateManager.state s_second_display_blue_light
           s_second_display_blue_intensity second_display_blue_light
           second_display_blue_intensity second_display_blue_intensity_widget
           second_display_enabled second_display_dim].
      try rewrite Hnone. repeat split.
    + eexists _, _. split; [reflexivity|]. keep_fields.
      cbn [option_map StateManager.state s_second_display_blue_light
           s_second_display_blue_intensity second_display_blue_light
           second_display_blue_intensity second_display_blue_intensity_widget
           second_display_enabled second_display_dim].
      try rewrite Hnone. repeat split.
Qed.

Lemma second_display_tint_before_first_slider_move_witness :
  exists r s',
    _on_second_display_blue_light_changed true session_second_display
    = (r, s')
    /\ r = (if match overlays session_second_display !! 1 with
               | Some _ => true
               | None => false
               end
               || (1 <? Z.of_nat (screens session_second_display))
            then Raised TypeError else Returned tt)
    /\ second_display_blue_light (second_display s') = true
    /\ option_map s_second_display_blue_light (state_file s') = Some true
    /\ option_map s_second_display_blue_intensity (state_file s')
       = Some (second_display_blue_intensity_widget
                 (second_display session_second_display)).
Proof.
  apply (second_display_tint_before_first_slider_move session_second_display);
    reflexivity.
Defined.

(** X23.  [_on_blue_light_changed] returns, records and saves the
    new flag and leaves [dimmer_active] alone.  Ticked, the primary
    overlay takes the filter's colour at the dim level when the dimmer
    is active and at the tint-only percent otherwise; unticked, it
    goes back to black at the dim level when the dimmer is active and
    is removed otherwise. *)
Theorem on_blue_light_changed_screen (checked : bool) (s : DimmerControl) :
  0 <= blue_intensity s <= 100 -> (0 < screens s)%nat ->
  exists s',
    _on_blue_light_changed checked s = (Returned tt, s')
    /\ blue_light_active s' = checked
    /\ dimmer_active s' = dimmer_active s
    /\ option_map s_blue_light_active (state_file s') = Some checked
    /\ overlays s' !! 0
       = if checked then
           Some (dimmed (overlays s !! 0)
                   (if dimmer_active s then current_dim s
                    else 12 * blue_intensity s / 100)
                   (_calculate_blue_light_color (blue_intensity s)))
         else if dimmer_active s then
           Some (dimmed (overlays s !! 0) (current_dim s) None)
         else None.
Proof.
  intros Hi Hscr. unfold _on_blue_light_changed.
  unfold bind at 1. unfold modify at 1.
  unfold bind at 1. unfold _save_state at 1. unfold modify at 1.
  rewrite update_blue_light_run by (keep_fields; assumption).
  keep_fields. eexists. split; [reflexivity|].
  destruct checked, (dimmer_active s) eqn:Hact; keep_fields;
    repeat match goal with |- _ /\ _ => split end;
    first [reflexivity | assumption | apply lookup_insert_eq
          | apply lookup_delete_eq].
Qed.

Lemma on_blue_light_changed_screen_witness :
  exists s',
    _on_blue_light_changed false session_tint_dimmer_on = (Returned tt, s')
    /\ blue_light_active s' = false
    /\ dimmer_active s' = dimmer_active session_tint_dimmer_on
    /\ option_map s_blue_light_active (state_file s') = Some false
    /\ overlays s' !! 0
       = if false then
           Some (dimmed (overlays session_tint_dimmer_on !! 0)
                   (if dimmer_active session_tint_dimmer_on
                    then current_dim session_tint_dimmer_on
                    else 12 * blue_intensity session_tint_dimmer_on / 100)
                   (_calculate_blue_light_color
                      (blue_intensity session_tint_dimmer_on)))
         else if dimmer_active session_tint_dimmer_on then
           Some (dimmed (overlays session_tint_dimmer_on !! 0)
                   (current_dim session_tint_dimmer_on) None)
         else None.
Proof.
  apply (on_blue_light_changed_screen false session_tint_dimmer_on).
  - change (0 <= 50 <= 100). lia.
  - change (0 < 1)%nat. lia.
Defined.

(** X29.  Moving the second display's slider acts at once, dimmer
    active or not: with the second display enabled, its blue light
    filter off and a second screen present, the call returns, stores
    and saves the level, leaves the primary screen and [dimmer_active]
    alone, and gives the second screen an overlay at the opacity of
    the untinted curve for the new level. *)
Theorem second_display_slider_acts_at_once (value : Z) (s : DimmerControl) :
  second_display_enabled (second_display s) = true ->
  second_display_blue_light (second_display s) = false ->
  (1 < screens s)%nat ->
  exists s' ov,
    _on_second_display_dim_changed value s = (Returned tt, s')
    /\ second_display_dim (second_display s') = value
    /\ option_map s_second_display_dim (state_file s') = Some value
    /\ dimmer_active s' = dimmer_active s
    /\ overlays s' !! 0 = overlays s !! 0
    /\ overlays s' !! 1 = Some ov
    /\ ov = dimmed (overlays s !! 1) value None
    /\ DimmerOverlay._current_opacity ov
       = DimmerOverlay.actual_opacity value None.
Proof.
  intros Hen Hbl Hscr. unfold _on_second_display_dim_changed.
  unfold bind at 1. unfold modify at 1.
  unfold bind at 1. unfold _save_state at 1. unfold modify at 1.
  unfold bind at 1. unfold gets at 1. keep_fields.
  cbn [second_display_enabled]. rewrite Hen. cbn [when].
  unfold bind at 1. unfold gets at 1. keep_fields.
  cbn [second_display_blue_light]. rewrite Hbl.
  rewrite apply_dimming_run. keep_fields.
  assert (Hins : forall m : gmap Z DimmerOverlay.t,
            <[1 := dimmed (overlays s !! 1) value None]> m !! 0 = m !! 0)
    by (intros m; apply lookup_insert_ne; discriminate).
  destruct (overlays s !! 1) eqn:Hov.
  - eexists _, _. split; [reflexivity|]. keep_fields.
    cbn [second_display_dim option_map StateManager.state
         s_second_display_dim].
    repeat match goal with |- _ /\ _ => split end;
      first [reflexivity | apply Hins | apply lookup_insert_eq].
  - destruct (Z.ltb_spec 1 (Z.of_nat (screens s))); [|lia].
    eexists _, _. split; [reflexivity|]. keep_fields.
    cbn [second_display_dim option_map StateManager.state
         s_second_display_dim].
    repeat match goal with |- _ /\ _ => split end;
      first [reflexivity | apply Hins | apply lookup_insert_eq].
Qed.

Lemma second_display_slider_acts_at_once_witness :
  exists s' ov,
    _on_second_display_dim_changed 70 session_second_display
    = (Returned tt, s')
    /\ second_display_dim (second_display s') = 70
    /\ option_map s_second_display_dim (state_file s') = Some 70
    /\ dimmer_active s' = dimmer_active session_second_display
    /\ overlays s' !! 0 = overlays session_second_display !! 0
    /\ overlays s' !! 1 = Some ov
    /\ ov = dimmed (overlays session_second_display !! 1) 70 None
    /\ DimmerOverlay._current_opacity ov
       = DimmerOverlay.actual_opacity 70 None.
Proof.
  apply (second_display_slider_acts_at_once 70 session_second_display);
    try reflexivity.
  change (1 < 2)%nat. lia.
Defined.

(** *** Start-up *)

(** What a handler that only works on the overlays, the dimmer flag,
    the tray, the state file and the re-entrancy flag leaves alone. *)
Lemma state_of_settings (c c' : DimmerControl) :
  current_dim c' = current_dim c ->
  blue_light_active c' = blue_light_active c ->
  blue_intensity c' = blue_intensity c ->
  second_display c' = second_display c ->
  schedule c' = schedule c ->
  blinker c' = blinker c ->
  StateManager.state c'
  = StateManager.state (set_dimmer_active (dimmer_active c') c).
Proof.
  intros H1 H2 H3 H4 H5 H6. unfold StateManager.state. keep_fields.
  rewrite H1, H2, H3, H4, H5, H6. reflexivity.
Qed.














(** *** The blink reminder *)
Ltac app_fields :=
  cbn [control rain_overlays blinker_timer blinker_countdown_timer
       blinker_start_time timer_active timer_minutes timer_end_time
       timer_timer blinker_tray geometry set_control set_rain_overlays
       set_blinker_timer set_blinker_countdown_timer set_blinker_start_time
       set_quick_timer set_timer_timer show with_blinker
       blinker_active emoji_blink_enabled text_blink_enabled
       rain_interval_minutes rain_duration_seconds] in *.









(** *** The quick timer *)

(** X27.  The quick timer: [_start_timer] leaves the dimmer active
    (switching it on if needed) with the end time [minutes] later and
    its [QTimer] at 10 s.  A check before the end time changes
    nothing; a check at or after it switches the dimmer off, resets
    the timer's attributes, stops its [QTimer] and shows "Timer
    Ended", without writing the state file, which still says that the
    dimmer is on when the timer had switched it on. *)
Theorem quick_timer_switches_off (minutes now later : Z) (a : App) :
  _toggle_in_progress (control a) = false ->
  tint_inputs_ok (control a) ->
  exists a1 a2,
    _start_timer minutes now a = (Returned tt, a1)
    /\ dimmer_active (control a1) = true
    /\ timer_active a1 = true
    /\ timer_end_time a1 = Some (now + minutes * 60 * 1000000)
    /\ timer_timer a1 = Some 10000
    /\ _check_timer later a1 = (Returned tt, a2)
    /\ if now + minutes * 60 * 1000000 <=? later then
         dimmer_active (control a2) = false
         /\ timer_active a2 = false /\ timer_end_time a2 = None
         /\ timer_timer a2 = None
         /\ blinker_tray a2 = TimerEnded :: blinker_tray a1
         /\ state_file (control a2) = state_file (control a1)
         /\ (dimmer_active (control a) = false ->
             option_map s_dimmer_active (state_file (control a2)) = Some true)
       else a2 = a1.
Proof.
  intros Hfree Hok. unfold _start_timer. app_fields.
  assert (Hstart : exists c1,
    (if negb (dimmer_active (control a))
     then lift _toggle_dimmer
            (set_quick_timer true minutes
               (Some (now + minutes * 60 * 1000000)) a)
     else (Returned tt,
           set_quick_timer true minutes
             (Some (now + minutes * 60 * 1000000)) a))
    = (Returned tt,
       set_control c1
         (set_quick_timer true minutes
            (Some (now + minutes * 60 * 1000000)) a))
    /\ dimmer_active c1 = true /\ _toggle_in_progress c1 = false
    /\ tint_inputs_ok c1
    /\ (dimmer_active (control a) = false ->
        option_map s_dimmer_active (state_file c1) = Some true)).
  { destruct (dimmer_active (control a)) eqn:Hact; cbn [negb].
    - exists (control a). destruct a.
      repeat match goal with |- _ /\ _ => split end;
        first [reflexivity | assumption | discriminate].
    - destruct (toggle_on_run (control a) Hact Hfree Hok) as (o & Hrun).
      unfold lift. app_fields. rewrite Hrun.
      eexists. split; [reflexivity|]. keep_fields.
      repeat match goal with |- _ /\ _ => split end;
        first [reflexivity | assumption]. }
  destruct Hstart as (c1 & Hrun1 & Hact1 & Hfree1 & Hok1 & Hsaved).
  destruct (toggle_off_run c1 Hact1 Hfree1) as (r & o & Hrun2 & Hr).
  specialize (Hr Hok1). subst r.
  rewrite Hrun1. unfold _check_timer.
  destruct (Z.leb_spec (now + minutes * 60 * 1000000) later) as [Hle|Hlt].
  - eexists _, _. split; [reflexivity|]. app_fields.
    split; [exact Hact1|]. split; [reflexivity|]. split; [reflexivity|].
    split; [reflexivity|].
    destruct (Z.leb_spec (now + minutes * 60 * 1000000) later); [|lia].
    rewrite Hact1. unfold lift. app_fields. rewrite Hrun2.
    split; [reflexivity|]. app_fields. keep_fields.
    repeat match goal with |- _ /\ _ => split end;
      first [reflexivity | assumption].
  - eexists _, _. split; [reflexivity|]. app_fields.
    split; [exact Hact1|]. split; [reflexivity|]. split; [reflexivity|].
    split; [reflexivity|].
    destruct (Z.leb_spec (now + minutes * 60 * 1000000) later); [lia|].
    split; reflexivity.
Qed.

Lemma quick_timer_switches_off_witness :
  exists a1 a2,
    _start_timer 30 1000000 (App__init__ 1 (fun _ => (1920, 1080)))
    = (Returned tt, a1)
    /\ dimmer_active (control a1) = true
    /\ timer_active a1 = true
    /\ timer_end_time a1 = Some (1000000 + 30 * 60 * 1000000)
    /\ timer_timer a1 = Some 10000
    /\ _check_timer 1801000000 a1 = (Returned tt, a2)
    /\ if 1000000 + 30 * 60 * 1000000 <=? 1801000000 then
         dimmer_active (control a2) = false
         /\ timer_active a2 = false /\ timer_end_time a2 = None
         /\ timer_timer a2 = None
         /\ blinker_tray a2 = TimerEnded :: blinker_tray a1
         /\ state_file (control a2) = state_file (control a1)
         /\ (dimmer_active (control (App__init__ 1 (fun _ => (1920, 1080))))
             = false ->
             option_map s_dimmer_active (state_file (control a2)) = Some true)
       else a2 = a1.
Proof.
  apply (quick_timer_switches_off 30 1000000 1801000000
           (App__init__ 1 (fun _ => (1920, 1080)))).
  - reflexivity.
  - apply tint_inputs_ok_defaults; reflexivity.
Defined.

End Screens.
